(** * RADIUS management API: the raw-SQL service and its in-memory test double

    A shallow embedding of [api-service/app.py] (FastAPI over raw MySQL
    queries) and of [api-service/test_app.py] (the same routes over
    module-level dictionaries), followed by the properties of the service
    contract that the two files decide.

    Layout:
    - [Py]       Python list slicing and insertion-ordered dictionaries;
    - [Http]     exceptions, response bodies, responses;
    - [Sql]      the tables, the statements the service sends, their meaning;
    - [App]      app.py: [DatabaseManager] and the route handlers;
    - [TestApp]  test_app.py: the [mock_*] dictionaries and the handlers;
    - [Auth]     [HTTPBearer] and [verify_token];
    - [Routes]   one request type served by both variants;
    - the vocabulary of the statements, then the theorems: the service
      contract first, then what requests may do to the stores, accounting and
      online data, backend failures, how the routes compose, and last the
      two variants side by side. *)

From Stdlib Require Import ZArith String List Bool Lia DecimalString Sorted.
From stdpp Require Import base tactics list strings.
Import ListNotations.

Local Open Scope string_scope.
Local Open Scope list_scope.
Local Open Scope Z_scope.

(* ===================================================================== *)
(** * Python values used by the handlers *)
(* ===================================================================== *)

Module Py.

(** [l[start:stop]] for integer bounds and no step: a negative bound counts
    from the end, and both bounds are clipped to [0, len(l)]. *)
Definition clip (len i : Z) : Z :=
  if i <? 0 then Z.max 0 (i + len) else Z.min i len.

Definition slice {A : Type} (l : list A) (start stop : Z) : list A :=
  let len := Z.of_nat (length l) in
  let lo := clip len start in
  let hi := clip len stop in
  firstn (Z.to_nat (hi - lo)) (skipn (Z.to_nat lo) l).

(** A [dict] with [str] keys: an association list in insertion order.
    [d[k] = v] overwrites in place when [k] is present and appends
    otherwise, so the keys of a dictionary built through [setitem] stay
    distinct. *)
Definition dict (V : Type) : Type := list (string * V).

Definition keys {V : Type} (d : dict V) : list string := map fst d.

Definition len {V : Type} (d : dict V) : Z := Z.of_nat (length d).

Fixpoint getitem {V : Type} (k : string) (d : dict V) : option V :=
  match d with
  | [] => None
  | (k', v) :: d' => if String.eqb k' k then Some v else getitem k d'
  end.

(** [k in d] *)
Definition contains {V : Type} (k : string) (d : dict V) : bool :=
  match getitem k d with Some _ => true | None => false end.

(** [d[k] = v] *)
Fixpoint setitem {V : Type} (k : string) (v : V) (d : dict V) : dict V :=
  match d with
  | [] => [(k, v)]
  | (k', v') :: d' =>
      if String.eqb k' k then (k, v) :: d' else (k', v') :: setitem k v d'
  end.

(** [del d[k]], used by the handlers only under [k in d]: the entry under
    [k] goes, the others keep their order. *)
Definition delitem {V : Type} (k : string) (d : dict V) : dict V :=
  List.filter (fun entry => negb (String.eqb (fst entry) k)) d.

(** [str(n)] for an integer. *)
Definition str_int (n : Z) : string := NilZero.string_of_int (Z.to_int n).

End Py.

(* ===================================================================== *)
(** * HTTP: exceptions, bodies, responses *)
(* ===================================================================== *)

Module Http.

(** [fastapi.HTTPException(status_code, detail, headers)] *)
Record HTTPException : Type := mkHTTPException {
  status_code : Z;
  detail : string;
  exc_headers : list (string * string)
}.

(** A handler either returns or raises an [HTTPException]. *)
Inductive Result (A : Type) : Type :=
| Ok (a : A)
| Raise (e : HTTPException).
Arguments Ok {A} a.
Arguments Raise {A} e.

(** Column values of a result row, and JSON scalars of a response. *)
Inductive Value : Type :=
| Null
| Int (n : Z)
| Str (s : string).

(** A row fetched with [cursor(dictionary=True)], or a JSON object. *)
Definition Row : Type := list (string * Value).

Inductive Body : Type :=
| StatusResponse (message : string)
| PaginatedResponse (count : Z) (data : list Row)
| LogData (logdata : list Row)            (* {"logdata": [...]} *)
| RowList (rows : list Row)               (* a bare JSON array of objects *)
| Object (fields : Row)                   (* a flat JSON object *)
| ErrorDetail (message : string).         (* {"detail": ...} *)

Record Response : Type := mkResponse {
  status : Z;
  body : Body;
  headers : list (string * string)
}.

(** What the framework sends for a handler's outcome: the route's declared
    status code with the returned body, or the exception's own status,
    detail and headers. *)
Definition respond (declared : Z) (r : Result Body) : Response :=
  match r with
  | Ok b => mkResponse declared b []
  | Raise e => mkResponse (status_code e) (ErrorDetail (detail e)) (exc_headers e)
  end.

Definition HTTP_200_OK : Z := 200.
Definition HTTP_201_CREATED : Z := 201.
Definition HTTP_401_UNAUTHORIZED : Z := 401.

(** [str(e)] for an [HTTPException]: Starlette prints status and detail. *)
Definition str_exc (e : HTTPException) : string :=
  Py.str_int (status_code e) +:+ ": " +:+ detail e.

End Http.
Export Http.

(* ===================================================================== *)
(** * The bearer gate: [security = HTTPBearer()] and [verify_token] *)
(* ===================================================================== *)

Module Auth.

(** [HTTPBearer()] belongs to the framework, not to this repository.  With
    its default [auto_error=True] it hands the bearer credentials to the
    dependant when the request carries them and raises an exception of its
    own otherwise; which exception is the framework's choice and is kept
    as a parameter. *)
Record Framework : Type := mkFramework {
  not_authenticated : HTTPException
}.

(** FastAPI before release 0.122: 403 and no challenge header. *)
Definition fastapi_forbidden : Framework :=
  mkFramework (mkHTTPException 403 "Not authenticated" []).

(** FastAPI from release 0.122 on: 401 with a challenge header. *)
Definition fastapi_unauthorized : Framework :=
  mkFramework (mkHTTPException 401 "Not authenticated" [("WWW-Authenticate", "Bearer")]).

(** [bearer] is the token of the request's [Authorization: Bearer ...]
    header, [None] when the request carries no bearer credentials. *)
Definition HTTPBearer (fw : Framework) (bearer : option string) : Result string :=
  match bearer with
  | Some credentials => Ok credentials
  | None => Raise (not_authenticated fw)
  end.

(** app.py 130-137 and test_app.py 51-58 (the same text). *)
Definition verify_token (BEARER_TOKEN : string) (credentials : string) : Result string :=
  if negb (String.eqb credentials BEARER_TOKEN) then
    Raise (mkHTTPException HTTP_401_UNAUTHORIZED
             "Invalid authentication token"
             [("WWW-Authenticate", "Bearer")])
  else Ok credentials.

(** [token: str = Depends(verify_token)]: the dependency is solved before
    the handler's body runs, and an exception it raises is the response. *)
Definition Depends {S A : Type} (fw : Framework) (BEARER_TOKEN : string)
    (bearer : option string) (handler : S -> Result A * S) : S -> Result A * S :=
  fun s =>
    match HTTPBearer fw bearer with
    | Raise e => (Raise e, s)
    | Ok credentials =>
        match verify_token BEARER_TOKEN credentials with
        | Raise e => (Raise e, s)
        | Ok _ => handler s
        end
    end.

End Auth.

(* ===================================================================== *)
(** * The relational store: tables, statements, and their meaning *)
(* ===================================================================== *)

Module Sql.

(** Rows carry the columns the service names in its statements. *)
Record radcheck_row : Type := mk_radcheck {
  rc_username : string; rc_attribute : string; rc_op : string; rc_value : string
}.

Record radusergroup_row : Type := mk_radusergroup {
  ug_username : string; ug_groupname : string
}.

(** [radgroupcheck] and [radgroupreply] have the same columns. *)
Record radgroup_row : Type := mk_radgroup {
  rg_groupname : string; rg_attribute : string; rg_op : string; rg_value : string
}.

Record nas_row : Type := mk_nas {
  nasname : string; shortname : string; nas_type : string;
  secret : string; description : string
}.

Record radacct_row : Type := mk_radacct {
  radacctid : Z;
  username : string;
  acctterminatecause : string;
  callingstationid : string;
  nasipaddress : string;
  acctstarttime : option string;
  acctupdatetime : option string;
  acctstoptime : option string;       (* NULL while the session is active *)
  acctsessiontime : option Z;
  acctinputoctets : option Z;
  acctoutputoctets : option Z;
  framedipaddress : string
}.

Record Db : Type := mkDb {
  radcheck : list radcheck_row;
  radusergroup : list radusergroup_row;
  radgroupcheck : list radgroup_row;
  radgroupreply : list radgroup_row;
  radacct : list radacct_row;
  nas : list nas_row
}.

Definition empty : Db := mkDb [] [] [] [] [] [].

(** The statements of app.py, one constructor per SQL text, with the
    parameters bound to its [%s] markers. *)
Inductive Statement : Type :=
(* SELECT COUNT( * ) as count FROM radgroupcheck WHERE groupname = %s *)
| count_radgroupcheck (groupname : string)
(* INSERT INTO radgroupcheck (groupname, attribute, op, value) VALUES ... *)
| insert_radgroupcheck (groupname attribute op value : string)
(* INSERT INTO radgroupreply (groupname, attribute, op, value) VALUES ... *)
| insert_radgroupreply (groupname attribute op value : string)
(* SELECT COUNT(DISTINCT groupname) as count FROM radgroupcheck *)
| count_distinct_groupname
(* SELECT DISTINCT groupname FROM radgroupcheck GROUP BY groupname
   LIMIT %s OFFSET %s *)
| select_distinct_groupname (limit offset : Z)
(* SELECT COUNT( * ) as count FROM radcheck WHERE username = %s *)
| count_radcheck (username : string)
(* INSERT INTO radcheck (username, attribute, op, value) VALUES ... *)
| insert_radcheck (username attribute op value : string)
(* INSERT INTO radusergroup (username, groupname) VALUES (%s, %s) *)
| insert_radusergroup (username groupname : string)
(* SELECT username, value FROM radcheck WHERE username = %s *)
| select_radcheck (username : string)
(* DELETE FROM radcheck WHERE username = %s *)
| delete_radcheck (username : string)
(* DELETE FROM radusergroup WHERE username = %s *)
| delete_radusergroup (username : string)
(* SELECT COUNT( * ) as count FROM radacct WHERE username = %s *)
| count_radacct (username : string)
(* SELECT radacctid, ... FROM radacct WHERE username = %s
   ORDER BY radacctid LIMIT %s OFFSET %s *)
| select_radacct (username : string) (limit offset : Z)
(* SELECT radacctid, ... FROM radacct WHERE acctstoptime IS NULL *)
| select_online
(* SELECT COUNT( * ) as count FROM radacct WHERE acctstoptime IS NULL *)
| count_online
(* SELECT COUNT( * ) as count FROM radacct
   WHERE username = %s AND acctstoptime IS NULL *)
| count_online_user (username : string)
(* SELECT COUNT( * ) as count FROM nas WHERE nasname = %s *)
| count_nas (nasname : string)
(* INSERT INTO nas (nasname, shortname, type, secret, description) VALUES ... *)
| insert_nas (nasname shortname type secret description : string)
(* SELECT 1 *)
| select_1.

(** [query.strip().upper().startswith('SELECT')] *)
Definition is_select (q : Statement) : bool :=
  match q with
  | insert_radgroupcheck _ _ _ _ | insert_radgroupreply _ _ _ _
  | insert_radcheck _ _ _ _ | insert_radusergroup _ _
  | delete_radcheck _ | delete_radusergroup _
  | insert_nas _ _ _ _ _ => false
  | _ => true
  end.

(** ** Relational operators *)

Definition count_where {A : Type} (p : A -> bool) (t : list A) : Z :=
  Z.of_nat (length (List.filter p t)).

(** [DISTINCT]: one copy of each name.  The query has no [ORDER BY], so the
    order of the result is the engine's to choose; storage order (first
    appearance) is used here, and the statements below that speak of
    app.py's package list speak of its names and their number, not of their
    order. *)
Fixpoint distinct (l : list string) : list string :=
  match l with
  | [] => []
  | x :: l' => x :: List.filter (fun y => negb (String.eqb y x)) (distinct l')
  end.

(** [LIMIT limit OFFSET offset]; MySQL rejects a negative bound. *)
Definition limit_offset {A : Type} (limit offset : Z) (l : list A) : option (list A) :=
  if (limit <? 0) || (offset <? 0) then None
  else Some (firstn (Z.to_nat limit) (skipn (Z.to_nat offset) l)).

(** [ORDER BY radacctid]: insertion sort on the key. *)
Fixpoint insert_by_id (r : radacct_row) (l : list radacct_row) : list radacct_row :=
  match l with
  | [] => [r]
  | r' :: l' => if radacctid r <=? radacctid r' then r :: r' :: l'
                else r' :: insert_by_id r l'
  end.

Definition order_by_radacctid (l : list radacct_row) : list radacct_row :=
  fold_right insert_by_id [] l.

Definition is_null {A : Type} (o : option A) : bool :=
  match o with None => true | Some _ => false end.

(** ** Result rows *)

Definition opt_str (o : option string) : Value :=
  match o with Some s => Str s | None => Null end.
Definition opt_int (o : option Z) : Value :=
  match o with Some n => Int n | None => Null end.

Definition count_row (n : Z) : Row := [("count", Int n)].
Definition groupname_row (g : string) : Row := [("groupname", Str g)].
Definition radcheck_value_row (r : radcheck_row) : Row :=
  [("username", Str (rc_username r)); ("value", Str (rc_value r))].
Definition radacct_full_row (r : radacct_row) : Row :=
  [("radacctid", Int (radacctid r)); ("username", Str (username r));
   ("acctterminatecause", Str (acctterminatecause r));
   ("callingstationid", Str (callingstationid r));
   ("nasipaddress", Str (nasipaddress r));
   ("acctstarttime", opt_str (acctstarttime r));
   ("acctupdatetime", opt_str (acctupdatetime r));
   ("acctstoptime", opt_str (acctstoptime r));
   ("acctsessiontime", opt_int (acctsessiontime r));
   ("acctinputoctets", opt_int (acctinputoctets r));
   ("acctoutputoctets", opt_int (acctoutputoctets r));
   ("framedipaddress", Str (framedipaddress r))].
Definition radacct_online_row (r : radacct_row) : Row :=
  [("radacctid", Int (radacctid r)); ("username", Str (username r));
   ("callingstationid", Str (callingstationid r));
   ("nasipaddress", Str (nasipaddress r));
   ("acctstarttime", opt_str (acctstarttime r));
   ("framedipaddress", Str (framedipaddress r))].

(** ** Meaning of a statement

    [run q d] is [None] when the engine rejects the statement and
    otherwise the fetched rows, the number of affected rows and the
    database after the statement. *)
Definition run (q : Statement) (d : Db) : option (list Row * Z * Db) :=
  match q with
  | count_radgroupcheck g =>
      Some ([count_row (count_where (fun r => String.eqb (rg_groupname r) g) (radgroupcheck d))], 1, d)
  | insert_radgroupcheck g a o v =>
      Some ([], 1, mkDb (radcheck d) (radusergroup d)
                        (radgroupcheck d ++ [mk_radgroup g a o v])
                        (radgroupreply d) (radacct d) (nas d))
  | insert_radgroupreply g a o v =>
      Some ([], 1, mkDb (radcheck d) (radusergroup d) (radgroupcheck d)
                        (radgroupreply d ++ [mk_radgroup g a o v])
                        (radacct d) (nas d))
  | count_distinct_groupname =>
      Some ([count_row (Z.of_nat (length (distinct (map rg_groupname (radgroupcheck d)))))], 1, d)
  | select_distinct_groupname limit offset =>
      match limit_offset limit offset (distinct (map rg_groupname (radgroupcheck d))) with
      | Some page => Some (map groupname_row page, Z.of_nat (length page), d)
      | None => None
      end
  | count_radcheck u =>
      Some ([count_row (count_where (fun r => String.eqb (rc_username r) u) (radcheck d))], 1, d)
  | insert_radcheck u a o v =>
      Some ([], 1, mkDb (radcheck d ++ [mk_radcheck u a o v]) (radusergroup d)
                        (radgroupcheck d) (radgroupreply d) (radacct d) (nas d))
  | insert_radusergroup u g =>
      Some ([], 1, mkDb (radcheck d) (radusergroup d ++ [mk_radusergroup u g])
                        (radgroupcheck d) (radgroupreply d) (radacct d) (nas d))
  | select_radcheck u =>
      let rows := List.filter (fun r => String.eqb (rc_username r) u) (radcheck d) in
      Some (map radcheck_value_row rows, Z.of_nat (length rows), d)
  | delete_radcheck u =>
      Some ([], count_where (fun r => String.eqb (rc_username r) u) (radcheck d),
            mkDb (List.filter (fun r => negb (String.eqb (rc_username r) u)) (radcheck d))
                 (radusergroup d) (radgroupcheck d) (radgroupreply d) (radacct d) (nas d))
  | delete_radusergroup u =>
      Some ([], count_where (fun r => String.eqb (ug_username r) u) (radusergroup d),
            mkDb (radcheck d)
                 (List.filter (fun r => negb (String.eqb (ug_username r) u)) (radusergroup d))
                 (radgroupcheck d) (radgroupreply d) (radacct d) (nas d))
  | count_radacct u =>
      Some ([count_row (count_where (fun r => String.eqb (username r) u) (radacct d))], 1, d)
  | select_radacct u limit offset =>
      match limit_offset limit offset
              (order_by_radacctid
                 (List.filter (fun r => String.eqb (username r) u) (radacct d))) with
      | Some page => Some (map radacct_full_row page, Z.of_nat (length page), d)
      | None => None
      end
  | select_online =>
      let rows := List.filter (fun r => is_null (acctstoptime r)) (radacct d) in
      Some (map radacct_online_row rows, Z.of_nat (length rows), d)
  | count_online =>
      Some ([count_row (count_where (fun r => is_null (acctstoptime r)) (radacct d))], 1, d)
  | count_online_user u =>
      Some ([count_row (count_where
               (fun r => String.eqb (username r) u && is_null (acctstoptime r))
               (radacct d))], 1, d)
  | count_nas n =>
      Some ([count_row (count_where (fun r => String.eqb (nasname r) n) (nas d))], 1, d)
  | insert_nas n s t sec descr =>
      Some ([], 1, mkDb (radcheck d) (radusergroup d) (radgroupcheck d)
                        (radgroupreply d) (radacct d) (nas d ++ [mk_nas n s t sec descr]))
  | select_1 => Some ([[("1", Int 1)]], 1, d)
  end.

End Sql.

(* ===================================================================== *)
(** * app.py: the raw-SQL service *)
(* ===================================================================== *)

Module App.
Import Sql.

(** ** Pydantic models (app.py 48-56) *)

Module PackageCreate.
Record t : Type := make { package : string; pool : string }.
End PackageCreate.

Module UserCreate.
Record t : Type := make {
  username : string; passwd : string; expdate : string; package : string
}.
End UserCreate.

(** ** The world a request runs in *)

(** How [subprocess.run(cmd, ..., timeout=t)] ends. *)
Inductive ProcOutcome : Type :=
| CompletedProcess (returncode : Z) (stdout stderr : string)
| TimeoutExpired
| OtherError (message : string).

(** [db] is the committed database.  [faults] is what the backend will do
    at the next interactions with it (obtaining a connection, executing a
    statement, committing): [Some msg] makes that interaction raise
    [mysql.connector.Error(msg)], and an exhausted list means no further
    failure.  [journal] lists the statements handed to [cursor.execute],
    [spawned] the shell commands started, each with its timeout. *)
Record World : Type := mkWorld {
  db : Db;
  faults : list (option string);
  journal : list Statement;
  subprocess_run : string -> Z -> ProcOutcome;
  spawned : list (string * Z)
}.

Definition with_db (d : Db) (w : World) : World :=
  mkWorld d (faults w) (journal w) (subprocess_run w) (spawned w).
Definition with_faults (fs : list (option string)) (w : World) : World :=
  mkWorld (db w) fs (journal w) (subprocess_run w) (spawned w).
Definition with_journal (j : list Statement) (w : World) : World :=
  mkWorld (db w) (faults w) j (subprocess_run w) (spawned w).
Definition with_spawned (s : list (string * Z)) (w : World) : World :=
  mkWorld (db w) (faults w) (journal w) (subprocess_run w) s.

(** Handlers thread the world and may raise. *)
Definition M (A : Type) : Type := World -> Result A * World.

Definition ret {A : Type} (a : A) : M A := fun w => (Ok a, w).
Definition raise {A : Type} (e : HTTPException) : M A := fun w => (Raise e, w).
Definition bind {A B : Type} (m : M A) (k : A -> M B) : M B :=
  fun w =>
    match m w with
    | (Ok a, w') => k a w'
    | (Raise e, w') => (Raise e, w')
    end.

Notation "'let*' x := m 'in' k" := (bind m (fun x => k))
  (at level 10, x name, m at level 100, k at level 200).

(** ** [DatabaseManager] (app.py 66-124) *)

Definition next_fault (w : World) : option string * World :=
  match faults w with
  | [] => (None, w)
  | f :: fs => (f, with_faults fs w)
  end.

Definition syntax_error : string :=
  "1064 (42000): You have an error in your SQL syntax".

(** [cursor.execute(query, params)] on a connection whose uncommitted view
    of the database is [pending]. *)
Definition cursor_execute (query : Statement) (pending : Db) (w : World)
    : (string + list Row * Z * Db) * World :=
  let (f, w1) := next_fault w in
  let w2 := with_journal (journal w1 ++ [query]) w1 in
  match f with
  | Some msg => (inl msg, w2)
  | None =>
      match run query pending with
      | Some r => (inr r, w2)
      | None => (inl syntax_error, w2)
      end
  end.

Inductive QResult : Type :=
| Fetched (rows : list Row)      (* cursor.fetchall() *)
| RowCount (n : Z)               (* cursor.rowcount *)
| LastRowId.                     (* cursor.lastrowid; no caller reads it *)

Definition database_error (msg : string) : HTTPException :=
  mkHTTPException 500 ("Database error: " +:+ msg) [].

Definition transaction_failed (msg : string) : HTTPException :=
  mkHTTPException 500 ("Transaction failed: " +:+ msg) [].

(** [execute_query]: a [SELECT] is fetched and nothing is committed; any
    other statement is committed.  A backend error rolls the connection
    back, so the committed database is the one before the call. *)
Definition execute_query (query : Statement) (fetch : bool) : M QResult :=
  fun w =>
    match next_fault w with                         (* self.get_connection() *)
    | (Some msg, w1) => (Raise (database_error msg), w1)
    | (None, w1) =>
        match cursor_execute query (db w1) w1 with
        | (inl msg, w2) => (Raise (database_error msg), w2)      (* conn.rollback() *)
        | (inr (rows, n, pending), w2) =>
            if fetch && is_select query then (Ok (Fetched rows), w2)
            else
              match next_fault w2 with              (* conn.commit() *)
              | (Some msg, w3) => (Raise (database_error msg), w3)
              | (None, w3) =>
                  (Ok (if fetch then RowCount n else LastRowId), with_db pending w3)
              end
        end
    end.

(** The loop of [execute_transaction] over one cursor. *)
Fixpoint execute_all (queries : list Statement) (pending : Db) (w : World)
    : (string + Db) * World :=
  match queries with
  | [] => (inr pending, w)
  | q :: rest =>
      match cursor_execute q pending w with
      | (inl msg, w') => (inl msg, w')
      | (inr (_, _, pending'), w') => execute_all rest pending' w'
      end
  end.

Definition execute_transaction (queries : list Statement) : M bool :=
  fun w =>
    match next_fault w with                         (* self.get_connection() *)
    | (Some msg, w1) => (Raise (transaction_failed msg), w1)
    | (None, w1) =>
        match execute_all queries (db w1) w1 with
        | (inl msg, w2) => (Raise (transaction_failed msg), w2)  (* conn.rollback() *)
        | (inr pending, w2) =>
            match next_fault w2 with                (* conn.commit() *)
            | (Some msg, w3) => (Raise (transaction_failed msg), w3)
            | (None, w3) => (Ok true, with_db pending w3)
            end
        end
    end.

(** An exception no handler catches (a missing row or column) is answered
    by the framework with a bare 500. *)
Definition internal_server_error : HTTPException :=
  mkHTTPException 500 "Internal Server Error" [].

(** [result[0]['count']] *)
Definition first_count (result : QResult) : M Z :=
  match result with
  | Fetched (row :: _) =>
      match Py.getitem "count" row with
      | Some (Int n) => ret n
      | _ => raise internal_server_error
      end
  | _ => raise internal_server_error
  end.

(** The rows of a fetched result, as a handler passes them on. *)
Definition fetched (result : QResult) : M (list Row) :=
  match result with
  | Fetched rows => ret rows
  | _ => raise internal_server_error
  end.

(** ** Routes (app.py 162-427) *)

Definition root : M Body :=
  ret (StatusResponse "RADIUS Management API is running").

Definition create_package (package : PackageCreate.t) : M Body :=
  let* result := execute_query (count_radgroupcheck (PackageCreate.package package)) true in
  let* count := first_count result in
  if 0 <? count then
    raise (mkHTTPException 400 "Package already exists" [])
  else
    let queries :=
      [ insert_radgroupcheck (PackageCreate.package package) "Simultaneous-Use" ":=" "1";
        insert_radgroupreply (PackageCreate.package package) "Framed-Pool" "="
          (PackageCreate.pool package);
        insert_radgroupreply (PackageCreate.package package) "Acct-Interim-Interval" "=" "120" ] in
    let* _ := execute_transaction queries in
    ret (StatusResponse "Package created successfully").

Definition get_packages (limit offset : Z) : M Body :=
  let* count_result := execute_query count_distinct_groupname true in
  let* count := first_count count_result in
  let* packages_result := execute_query (select_distinct_groupname limit offset) true in
  let* packages := fetched packages_result in
  ret (PaginatedResponse count packages).

Definition create_user (user : UserCreate.t) : M Body :=
  let* result := execute_query (count_radcheck (UserCreate.username user)) true in
  let* count := first_count result in
  if 0 <? count then
    raise (mkHTTPException 400 "User already exists" [])
  else
    let queries :=
      [ insert_radcheck (UserCreate.username user) "Cleartext-Password" ":="
          (UserCreate.passwd user);
        insert_radcheck (UserCreate.username user) "Expiration" ":="
          (UserCreate.expdate user);
        insert_radusergroup (UserCreate.username user) (UserCreate.package user) ] in
    let* _ := execute_transaction queries in
    ret (StatusResponse "User created successfully").

Definition get_user (username : string) : M Body :=
  let* result := execute_query (select_radcheck username) true in
  let* users := fetched result in
  match users with
  | [] => raise (mkHTTPException 404 "User not found" [])
  | _ => ret (LogData users)
  end.

Definition delete_user (username : string) : M Body :=
  let* result := execute_query (count_radcheck username) true in
  let* count := first_count result in
  if count =? 0 then
    raise (mkHTTPException 404 "User not found" [])
  else
    let queries := [ delete_radcheck username; delete_radusergroup username ] in
    let* _ := execute_transaction queries in
    ret (StatusResponse "User deleted successfully").

Definition get_user_accounting (username : string) (limit offset : Z) : M Body :=
  let* count_result := execute_query (count_radacct username) true in
  let* count := first_count count_result in
  let* result := execute_query (select_radacct username limit offset) true in
  let* records := fetched result in
  ret (PaginatedResponse count records).

Definition get_online_users : M Body :=
  let* result := execute_query select_online true in
  let* online_users := fetched result in
  ret (RowList online_users).

Definition get_online_count : M Body :=
  let* result := execute_query count_online true in
  let* count := first_count result in
  ret (Object [("total_online", Int count)]).

Definition get_user_online_status (username : string) : M Body :=
  let* user_result := execute_query (count_radcheck username) true in
  let* user_count := first_count user_result in
  if user_count =? 0 then
    raise (mkHTTPException 404 "User not found" [])
  else
    let* online_result := execute_query (count_online_user username) true in
    let* online_count := first_count online_result in
    let status_msg := if 0 <? online_count then "Online" else "Offline" in
    ret (Object [("status", Str status_msg)]).

Definition create_nas (nasname shortname secret type description : string) : M Body :=
  let* result := execute_query (count_nas nasname) true in
  let* count := first_count result in
  if 0 <? count then
    raise (mkHTTPException 400 "NAS already exists" [])
  else
    let* _ := execute_query (insert_nas nasname shortname type secret description) false in
    ret (StatusResponse "NAS created successfully").

(** What the [try] block of [disconnect_session] can raise. *)
Inductive Exc : Type :=
| HTTPExc (e : HTTPException)
| TimeoutExpiredExc
| OtherExc (message : string).

Definition str (e : Exc) : string :=
  match e with
  | HTTPExc h => str_exc h
  | TimeoutExpiredExc => "Command timed out after 30 seconds"
  | OtherExc message => message
  end.

Definition disconnect_command (session nas : string) : string :=
  "echo Acct-Session-Id=" +:+ session +:+ " | radclient -r 1 " +:+ nas
    +:+ ":3799 disconnect RGL@dmin321#".

Definition disconnect_session (session nas : string) : M Body :=
  fun w =>
    let cmd := disconnect_command session nas in
    let w' := with_spawned (spawned w ++ [(cmd, 30)]) w in
    (* the body of the try block *)
    let attempt : Exc + Body :=
      match subprocess_run w cmd 30 with
      | CompletedProcess returncode _ _ =>
          if returncode =? 0 then
            inr (StatusResponse "User session disconnected successfully")
          else
            inl (HTTPExc (mkHTTPException 500 "Session disconnect failed" []))
      | TimeoutExpired => inl TimeoutExpiredExc
      | OtherError message => inl (OtherExc message)
      end in
    match attempt with
    | inr response => (Ok response, w')
    | inl TimeoutExpiredExc =>                       (* except subprocess.TimeoutExpired *)
        (Raise (mkHTTPException 500 "Session disconnect timeout" []), w')
    | inl e =>                                       (* except Exception as e *)
        (Raise (mkHTTPException 500 ("Session disconnect failed: " +:+ str e) []), w')
    end.

Definition health_check (now : string) : M Body :=
  fun w =>
    let (outcome, w') := execute_query select_1 true w in
    let db_status :=
      match outcome with
      | Ok _ => "connected"
      | Raise e => "error: " +:+ str_exc e       (* except Exception as e *)
      end in
    (Ok (Object [("status", Str (if String.eqb db_status "connected"
                                 then "healthy" else "unhealthy"));
                 ("database", Str db_status);
                 ("timestamp", Str now)]), w').

End App.

(* ===================================================================== *)
(** * test_app.py: the same routes over in-memory dictionaries *)
(* ===================================================================== *)

Module TestApp.

(** ** Pydantic models (test_app.py 32-41) *)

Module PackageCreate.
Record t : Type := make { package : string; pool : string; profile : string }.
End PackageCreate.

Module UserCreate.
Record t : Type := make {
  username : string; passwd : string; expdate : string; package : string
}.
End UserCreate.

(** ** The module-level dictionaries (test_app.py 26-29) *)

(** The values stored under a key; [created] is absent from the entry the
    startup hook seeds. *)
Record package_entry : Type := mk_package {
  pk_package : string; pk_pool : string; pk_profile : string;
  pk_created : option string
}.

Record user_entry : Type := mk_user {
  us_username : string; us_passwd : string; us_expdate : string;
  us_package : string; us_created : string
}.

Record nas_entry : Type := mk_nas {
  ns_nasname : string; ns_shortname : string; ns_secret : string;
  ns_type : string; ns_description : string; ns_created : string
}.

Record Store : Type := mkStore {
  mock_users : Py.dict user_entry;
  mock_packages : Py.dict package_entry;
  mock_accounting : Py.dict (list Row);
  mock_nas : Py.dict nas_entry
}.

Definition empty : Store := mkStore [] [] [] [].

(** The startup half of [lifespan] (test_app.py 60-69). *)
Definition lifespan (s : Store) : Store :=
  mkStore (mock_users s)
          (Py.setitem "basic_package"
             (mk_package "basic_package" "basic_pool" "basic_profile" None)
             (mock_packages s))
          (mock_accounting s) (mock_nas s).

Definition M (A : Type) : Type := Store -> Result A * Store.

Definition ret {A : Type} (a : A) : M A := fun s => (Ok a, s).
Definition raise {A : Type} (e : HTTPException) : M A := fun s => (Raise e, s).

(** ** Routes (test_app.py 91-320); [now] is [datetime.now().isoformat()] *)

Definition root : M Body :=
  ret (StatusResponse "RADIUS Management API is running (Test Mode)").

Definition create_package (now : string) (package : PackageCreate.t) : M Body :=
  fun s =>
    if Py.contains (PackageCreate.package package) (mock_packages s) then
      raise (mkHTTPException 400 "Package already exists" []) s
    else
      let s' :=
        mkStore (mock_users s)
                (Py.setitem (PackageCreate.package package)
                   (mk_package (PackageCreate.package package)
                      (PackageCreate.pool package)
                      (PackageCreate.profile package) (Some now))
                   (mock_packages s))
                (mock_accounting s) (mock_nas s) in
      ret (StatusResponse "Package created successfully") s'.

Definition get_packages (limit offset : Z) : M Body :=
  fun s =>
    let packages_list := Py.keys (mock_packages s) in
    let total_count := Z.of_nat (length packages_list) in
    let start_idx := offset in
    let end_idx := offset + limit in
    let paginated_packages :=
      map (fun pkg => [("groupname", Str pkg)])
          (Py.slice packages_list start_idx end_idx) in
    ret (PaginatedResponse total_count paginated_packages) s.

Definition create_user (now : string) (user : UserCreate.t) : M Body :=
  fun s =>
    if Py.contains (UserCreate.username user) (mock_users s) then
      raise (mkHTTPException 400 "User already exists" []) s
    else if negb (Py.contains (UserCreate.package user) (mock_packages s)) then
      raise (mkHTTPException 400 "Package does not exist" []) s
    else
      let s' :=
        mkStore (Py.setitem (UserCreate.username user)
                   (mk_user (UserCreate.username user) (UserCreate.passwd user)
                      (UserCreate.expdate user) (UserCreate.package user) now)
                   (mock_users s))
                (mock_packages s) (mock_accounting s) (mock_nas s) in
      ret (StatusResponse "User created successfully") s'.

Definition get_user (username : string) : M Body :=
  fun s =>
    match Py.getitem username (mock_users s) with
    | None => raise (mkHTTPException 404 "User not found" []) s
    | Some user_data =>
        ret (LogData [ [("username", Str username); ("value", Str (us_passwd user_data))];
                       [("username", Str username); ("value", Str (us_expdate user_data))] ]) s
    end.

Definition delete_user (username : string) : M Body :=
  fun s =>
    if negb (Py.contains username (mock_users s)) then
      raise (mkHTTPException 404 "User not found" []) s
    else
      let users' := Py.delitem username (mock_users s) in
      (* Also remove from accounting if exists *)
      let accounting' :=
        if Py.contains username (mock_accounting s)
        then Py.delitem username (mock_accounting s)
        else mock_accounting s in
      ret (StatusResponse "User deleted successfully")
          (mkStore users' (mock_packages s) accounting' (mock_nas s)).

(** One of the five records [get_user_accounting] makes up. *)
Definition mock_record (username : string) (i : Z) : Row :=
  let even := (i mod 2 =? 0) in
  let day := Py.str_int (20 + i) in
  [("radacctid", Int i); ("username", Str username);
   ("acctterminatecause", Str (if even then "User-Request" else ""));
   ("callingstationid", Str ("00:11:22:33:44:" +:+ Py.str_int (50 + i)));
   ("nasipaddress", Str "192.168.1.1");
   ("acctstarttime", Str ("2024-08-" +:+ day +:+ " 10:00:00"));
   ("acctupdatetime", Str ("2024-08-" +:+ day +:+ " 11:30:00"));
   ("acctstoptime", if even then Str ("2024-08-" +:+ day +:+ " 12:00:00") else Null);
   ("acctsessiontime", if even then Int 7200 else Null);
   ("acctinputoctets", Int (1024000 * (i + 1)));
   ("acctoutputoctets", Int (2048000 * (i + 1)));
   ("framedipaddress", Str ("10.0.1." +:+ Py.str_int (100 + i)))].

Definition get_user_accounting (username : string) (limit offset : Z) : M Body :=
  fun s =>
    if negb (Py.contains username (mock_users s)) then
      raise (mkHTTPException 404 "User not found" []) s
    else
      let mock_records := map (mock_record username) [0; 1; 2; 3; 4] in
      let total_count := Z.of_nat (length mock_records) in
      let start_idx := offset in
      let end_idx := offset + limit in
      let paginated_records := Py.slice mock_records start_idx end_idx in
      ret (PaginatedResponse total_count paginated_records) s.

(** [hash] is Python's built-in string hash, fixed for the process. *)
Definition get_online_users (hash : string -> Z) : M Body :=
  fun s =>
    ret (RowList
           (map (fun entry : string * user_entry =>
                   [("radacctid", Int (hash (fst entry) mod 10000));
                    ("username", Str (fst entry));
                    ("callingstationid", Str "00:11:22:33:44:55");
                    ("nasipaddress", Str "192.168.1.1");
                    ("acctstarttime", Str "2024-08-30 10:00:00");
                    ("framedipaddress", Str "10.0.1.100")])
                (mock_users s))) s.

Definition get_online_count : M Body :=
  fun s => ret (Object [("total_online", Int (Py.len (mock_users s)))]) s.

Definition get_user_online_status (username : string) : M Body :=
  fun s =>
    if negb (Py.contains username (mock_users s)) then
      raise (mkHTTPException 404 "User not found" []) s
    else
      (* Mock: assume all users are online *)
      ret (Object [("status", Str "Online")]) s.

Definition create_nas (now : string)
    (nasname shortname secret type description : string) : M Body :=
  fun s =>
    if Py.contains nasname (mock_nas s) then
      raise (mkHTTPException 400 "NAS already exists" []) s
    else
      let s' :=
        mkStore (mock_users s) (mock_packages s) (mock_accounting s)
                (Py.setitem nasname
                   (mk_nas nasname shortname secret type description now)
                   (mock_nas s)) in
      ret (StatusResponse "NAS created successfully") s'.

Definition disconnect_session (session nas : string) : M Body :=
  (* Mock implementation - just return success *)
  ret (StatusResponse "User session disconnected successfully (mock)").

Definition health_check (now : string) : M Body :=
  fun s =>
    ret (Object [("status", Str "healthy");
                 ("database", Str "mock (no database in test mode)");
                 ("timestamp", Str now);
                 ("mode", Str "test");
                 ("users_count", Int (Py.len (mock_users s)));
                 ("packages_count", Int (Py.len (mock_packages s)));
                 ("nas_count", Int (Py.len (mock_nas s)))]) s.

End TestApp.

(* ===================================================================== *)
(** * The HTTP surface, served by either variant *)
(* ===================================================================== *)

Module Routes.

(** The JSON bodies a client may post; [profile] is a field only the test
    variant's [PackageCreate] declares. *)
Module PackageJson.
Record t : Type := make {
  package : string; pool : string; profile : option string
}.
End PackageJson.

Module UserJson.
Record t : Type := make {
  username : string; passwd : string; expdate : string; package : string
}.
End UserJson.

Inductive Call : Type :=
| GET_root
| GET_health
| POST_package (body : PackageJson.t)
| GET_package (limit offset : Z)
| POST_user (body : UserJson.t)
| GET_user (username : string)
| DELETE_user (username : string)
| GET_acct (username : string) (limit offset : Z)
| GET_online
| GET_onlinecount
| GET_online_user (username : string)
| POST_nas (nasname shortname secret : string) (type description : option string)
| POST_session_dis (session nas : string).

(** [bearer]: the token of the [Authorization] header, if there is one. *)
Record Request : Type := mkRequest {
  bearer : option string;
  call : Call
}.

(** What a process is configured with and reads from its surroundings. *)
Record Env : Type := mkEnv {
  framework : Auth.Framework;
  BEARER_TOKEN : string;                (* os.getenv('API_KEY', ...) *)
  now : string;                         (* datetime.now().isoformat() *)
  hash : string -> Z                    (* hash(username) *)
}.

(** [Field(..., min_length=lo, max_length=hi)]; the length is that of the
    string as a sequence of characters. *)
Definition length_between (lo hi : nat) (s : string) : bool :=
  (lo <=? String.length s)%nat && (String.length s <=? hi)%nat.

(** A body that fails the model's constraints is answered with 422 before
    the handler is entered.  The detail of the real answer lists the
    offending fields; it is not modelled, and the statements below use the
    status code of such an answer and the unchanged state, never its
    detail. *)
Definition unprocessable {S : Type} : S -> Result Body * S :=
  fun s => (Raise (mkHTTPException 422 "Unprocessable Entity" []), s).

Definition valid_user (b : UserJson.t) : bool :=
  length_between 1 64 (UserJson.username b)
  && length_between 1 253 (UserJson.passwd b)
  && length_between 1 64 (UserJson.package b).

(** [Query(default=...)] *)
Definition query_default (default : string) (given : option string) : string :=
  match given with Some v => v | None => default end.

(** The response to a handler run: declared status code on return. *)
Definition serve {S : Type} (declared : Z) (h : S -> Result Body * S)
    : S -> Response * S :=
  fun s => let (r, s') := h s in (respond declared r, s').

(** ** app.py *)

Definition app_package_model (b : PackageJson.t) : option App.PackageCreate.t :=
  if length_between 1 64 (PackageJson.package b)
     && length_between 1 253 (PackageJson.pool b)
  then Some (App.PackageCreate.make (PackageJson.package b) (PackageJson.pool b))
  else None.

Definition app_user_model (b : UserJson.t) : option App.UserCreate.t :=
  if valid_user b
  then Some (App.UserCreate.make (UserJson.username b) (UserJson.passwd b)
               (UserJson.expdate b) (UserJson.package b))
  else None.

Definition app (env : Env) (req : Request) : App.World -> Response * App.World :=
  let protected := Auth.Depends (framework env) (BEARER_TOKEN env) (bearer req) in
  match call req with
  | GET_root => serve HTTP_200_OK App.root
  | GET_health => serve HTTP_200_OK (App.health_check (now env))
  | POST_package b =>
      serve HTTP_201_CREATED
        (protected (match app_package_model b with
                    | Some package => App.create_package package
                    | None => unprocessable
                    end))
  | GET_package limit offset =>
      serve HTTP_200_OK (protected (App.get_packages limit offset))
  | POST_user b =>
      serve HTTP_201_CREATED
        (protected (match app_user_model b with
                    | Some user => App.create_user user
                    | None => unprocessable
                    end))
  | GET_user u => serve HTTP_200_OK (protected (App.get_user u))
  | DELETE_user u => serve HTTP_200_OK (protected (App.delete_user u))
  | GET_acct u limit offset =>
      serve HTTP_200_OK (protected (App.get_user_accounting u limit offset))
  | GET_online => serve HTTP_200_OK (protected App.get_online_users)
  | GET_onlinecount => serve HTTP_200_OK (protected App.get_online_count)
  | GET_online_user u => serve HTTP_200_OK (protected (App.get_user_online_status u))
  | POST_nas n sh sec ty descr =>
      (* @app.post("/nas", response_model=StatusResponse): no status_code *)
      serve HTTP_200_OK
        (protected (App.create_nas n sh sec (query_default "other" ty)
                      (query_default "RADIUS Client" descr)))
  | POST_session_dis session nas =>
      serve HTTP_200_OK (protected (App.disconnect_session session nas))
  end.

(** ** test_app.py *)

Definition test_package_model (b : PackageJson.t) : option TestApp.PackageCreate.t :=
  match PackageJson.profile b with
  | Some profile =>
      if length_between 1 64 (PackageJson.package b)
         && length_between 1 253 (PackageJson.pool b)
         && length_between 1 253 profile
      then Some (TestApp.PackageCreate.make (PackageJson.package b)
                   (PackageJson.pool b) profile)
      else None
  | None => None
  end.

Definition test_user_model (b : UserJson.t) : option TestApp.UserCreate.t :=
  if valid_user b
  then Some (TestApp.UserCreate.make (UserJson.username b) (UserJson.passwd b)
               (UserJson.expdate b) (UserJson.package b))
  else None.

Definition test_app (env : Env) (req : Request)
    : TestApp.Store -> Response * TestApp.Store :=
  let protected := Auth.Depends (framework env) (BEARER_TOKEN env) (bearer req) in
  match call req with
  | GET_root => serve HTTP_200_OK TestApp.root
  | GET_health => serve HTTP_200_OK (TestApp.health_check (now env))
  | POST_package b =>
      serve HTTP_201_CREATED
        (protected (match test_package_model b with
                    | Some package => TestApp.create_package (now env) package
                    | None => unprocessable
                    end))
  | GET_package limit offset =>
      serve HTTP_200_OK (protected (TestApp.get_packages limit offset))
  | POST_user b =>
      serve HTTP_201_CREATED
        (protected (match test_user_model b with
                    | Some user => TestApp.create_user (now env) user
                    | None => unprocessable
                    end))
  | GET_user u => serve HTTP_200_OK (protected (TestApp.get_user u))
  | DELETE_user u => serve HTTP_200_OK (protected (TestApp.delete_user u))
  | GET_acct u limit offset =>
      serve HTTP_200_OK (protected (TestApp.get_user_accounting u limit offset))
  | GET_online => serve HTTP_200_OK (protected (TestApp.get_online_users (hash env)))
  | GET_onlinecount => serve HTTP_200_OK (protected TestApp.get_online_count)
  | GET_online_user u =>
      serve HTTP_200_OK (protected (TestApp.get_user_online_status u))
  | POST_nas n sh sec ty descr =>
      serve HTTP_200_OK
        (protected (TestApp.create_nas (now env) n sh sec (query_default "other" ty)
                      (query_default "RADIUS Client" descr)))
  | POST_session_dis session nas =>
      serve HTTP_200_OK (protected (TestApp.disconnect_session session nas))
  end.

(** Routes that carry [Depends(verify_token)]: all but [/] and [/health]. *)
Definition is_protected (c : Call) : bool :=
  match c with
  | GET_root | GET_health => false
  | _ => true
  end.

(** ** Serving a sequence of requests *)

Fixpoint run {S : Type} (server : Request -> S -> Response * S)
    (reqs : list Request) (s : S) : list Response * S :=
  match reqs with
  | [] => ([], s)
  | r :: rest =>
      let (resp, s1) := server r s in
      let (resps, s2) := run server rest s1 in
      (resp :: resps, s2)
  end.

End Routes.

(* ===================================================================== *)
(** * Specification vocabulary *)
(* ===================================================================== *)

Import Routes.

(** A request carrying the configured secret as its bearer token. *)
Definition authorized (env : Env) (c : Call) : Request :=
  mkRequest (Some (BEARER_TOKEN env)) c.

(** The backend raises no error during the requests to come. *)
Definition reliable (w : App.World) : Prop := App.faults w = [].

(** The packages of the relational store: the distinct group names of
    [radgroupcheck]. *)
Definition db_packages (d : Sql.Db) : list string :=
  Sql.distinct (map Sql.rg_groupname (Sql.radgroupcheck d)).

(** The rows a table holds for one key. *)
Definition radcheck_of (u : string) (d : Sql.Db) : list Sql.radcheck_row :=
  List.filter (fun r => String.eqb (Sql.rc_username r) u) (Sql.radcheck d).
Definition radusergroup_of (u : string) (d : Sql.Db) : list Sql.radusergroup_row :=
  List.filter (fun r => String.eqb (Sql.ug_username r) u) (Sql.radusergroup d).
Definition radgroupcheck_of (g : string) (d : Sql.Db) : list Sql.radgroup_row :=
  List.filter (fun r => String.eqb (Sql.rg_groupname r) g) (Sql.radgroupcheck d).
Definition radgroupreply_of (g : string) (d : Sql.Db) : list Sql.radgroup_row :=
  List.filter (fun r => String.eqb (Sql.rg_groupname r) g) (Sql.radgroupreply d).
Definition nas_of (n : string) (d : Sql.Db) : list Sql.nas_row :=
  List.filter (fun r => String.eqb (Sql.nasname r) n) (Sql.nas d).
Definition sessions_of (u : string) (d : Sql.Db) : list Sql.radacct_row :=
  List.filter (fun r => String.eqb (Sql.username r) u) (Sql.radacct d).

(** The length of a paginated body's [data]. *)
Definition data_length (b : Body) : Z :=
  match b with
  | PaginatedResponse _ data => Z.of_nat (length data)
  | _ => -1
  end.

Definition data_count (b : Body) : Z :=
  match b with
  | PaginatedResponse count _ => count
  | _ => -1
  end.

Definition invalid_token : Response :=
  mkResponse 401 (ErrorDetail "Invalid authentication token")
             [("WWW-Authenticate", "Bearer")].

Definition disconnect_failed : Response :=
  mkResponse 500
    (ErrorDetail "Session disconnect failed: 500: Session disconnect failed") [].

Definition disconnect_timeout : Response :=
  mkResponse 500 (ErrorDetail "Session disconnect timeout") [].

(** The database after one more row in [nas]. *)
Definition with_nas_row (r : Sql.nas_row) (d : Sql.Db) : Sql.Db :=
  Sql.mkDb (Sql.radcheck d) (Sql.radusergroup d) (Sql.radgroupcheck d)
           (Sql.radgroupreply d) (Sql.radacct d) (Sql.nas d ++ [r]).

(** Some session of the list is still open. *)
Definition has_open_session (sessions : list Sql.radacct_row) : bool :=
  existsb (fun r => Sql.is_null (Sql.acctstoptime r)) sessions.

Definition online_status (open : bool) : Body :=
  Object [("status", Str (if open then "Online" else "Offline"))].

(** The rows [create_package] writes for a package. *)
Definition package_check_row (name : string) : Sql.radgroup_row :=
  Sql.mk_radgroup name "Simultaneous-Use" ":=" "1".
Definition package_reply_rows (name pool : string) : list Sql.radgroup_row :=
  [Sql.mk_radgroup name "Framed-Pool" "=" pool;
   Sql.mk_radgroup name "Acct-Interim-Interval" "=" "120"].

Definition with_package (name pool : string) (d : Sql.Db) : Sql.Db :=
  Sql.mkDb (Sql.radcheck d) (Sql.radusergroup d)
           (Sql.radgroupcheck d ++ [package_check_row name])
           ((Sql.radgroupreply d ++ [Sql.mk_radgroup name "Framed-Pool" "=" pool])
              ++ [Sql.mk_radgroup name "Acct-Interim-Interval" "=" "120"])
           (Sql.radacct d) (Sql.nas d).

(** The rows [create_user] writes for a user. *)
Definition user_check_rows (u passwd expdate : string) : list Sql.radcheck_row :=
  [Sql.mk_radcheck u "Cleartext-Password" ":=" passwd;
   Sql.mk_radcheck u "Expiration" ":=" expdate].

Definition with_user (u passwd expdate package : string) (d : Sql.Db) : Sql.Db :=
  Sql.mkDb ((Sql.radcheck d ++ [Sql.mk_radcheck u "Cleartext-Password" ":=" passwd])
              ++ [Sql.mk_radcheck u "Expiration" ":=" expdate])
           (Sql.radusergroup d ++ [Sql.mk_radusergroup u package])
           (Sql.radgroupcheck d) (Sql.radgroupreply d) (Sql.radacct d) (Sql.nas d).

Definition without_user (u : string) (d : Sql.Db) : Sql.Db :=
  Sql.mkDb (List.filter (fun r => negb (String.eqb (Sql.rc_username r) u)) (Sql.radcheck d))
           (List.filter (fun r => negb (String.eqb (Sql.ug_username r) u)) (Sql.radusergroup d))
           (Sql.radgroupcheck d) (Sql.radgroupreply d) (Sql.radacct d) (Sql.nas d).

(** The world after a request that sent [stmts] and left the database [d]. *)
Definition after (stmts : list Sql.Statement) (d : Sql.Db) (w : App.World) : App.World :=
  App.with_db d (App.with_journal (App.journal w ++ stmts) w).

Definition package_statements (name pool : string) : list Sql.Statement :=
  [Sql.count_radgroupcheck name;
   Sql.insert_radgroupcheck name "Simultaneous-Use" ":=" "1";
   Sql.insert_radgroupreply name "Framed-Pool" "=" pool;
   Sql.insert_radgroupreply name "Acct-Interim-Interval" "=" "120"].

Definition user_statements (u passwd expdate package : string) : list Sql.Statement :=
  [Sql.count_radcheck u;
   Sql.insert_radcheck u "Cleartext-Password" ":=" passwd;
   Sql.insert_radcheck u "Expiration" ":=" expdate;
   Sql.insert_radusergroup u package].

Definition user_found (rows : list Row) : Response :=
  match rows with
  | [] => mkResponse 404 (ErrorDetail "User not found") []
  | _ => mkResponse 200 (LogData rows) []
  end.

(** Either the gate lets the handler run or it answers by itself, the same
    way for every handler and every state. *)
Definition gate_passes (env : Env) (bearer : option string) : bool :=
  match bearer with
  | Some token => String.eqb token (BEARER_TOKEN env)
  | None => false
  end.

Definition gate_refusal (env : Env) (bearer : option string) : HTTPException :=
  match bearer with
  | Some _ => mkHTTPException 401 "Invalid authentication token"
                [("WWW-Authenticate", "Bearer")]
  | None => Auth.not_authenticated (framework env)
  end.

Definition user_rows (u : string) (entry : option TestApp.user_entry) : list Row :=
  match entry with
  | Some e => [ [("username", Str u); ("value", Str (TestApp.us_passwd e))];
                [("username", Str u); ("value", Str (TestApp.us_expdate e))] ]
  | None => []
  end.

(** ** The observable outcome of a request: status code and response shape *)

Fixpoint keys_eqb (k1 k2 : list string) : bool :=
  match k1, k2 with
  | [], [] => true
  | a :: k1', b :: k2' => String.eqb a b && keys_eqb k1' k2'
  | _, _ => false
  end.

(** Two JSON objects have the same keys. *)
Definition same_keys (r1 r2 : Row) : bool := keys_eqb (Py.keys r1) (Py.keys r2).

(** Every object of the list has the keys of the first one. *)
Definition uniform (rows : list Row) : bool :=
  match rows with
  | [] => true
  | r :: rest => forallb (same_keys r) rest
  end.

(** Two bodies have the same shape: they are of the same kind; two flat
    objects have the same keys; two lists of objects, bare or inside the
    paginated or the logdata envelope, hold objects with one and the same
    keys.  Values and the lengths of lists are not part of the shape, and of
    an error body only its being one is. *)
Definition same_shape (b1 b2 : Body) : bool :=
  match b1, b2 with
  | StatusResponse _, StatusResponse _ => true
  | PaginatedResponse _ d1, PaginatedResponse _ d2 => uniform (d1 ++ d2)
  | LogData d1, LogData d2 => uniform (d1 ++ d2)
  | RowList d1, RowList d2 => uniform (d1 ++ d2)
  | Object f1, Object f2 => same_keys f1 f2
  | ErrorDetail _, ErrorDetail _ => true
  | _, _ => false
  end.

(** The same status code and the same response shape. *)
Definition same_outcome (r1 r2 : Response) : bool :=
  (status r1 =? status r2) && same_shape (body r1) (body r2).




(** The statements of a transaction run one after the other on the
    database, [None] when the engine rejects one of them. *)
Fixpoint run_all (queries : list Sql.Statement) (d : Sql.Db) : option Sql.Db :=
  match queries with
  | [] => Some d
  | q :: rest =>
      match Sql.run q d with
      | Some (_, _, d') => run_all rest d'
      | None => None
      end
  end.

(** A backend that loses the connection while the third insert of the next
    transaction is executed: the existence check (connection, statement)
    and the transaction's connection and first two inserts succeed. *)
Definition world_flaky : App.World :=
  App.mkWorld Sql.empty [None; None; None; None; None; Some "2013: Lost connection"]
    [] (fun _ _ => App.TimeoutExpired) [].

(** A process configured with a secret, on a framework release that answers
    missing credentials with 403. *)
Definition env0 : Env :=
  mkEnv Auth.fastapi_forbidden "s3cr3t" "2024-08-30T10:00:00" (fun _ => 0).

(** A NAS that rejects the disconnect request: radclient exits with 1. *)
Definition radclient_rejected : string -> Z -> App.ProcOutcome :=
  fun _ _ => App.CompletedProcess 1 "" "Disconnect-NAK".

Definition world_of (d : Sql.Db) : App.World :=
  App.mkWorld d [] [] radclient_rejected [].

Definition world0 : App.World := world_of Sql.empty.

(** The relational store that matches test_app.py after startup. *)
Definition world_started : App.World :=
  world_of (with_package "basic_package" "basic_pool" Sql.empty).
Definition store_started : TestApp.Store := TestApp.lifespan TestApp.empty.

Definition alice (package : string) : UserJson.t :=
  UserJson.make "alice" "pw123" "2025-12-31" package.

(** Three packages in the relational store. *)
Definition world3 : App.World :=
  world_of (with_package "gold" "poolG"
              (with_package "silver" "poolS"
                 (with_package "basic" "poolA" Sql.empty))).

Definition basic_body : PackageJson.t :=
  PackageJson.make "basic" "poolA" (Some "default").

(** alice registered under package basic. *)
Definition world_alice : App.World :=
  snd (Routes.run (Routes.app env0)
         [authorized env0 (POST_package basic_body);
          authorized env0 (POST_user (alice "basic"))] world0).
Definition store_alice : TestApp.Store :=
  snd (Routes.run (Routes.test_app env0)
         [authorized env0 (POST_package basic_body);
          authorized env0 (POST_user (alice "basic"))] TestApp.empty).

(** alice and bob registered, each with an accounting entry. *)
Definition store_accounted : TestApp.Store :=
  let s := snd (Routes.test_app env0
                  (authorized env0 (POST_user (UserJson.make "bob" "pw" "2026-01-01" "basic")))
                  store_alice) in
  TestApp.mkStore (TestApp.mock_users s) (TestApp.mock_packages s)
    [("alice", [TestApp.mock_record "alice" 0]); ("bob", [TestApp.mock_record "bob" 1])]
    (TestApp.mock_nas s).

Definition session0 : list Request :=
  [ authorized env0 (POST_package basic_body);
    authorized env0 (POST_user (alice "basic"));
    authorized env0 (GET_user "alice");
    mkRequest (Some "guess") (GET_user "alice");
    mkRequest None (DELETE_user "alice");
    authorized env0 (GET_package 10 0);
    authorized env0 (POST_nas "10.0.0.1" "edge" "radsecret" None None);
    authorized env0 (DELETE_user "alice");
    authorized env0 (GET_user "alice") ].

(** A session over every compared route. *)
Definition session1 : list Request :=
  [ mkRequest None GET_root;
    authorized env0 (POST_package basic_body);
    authorized env0 (POST_package (PackageJson.make "" "poolA" None));
    authorized env0 (POST_user (alice "basic"));
    authorized env0 (POST_user (alice "basic"));
    authorized env0 (GET_user "alice");
    mkRequest (Some "guess") (GET_user "alice");
    mkRequest None (DELETE_user "alice");
    authorized env0 (GET_package 10 0);
    authorized env0 (GET_acct "alice" 2 1);
    authorized env0 GET_online;
    authorized env0 GET_onlinecount;
    authorized env0 (GET_online_user "alice");
    authorized env0 (GET_online_user "bob");
    authorized env0 (POST_nas "10.0.0.1" "edge" "radsecret" None None);
    authorized env0 (DELETE_user "alice");
    authorized env0 (GET_user "alice") ].

(** The walk-through of the service contract: a package, a user under it,
    a look at the user, the deletion, a second look. *)
Definition walkthrough : list Request :=
  [ authorized env0 (POST_package basic_body);
    authorized env0 (POST_user (alice "basic"));
    authorized env0 (GET_user "alice");
    authorized env0 (DELETE_user "alice");
    authorized env0 (GET_user "alice") ].

(* ===================================================================== *)
(** * What a request may do to the database *)
(* ===================================================================== *)

(** A computation that leaves the committed database as it is. *)
Definition keeps_db {A : Type} (m : App.M A) : Prop :=
  forall w, App.db (snd (m w)) = App.db w.

(** The five ways in which app.py changes the database. *)
Inductive db_step (d : Sql.Db) : Sql.Db -> Prop :=
| step_same : db_step d d
| step_package (g pool : string) :
    radgroupcheck_of g d = [] -> db_step d (with_package g pool d)
| step_user (u passwd expdate g : string) :
    radcheck_of u d = [] -> db_step d (with_user u passwd expdate g d)
| step_delete (u : string) :
    radcheck_of u d <> [] -> db_step d (without_user u d)
| step_nas (row : Sql.nas_row) :
    nas_of (Sql.nasname row) d = [] -> db_step d (with_nas_row row d).

(** Names are unique: a package has its one check row and its two reply
    rows or no row at all, a user has the two check rows and the one
    membership row or no row at all, a NAS name has at most one row. *)
Definition unique_package (g : string) (d : Sql.Db) : Prop :=
  (radgroupcheck_of g d = [] /\ radgroupreply_of g d = [])
  \/ (radgroupcheck_of g d = [package_check_row g]
      /\ exists pool, radgroupreply_of g d = package_reply_rows g pool).

Definition unique_user (u : string) (d : Sql.Db) : Prop :=
  (radcheck_of u d = [] /\ radusergroup_of u d = [])
  \/ (exists passwd expdate g,
        radcheck_of u d = user_check_rows u passwd expdate
        /\ radusergroup_of u d = [Sql.mk_radusergroup u g]).

Definition unique_nas (n : string) (d : Sql.Db) : Prop :=
  (length (nas_of n d) <= 1)%nat.

Definition db_unique (d : Sql.Db) : Prop :=
  (forall g, unique_package g d)
  /\ (forall u, unique_user u d)
  /\ (forall n, unique_nas n d).

(* ===================================================================== *)
(** * Columns of result rows; answers and worlds named in the statements *)
(* ===================================================================== *)

(** The [username] column of a result row. *)
Definition row_username (row : Row) : option string :=
  match Py.getitem "username" row with
  | Some (Str v) => Some v
  | _ => None
  end.

(** The [radacctid] column of a result row. *)
Definition row_radacctid (row : Row) : option Z :=
  match Py.getitem "radacctid" row with
  | Some (Int n) => Some n
  | _ => None
  end.

(** Some row of the list is a session of [u]. *)
Definition listed (u : string) (rows : list Row) : bool :=
  existsb (fun row => match row_username row with
                      | Some v => String.eqb v u
                      | None => false
                      end) rows.

(** The sessions that are still open. *)
Definition open_sessions (d : Sql.Db) : list Sql.radacct_row :=
  List.filter (fun r => Sql.is_null (Sql.acctstoptime r)) (Sql.radacct d).

(** The routes of app.py whose handler starts with a query, for a request
    that passes validation. *)
Definition reaches_store (c : Call) : bool :=
  match c with
  | GET_root | GET_health | POST_session_dis _ _ => false
  | POST_package b =>
      match app_package_model b with Some _ => true | None => false end
  | POST_user b => valid_user b
  | _ => true
  end.

(** Whether the probe of the health check will go through: the backend
    hands out a connection and executes the statement. *)
Definition probe_succeeds (w : App.World) : bool :=
  match App.faults w with
  | Some _ :: _ => false
  | None :: Some _ :: _ => false
  | _ => true
  end.

(** What GET /user answers for a user with these credentials. *)
Definition user_logdata (u passwd expdate : string) : Response :=
  mkResponse 200
    (LogData [ [("username", Str u); ("value", Str passwd)];
               [("username", Str u); ("value", Str expdate)] ]) [].

Definition user_created : Response :=
  mkResponse 201 (StatusResponse "User created successfully") [].

Definition user_not_found : Response :=
  mkResponse 404 (ErrorDetail "User not found") [].

(* ===================================================================== *)
(** * What a request may do to the dictionaries of test_app.py *)
(* ===================================================================== *)

(** The five ways in which test_app.py changes its store. *)
Inductive store_step (s : TestApp.Store) : TestApp.Store -> Prop :=
| st_same : store_step s s
| st_package (g : string) (e : TestApp.package_entry) :
    Py.contains g (TestApp.mock_packages s) = false ->
    TestApp.pk_package e = g ->
    store_step s (TestApp.mkStore (TestApp.mock_users s)
                    (TestApp.mock_packages s ++ [(g, e)])
                    (TestApp.mock_accounting s) (TestApp.mock_nas s))
| st_user (u : string) (e : TestApp.user_entry) :
    Py.contains u (TestApp.mock_users s) = false ->
    TestApp.us_username e = u ->
    Py.contains (TestApp.us_package e) (TestApp.mock_packages s) = true ->
    store_step s (TestApp.mkStore (TestApp.mock_users s ++ [(u, e)])
                    (TestApp.mock_packages s)
                    (TestApp.mock_accounting s) (TestApp.mock_nas s))
| st_delete (u : string) :
    Py.contains u (TestApp.mock_users s) = true ->
    store_step s (TestApp.mkStore (Py.delitem u (TestApp.mock_users s))
                    (TestApp.mock_packages s)
                    (if Py.contains u (TestApp.mock_accounting s)
                     then Py.delitem u (TestApp.mock_accounting s)
                     else TestApp.mock_accounting s)
                    (TestApp.mock_nas s))
| st_nas (n : string) (e : TestApp.nas_entry) :
    Py.contains n (TestApp.mock_nas s) = false ->
    TestApp.ns_nasname e = n ->
    store_step s (TestApp.mkStore (TestApp.mock_users s) (TestApp.mock_packages s)
                    (TestApp.mock_accounting s)
                    (TestApp.mock_nas s ++ [(n, e)])).

(** Every name is stored once, every entry is stored under its own name,
    and every user's package is a stored package. *)
Record store_ok (s : TestApp.Store) : Prop := mk_store_ok {
  ok_users_once : NoDup (Py.keys (TestApp.mock_users s));
  ok_packages_once : NoDup (Py.keys (TestApp.mock_packages s));
  ok_nas_once : NoDup (Py.keys (TestApp.mock_nas s));
  ok_user_entry : forall u e,
    Py.getitem u (TestApp.mock_users s) = Some e ->
    TestApp.us_username e = u
    /\ Py.contains (TestApp.us_package e) (TestApp.mock_packages s) = true;
  ok_package_entry : forall g e,
    Py.getitem g (TestApp.mock_packages s) = Some e -> TestApp.pk_package e = g;
  ok_nas_entry : forall n e,
    Py.getitem n (TestApp.mock_nas s) = Some e -> TestApp.ns_nasname e = n
}.

(** The [total_online] field of a body. *)
Definition total_online (b : Body) : option Z :=
  match b with
  | Object fields =>
      match Py.getitem "total_online" fields with
      | Some (Int n) => Some n
      | _ => None
      end
  | _ => None
  end.

Definition package_created : Response :=
  mkResponse 201 (StatusResponse "Package created successfully") [].

(** A page of package names as GET /package returns it. *)
Definition package_page (count : nat) (names : list string) : Response :=
  mkResponse 200 (PaginatedResponse (Z.of_nat count) (map Sql.groupname_row names)) [].

(** A session as the accounting process records it. *)
Definition session_row (id : Z) (u : string) (stop : option string) : Sql.radacct_row :=
  Sql.mk_radacct id u "" "00:11:22:33:44:55" "10.0.0.1"
    (Some "2024-08-30 10:00:00") None stop None None None "10.0.1.100".

(** alice registered, with a closed session and, recorded before it, an open
    one with a greater id; bob, who is not a user, has an open session. *)
Definition world_sessions : App.World :=
  world_of (Sql.mkDb (Sql.radcheck (App.db world_alice))
              (Sql.radusergroup (App.db world_alice))
              (Sql.radgroupcheck (App.db world_alice))
              (Sql.radgroupreply (App.db world_alice))
              [session_row 7 "alice" None;
               session_row 3 "alice" (Some "2024-08-30 12:00:00");
               session_row 5 "bob" None]
              []).

(** The backend refuses to hand out a connection. *)
Definition world_down : App.World :=
  App.mkWorld (App.db world_alice) [Some "2003: Can't connect to MySQL server"]
    [] radclient_rejected [].

(* ===================================================================== *)
(** * Basic facts *)
(* ===================================================================== *)

Section PyFacts.
Context {A : Type}.

Lemma slice_length (l : list A) (offset limit : Z) :
  0 <= offset -> 0 <= limit ->
  Z.of_nat (length (Py.slice l offset (offset + limit)))
  = Z.min limit (Z.max 0 (Z.of_nat (length l) - offset)).
Proof.
  intros Ho Hl. unfold Py.slice, Py.clip.
  destruct (Z.ltb_spec offset 0); [lia|].
  destruct (Z.ltb_spec (offset + limit) 0); [lia|].
  rewrite length_take, length_drop. lia.
Qed.

Lemma limit_offset_length (l page : list A) (limit offset : Z) :
  Sql.limit_offset limit offset l = Some page ->
  Z.of_nat (length page) = Z.min limit (Z.max 0 (Z.of_nat (length l) - offset)).
Proof.
  unfold Sql.limit_offset.
  destruct (Z.ltb_spec limit 0); simpl; [discriminate|].
  destruct (Z.ltb_spec offset 0); simpl; [discriminate|].
  intros [= <-]. rewrite length_take, length_drop. lia.
Qed.

Lemma limit_offset_nonneg (l : list A) (limit offset : Z) :
  0 <= limit -> 0 <= offset ->
  Sql.limit_offset limit offset l
  = Some (firstn (Z.to_nat limit) (skipn (Z.to_nat offset) l)).
Proof.
  intros Hl Ho. unfold Sql.limit_offset.
  destruct (Z.ltb_spec limit 0); [lia|].
  destruct (Z.ltb_spec offset 0); [lia|]. reflexivity.
Qed.
End PyFacts.

Lemma Depends_authorized {S A : Type} fw tok (h : S -> Result A * S) :
  Auth.Depends fw tok (Some tok) h = h.
Proof.
  unfold Auth.Depends, Auth.HTTPBearer, Auth.verify_token.
  rewrite String.eqb_refl. reflexivity.
Qed.

(** Under a reliable backend the world can be opened and computed with. *)
Ltac open_world w H :=
  let d := fresh "d" in
  let fs := fresh "fs" in
  destruct w as [d fs ? ? ?]; unfold reliable in H; simpl in H; subst fs.

(* ===================================================================== *)
(** * Pagination of packages *)
(* ===================================================================== *)

(** C3: for a store holding N packages and non-negative limit and offset,
    GET /package/{limit}/{offset} answers 200 with count = N and a data list
    of length min(limit, max(0, N - offset)).  In app.py the packages are the
    distinct group names of radgroupcheck (the backend being reliable), in
    test_app.py the keys of mock_packages. *)
Theorem get_packages_page (env : Env) (limit offset : Z) :
  0 <= limit -> 0 <= offset ->
  (forall w, reliable w ->
     let N := Z.of_nat (length (db_packages (App.db w))) in
     let r := fst (Routes.app env (authorized env (GET_package limit offset)) w) in
     status r = 200 /\ data_count (body r) = N
     /\ data_length (body r) = Z.min limit (Z.max 0 (N - offset)))
  /\
  (forall s,
     let N := Py.len (TestApp.mock_packages s) in
     let r := fst (Routes.test_app env (authorized env (GET_package limit offset)) s) in
     status r = 200 /\ data_count (body r) = N
     /\ data_length (body r) = Z.min limit (Z.max 0 (N - offset))).
Proof.
  intros Hl Ho. split.
  - intros w Hw N r. subst r N. open_world w Hw.
    unfold Routes.app, authorized; cbn [call bearer].
    rewrite Depends_authorized.
    unfold serve, App.get_packages, App.bind, App.execute_query,
      App.cursor_execute, App.next_fault; cbn.
    fold (db_packages d).
    rewrite (limit_offset_nonneg _ _ _ Hl Ho); cbn.
    repeat split.
    rewrite length_map, length_take, length_drop. lia.
  - intros s N r. subst r N.
    unfold Routes.test_app, authorized; cbn [call bearer].
    rewrite Depends_authorized.
    unfold serve, TestApp.get_packages, TestApp.ret; cbn.
    repeat split.
    + unfold Py.len, Py.keys. now rewrite length_map.
    + rewrite length_map, slice_length by assumption.
      unfold Py.len, Py.keys. now rewrite length_map.
Qed.

(* ===================================================================== *)
(** * The bearer gate *)
(* ===================================================================== *)

Lemma Depends_mismatch {S A : Type} fw secret token (h : S -> Result A * S) s :
  String.eqb token secret = false ->
  Auth.Depends fw secret (Some token) h s
  = (Raise (mkHTTPException 401 "Invalid authentication token"
              [("WWW-Authenticate", "Bearer")]), s).
Proof.
  intros H. unfold Auth.Depends, Auth.HTTPBearer, Auth.verify_token.
  now rewrite H.
Qed.

Lemma Depends_missing {S A : Type} fw secret (h : S -> Result A * S) s :
  Auth.Depends fw secret None h s = (Raise (Auth.not_authenticated fw), s).
Proof. reflexivity. Qed.

(** C7 (as amended): on every protected route of either variant, a request
    whose bearer token differs from the configured secret is answered 401
    with the challenge header WWW-Authenticate: Bearer, and a request
    without bearer credentials is answered with the exception of the
    framework's HTTPBearer scheme; in both cases the world is returned as it
    was: no statement was handed to the backend, no backend interaction took
    place, no dictionary changed, and the answer is the same for every
    store. *)
Theorem rejected_before_store (env : Env) (c : Call) :
  is_protected c = true ->
  (forall token, String.eqb token (BEARER_TOKEN env) = false ->
     (forall w, Routes.app env (mkRequest (Some token) c) w = (invalid_token, w))
     /\ (forall s, Routes.test_app env (mkRequest (Some token) c) s = (invalid_token, s)))
  /\
  (let refusal := respond 200 (Raise (Auth.not_authenticated (framework env))) in
   (forall w, Routes.app env (mkRequest None c) w = (refusal, w))
   /\ (forall s, Routes.test_app env (mkRequest None c) s = (refusal, s))).
Proof.
  intros Hc. split; [intros token Ht; split; intros x | split; intros x].
  - destruct c; try discriminate Hc;
      unfold Routes.app, serve; cbn [call bearer];
      now rewrite Depends_mismatch by exact Ht.
  - destruct c; try discriminate Hc;
      unfold Routes.test_app, serve; cbn [call bearer];
      now rewrite Depends_mismatch by exact Ht.
  - destruct c; try discriminate Hc; reflexivity.
  - destruct c; try discriminate Hc; reflexivity.
Qed.

(* ===================================================================== *)
(** * Session disconnect *)
(* ===================================================================== *)

(** C9: POST /session-dis starts the external command exactly once, with a
    timeout of 30 seconds; the answer is 200 exactly when the command ends
    with exit status zero; a non-zero exit status and a timeout are each
    answered with a fixed 500 response, whatever the exit status and
    whatever the command wrote to its output streams; the database is not
    touched. *)
Theorem disconnect_session_once (env : Env) (session nas : string) (w : App.World) :
  let cmd := App.disconnect_command session nas in
  let r := fst (Routes.app env (authorized env (POST_session_dis session nas)) w) in
  let w' := snd (Routes.app env (authorized env (POST_session_dis session nas)) w) in
  App.spawned w' = App.spawned w ++ [(cmd, 30)]
  /\ App.db w' = App.db w /\ App.journal w' = App.journal w
  /\ (status r = 200 <->
      exists out err, App.subprocess_run w cmd 30 = App.CompletedProcess 0 out err)
  /\ (status r = 200 \/ status r = 500)
  /\ (forall rc out err,
        App.subprocess_run w cmd 30 = App.CompletedProcess rc out err ->
        rc <> 0 -> r = disconnect_failed)
  /\ (App.subprocess_run w cmd 30 = App.TimeoutExpired -> r = disconnect_timeout).
Proof.
  intros cmd r w'. subst r w'.
  unfold Routes.app, authorized; cbn [call bearer].
  rewrite Depends_authorized. unfold serve, App.disconnect_session.
  fold cmd.
  destruct (App.subprocess_run w cmd 30) as [rc out err| |msg] eqn:E.
  - destruct (Z.eqb_spec rc 0) as [->|Hrc]; cbn.
    + repeat split; auto; try discriminate.
      * intros _. now exists out, err.
      * intros rc' out' err' [= <- _ _] H. now contradict H.
    + repeat split; auto; try discriminate.
      intros (out' & err' & [= -> _ _]). now contradict Hrc.
  - cbn. repeat split; auto; try discriminate.
    intros (out' & err' & [=]).
  - cbn. repeat split; auto; try discriminate.
    intros (out' & err' & [=]).
Qed.

(* ===================================================================== *)
(** * Counting and existence *)
(* ===================================================================== *)

Section Counting.
Context {A : Type} (p : A -> bool).

Lemma count_where_none (t : list A) :
  List.filter p t = [] -> Sql.count_where p t = 0.
Proof. unfold Sql.count_where. now intros ->. Qed.

Lemma count_where_some (t : list A) :
  List.filter p t <> [] -> 0 < Sql.count_where p t.
Proof.
  unfold Sql.count_where. destruct (List.filter p t); [congruence|].
  intros _. simpl. lia.
Qed.

Lemma filter_app_fresh (t : list A) (x : A) :
  List.filter p (t ++ [x]) = List.filter p t ++ (if p x then [x] else []).
Proof. rewrite List.filter_app. reflexivity. Qed.

Lemma filter_negb_clears (t : list A) :
  List.filter p (List.filter (fun x => negb (p x)) t) = [].
Proof.
  induction t as [|x t IH]; simpl; [reflexivity|].
  destruct (p x) eqn:E; simpl; [exact IH|]. rewrite E. exact IH.
Qed.

Lemma filter_both (q : A -> bool) (t : list A) :
  List.filter (fun x => p x && q x) t = List.filter q (List.filter p t).
Proof.
  induction t as [|x t IH]; simpl; [reflexivity|].
  destruct (p x); simpl; [destruct (q x); now rewrite IH | exact IH].
Qed.

Lemma filter_nil_existsb (t : list A) :
  List.filter p t = [] <-> existsb p t = false.
Proof.
  induction t as [|x t IH]; simpl; [tauto|].
  destruct (p x); simpl; [split; discriminate | exact IH].
Qed.
End Counting.

Section DictFacts.
Context {V : Type}.

Lemma getitem_delitem (k : string) (d : Py.dict V) :
  Py.getitem k (Py.delitem k d) = None.
Proof.
  induction d as [|[k' v] d IH]; simpl; [reflexivity|].
  destruct (String.eqb k' k) eqn:E; simpl; [exact IH|]. now rewrite E.
Qed.

Lemma getitem_delitem_other (k k' : string) (d : Py.dict V) :
  k' <> k -> Py.getitem k' (Py.delitem k d) = Py.getitem k' d.
Proof.
  intros Hne. induction d as [|[k0 v] d IH]; simpl; [reflexivity|].
  destruct (String.eqb_spec k0 k) as [->|Hk]; simpl.
  - destruct (String.eqb_spec k k'); [congruence | exact IH].
  - destruct (String.eqb k0 k'); [reflexivity | exact IH].
Qed.

Lemma getitem_setitem (k : string) (v : V) (d : Py.dict V) :
  Py.getitem k (Py.setitem k v d) = Some v.
Proof.
  induction d as [|[k' v'] d IH]; simpl.
  - now rewrite String.eqb_refl.
  - destruct (String.eqb k' k) eqn:E; simpl.
    + now rewrite String.eqb_refl.
    + now rewrite E.
Qed.

Lemma getitem_setitem_other (k k' : string) (v : V) (d : Py.dict V) :
  k' <> k -> Py.getitem k' (Py.setitem k v d) = Py.getitem k' d.
Proof.
  intros Hne. induction d as [|[k0 v0] d IH]; simpl.
  - destruct (String.eqb_spec k k'); [congruence | reflexivity].
  - destruct (String.eqb_spec k0 k) as [->|Hk]; simpl.
    + destruct (String.eqb_spec k k'); [congruence | reflexivity].
    + destruct (String.eqb k0 k'); [reflexivity | exact IH].
Qed.

(** A key that is not in the dictionary is appended by [d[k] = v]. *)
Lemma setitem_fresh (k : string) (v : V) (d : Py.dict V) :
  Py.getitem k d = None -> Py.setitem k v d = d ++ [(k, v)].
Proof.
  induction d as [|[k' v'] d IH]; simpl; [reflexivity|].
  destruct (String.eqb k' k); [discriminate|].
  intros H. now rewrite IH.
Qed.

Lemma getitem_None_keys (k : string) (d : Py.dict V) :
  Py.getitem k d = None <-> List.filter (String.eqb k) (Py.keys d) = [].
Proof.
  induction d as [|[k' v'] d IH]; simpl; [tauto|].
  rewrite (String.eqb_sym k k').
  destruct (String.eqb k' k); [split; discriminate | exact IH].
Qed.

Lemma contains_getitem (k : string) (d : Py.dict V) :
  Py.contains k d = false <-> Py.getitem k d = None.
Proof.
  unfold Py.contains. destruct (Py.getitem k d); split; congruence.
Qed.
End DictFacts.

(* ===================================================================== *)
(** * NAS registration *)
(* ===================================================================== *)

Ltac enter_route :=
  unfold Routes.app, Routes.test_app, authorized; cbn [call bearer];
  rewrite ?Depends_authorized; unfold serve.

Ltac run_sql :=
  unfold App.bind, App.execute_query, App.execute_transaction, App.execute_all,
    App.cursor_execute, App.next_fault, App.first_count, App.fetched, App.ret,
    App.raise; cbn.

(** X5: POST /nas in app.py on a reliable backend: a name that is not yet
    registered gets exactly one new row, with type and description defaulting
    to other and RADIUS Client, and the answer is 200 (the route declares no
    status code); a registered name is answered 400 and nothing changes. *)
Theorem create_nas_app (env : Env) (n sh sec : string) (ty descr : option string)
    (w : App.World) :
  reliable w ->
  let out := Routes.app env (authorized env (POST_nas n sh sec ty descr)) w in
  (nas_of n (App.db w) = [] ->
     status (fst out) = 200
     /\ body (fst out) = StatusResponse "NAS created successfully"
     /\ App.db (snd out)
        = with_nas_row (Sql.mk_nas n sh (query_default "other" ty) sec
                          (query_default "RADIUS Client" descr)) (App.db w))
  /\ (nas_of n (App.db w) <> [] ->
     status (fst out) = 400 /\ App.db (snd out) = App.db w).
Proof.
  intros Hw out. subst out. open_world w Hw. enter_route.
  unfold App.create_nas. run_sql. fold (nas_of n d).
  split; intros H.
  - rewrite (count_where_none _ _ H). cbn. auto.
  - pose proof (count_where_some _ _ H) as Hpos.
    destruct (Z.ltb_spec 0 (Sql.count_where (fun r => String.eqb (Sql.nasname r) n) (Sql.nas d)));
      [cbn; auto | lia].
Qed.

Lemma count_where_ltb {A : Type} (p : A -> bool) (t : list A) :
  List.filter p t <> [] -> (0 <? Sql.count_where p t) = true.
Proof. intros H. apply Z.ltb_lt. now apply count_where_some. Qed.

Lemma count_where_eqb {A : Type} (p : A -> bool) (t : list A) :
  List.filter p t <> [] -> (Sql.count_where p t =? 0) = false.
Proof. intros H. apply Z.eqb_neq. pose proof (count_where_some p t H). lia. Qed.

(** X6: POST /nas in test_app.py: a name that is not a key of mock_nas gets
    one new entry, with type and description defaulting to other and RADIUS
    Client, and the answer is 200; a known name is answered 400 and the
    store stays as it was. *)
Theorem create_nas_test (env : Env) (n sh sec : string) (ty descr : option string)
    (s : TestApp.Store) :
  let out := Routes.test_app env (authorized env (POST_nas n sh sec ty descr)) s in
  (Py.contains n (TestApp.mock_nas s) = false ->
     status (fst out) = 200
     /\ body (fst out) = StatusResponse "NAS created successfully"
     /\ TestApp.mock_nas (snd out)
        = TestApp.mock_nas s
          ++ [(n, TestApp.mk_nas n sh sec (query_default "other" ty)
                    (query_default "RADIUS Client" descr) (now env))])
  /\ (Py.contains n (TestApp.mock_nas s) = true ->
     status (fst out) = 400 /\ snd out = s).
Proof.
  intros out. subst out. enter_route. unfold TestApp.create_nas.
  split; intros H; rewrite H; cbn; [|auto].
  repeat split. apply setitem_fresh. now apply contains_getitem.
Qed.

(* ===================================================================== *)
(** * Online status of one user *)
(* ===================================================================== *)

(** C4 (as amended): GET /online/{username} in app.py, on a reliable
    backend, answers 404 when the user has no radcheck row, and otherwise 200
    with status Online when one of the user's radacct sessions has a null
    stop time and Offline when none has (so also when the user has no
    session).  In test_app.py it answers 404 when the user is not in
    mock_users and otherwise 200 with status Online, whatever the store
    holds. *)
Theorem user_online_status (env : Env) (u : string) :
  (forall w, reliable w ->
     let r := fst (Routes.app env (authorized env (GET_online_user u)) w) in
     (radcheck_of u (App.db w) = [] -> status r = 404)
     /\ (radcheck_of u (App.db w) <> [] ->
         status r = 200
         /\ body r = online_status (has_open_session (sessions_of u (App.db w)))))
  /\
  (forall s,
     let r := fst (Routes.test_app env (authorized env (GET_online_user u)) s) in
     (Py.contains u (TestApp.mock_users s) = false -> status r = 404)
     /\ (Py.contains u (TestApp.mock_users s) = true ->
         status r = 200 /\ body r = online_status true)).
Proof.
  split.
  - intros w Hw r. subst r. open_world w Hw. enter_route.
    unfold App.get_user_online_status. run_sql.
    split; intros H.
    + unfold radcheck_of in H; cbn in H. now rewrite (count_where_none _ _ H).
    + unfold radcheck_of in H; cbn in H. rewrite (count_where_eqb _ _ H). cbn.
      split; [reflexivity|]. unfold online_status, has_open_session, sessions_of.
      cbn [App.db]. unfold Sql.count_where. rewrite filter_both.
      destruct (existsb _ _) eqn:E.
      * destruct (List.filter (fun r => Sql.is_null (Sql.acctstoptime r)) _) eqn:F;
          [apply filter_nil_existsb in F; congruence | reflexivity].
      * apply filter_nil_existsb in E. now rewrite E.
  - intros s r. subst r. enter_route. unfold TestApp.get_user_online_status.
    split; intros H; rewrite H; cbn; auto.
Qed.

(* ===================================================================== *)
(** * Deleting a user *)
(* ===================================================================== *)

(** C5: DELETE /user/{username} answers 404 for an absent user and leaves
    the store as it was; for an existing user it answers 200, removes all of
    the user's check-attribute and group-membership rows (the user's entry
    in test_app.py), and a following GET /user/{username} answers 404.  In
    app.py a user exists when radcheck holds a row for the name and the
    backend is taken to be reliable; in test_app.py a user exists when the
    name is a key of mock_users. *)
Theorem delete_user_removes (env : Env) (u : string) :
  (forall w, reliable w ->
     let out := Routes.app env (authorized env (DELETE_user u)) w in
     (radcheck_of u (App.db w) = [] ->
        status (fst out) = 404 /\ App.db (snd out) = App.db w)
     /\ (radcheck_of u (App.db w) <> [] ->
        status (fst out) = 200
        /\ radcheck_of u (App.db (snd out)) = []
        /\ radusergroup_of u (App.db (snd out)) = []
        /\ status (fst (Routes.app env (authorized env (GET_user u)) (snd out))) = 404))
  /\
  (forall s,
     let out := Routes.test_app env (authorized env (DELETE_user u)) s in
     (Py.contains u (TestApp.mock_users s) = false ->
        status (fst out) = 404 /\ snd out = s)
     /\ (Py.contains u (TestApp.mock_users s) = true ->
        status (fst out) = 200
        /\ Py.getitem u (TestApp.mock_users (snd out)) = None
        /\ status (fst (Routes.test_app env (authorized env (GET_user u)) (snd out))) = 404)).
Proof.
  split.
  - intros w Hw out. subst out. open_world w Hw. enter_route.
    unfold App.delete_user. run_sql.
    split; intros H; unfold radcheck_of in H; cbn in H.
    + now rewrite (count_where_none _ _ H).
    + rewrite (count_where_eqb _ _ H). cbn.
      unfold radcheck_of, radusergroup_of. cbn.
      rewrite (filter_negb_clears (fun r => String.eqb (Sql.rc_username r) u)).
      rewrite (filter_negb_clears (fun r => String.eqb (Sql.ug_username r) u)).
      repeat split.
  - intros s out. subst out. enter_route. unfold TestApp.delete_user.
    split; intros H; rewrite H; cbn; [auto|].
    unfold TestApp.get_user. cbn.
    rewrite getitem_delitem. cbn. auto.
Qed.

(* ===================================================================== *)
(** * Creating packages and users *)
(* ===================================================================== *)

Lemma reliable_after stmts d w : reliable w -> reliable (after stmts d w).
Proof. exact (fun H => H). Qed.

Lemma app_create_package_fresh env (b : PackageJson.t) (w : App.World) :
  reliable w ->
  length_between 1 64 (PackageJson.package b) = true ->
  length_between 1 253 (PackageJson.pool b) = true ->
  radgroupcheck_of (PackageJson.package b) (App.db w) = [] ->
  Routes.app env (authorized env (POST_package b)) w
  = (mkResponse 201 (StatusResponse "Package created successfully") [],
     after (package_statements (PackageJson.package b) (PackageJson.pool b))
           (with_package (PackageJson.package b) (PackageJson.pool b) (App.db w)) w).
Proof.
  intros Hw Hn Hp H. open_world w Hw. enter_route.
  unfold app_package_model. rewrite Hn, Hp. cbn [andb].
  unfold App.create_package. run_sql.
  unfold radgroupcheck_of in H; cbn in H.
  rewrite (count_where_none _ _ H). cbn.
  unfold after, with_package, App.with_db, App.with_journal; cbn.
  rewrite <- !app_assoc. reflexivity.
Qed.

Lemma app_create_package_exists env (b : PackageJson.t) (w : App.World) :
  reliable w ->
  length_between 1 64 (PackageJson.package b) = true ->
  length_between 1 253 (PackageJson.pool b) = true ->
  radgroupcheck_of (PackageJson.package b) (App.db w) <> [] ->
  Routes.app env (authorized env (POST_package b)) w
  = (mkResponse 400 (ErrorDetail "Package already exists") [],
     after [Sql.count_radgroupcheck (PackageJson.package b)] (App.db w) w).
Proof.
  intros Hw Hn Hp H. open_world w Hw. enter_route.
  unfold app_package_model. rewrite Hn, Hp. cbn [andb].
  unfold App.create_package. run_sql.
  unfold radgroupcheck_of in H; cbn in H.
  rewrite (count_where_ltb _ _ H). reflexivity.
Qed.

Lemma test_create_package_fresh env (b : PackageJson.t) profile (s : TestApp.Store) :
  PackageJson.profile b = Some profile ->
  length_between 1 64 (PackageJson.package b) = true ->
  length_between 1 253 (PackageJson.pool b) = true ->
  length_between 1 253 profile = true ->
  Py.contains (PackageJson.package b) (TestApp.mock_packages s) = false ->
  Routes.test_app env (authorized env (POST_package b)) s
  = (mkResponse 201 (StatusResponse "Package created successfully") [],
     TestApp.mkStore (TestApp.mock_users s)
       (TestApp.mock_packages s
          ++ [(PackageJson.package b,
               TestApp.mk_package (PackageJson.package b) (PackageJson.pool b)
                 profile (Some (now env)))])
       (TestApp.mock_accounting s) (TestApp.mock_nas s)).
Proof.
  intros Hpr Hn Hp Hf H. enter_route.
  unfold test_package_model. rewrite Hpr, Hn, Hp, Hf. cbn [andb].
  unfold TestApp.create_package. cbn. rewrite H. cbn.
  rewrite setitem_fresh by now apply contains_getitem. reflexivity.
Qed.

Lemma test_create_package_exists env (b : PackageJson.t) profile (s : TestApp.Store) :
  PackageJson.profile b = Some profile ->
  length_between 1 64 (PackageJson.package b) = true ->
  length_between 1 253 (PackageJson.pool b) = true ->
  length_between 1 253 profile = true ->
  Py.contains (PackageJson.package b) (TestApp.mock_packages s) = true ->
  Routes.test_app env (authorized env (POST_package b)) s
  = (mkResponse 400 (ErrorDetail "Package already exists") [], s).
Proof.
  intros Hpr Hn Hp Hf H. enter_route.
  unfold test_package_model. rewrite Hpr, Hn, Hp, Hf. cbn [andb].
  unfold TestApp.create_package. cbn. now rewrite H.
Qed.

Lemma radgroupcheck_of_with_package name pool d :
  radgroupcheck_of name (with_package name pool d)
  = radgroupcheck_of name d ++ [package_check_row name].
Proof.
  unfold radgroupcheck_of, with_package; cbn.
  rewrite filter_app_fresh. cbn. now rewrite String.eqb_refl.
Qed.

Lemma radgroupreply_of_with_package name pool d :
  radgroupreply_of name (with_package name pool d)
  = radgroupreply_of name d ++ package_reply_rows name pool.
Proof.
  unfold radgroupreply_of, with_package; cbn.
  rewrite !filter_app_fresh. cbn. rewrite String.eqb_refl.
  now rewrite <- app_assoc.
Qed.

Lemma keys_app {V : Type} (d1 d2 : Py.dict V) :
  Py.keys (d1 ++ d2) = Py.keys d1 ++ Py.keys d2.
Proof. apply map_app. Qed.

Lemma getitem_app_fresh {V : Type} (k : string) (v : V) (d : Py.dict V) :
  Py.getitem k d = None -> Py.getitem k (d ++ [(k, v)]) = Some v.
Proof.
  induction d as [|[k' v'] d IH]; simpl.
  - now rewrite String.eqb_refl.
  - destruct (String.eqb k' k); [discriminate | exact IH].
Qed.

Lemma getitem_app_other {V : Type} (k k' : string) (v : V) (d : Py.dict V) :
  k' <> k -> Py.getitem k' (d ++ [(k, v)]) = Py.getitem k' d.
Proof.
  intros Hne. induction d as [|[k0 v0] d IH]; simpl.
  - destruct (String.eqb_spec k k'); [congruence | reflexivity].
  - destruct (String.eqb k0 k'); [reflexivity | exact IH].
Qed.

Lemma contains_app_fresh {V : Type} (k : string) (v : V) (d : Py.dict V) :
  Py.getitem k d = None -> Py.contains k (d ++ [(k, v)]) = true.
Proof. intros H. unfold Py.contains. now rewrite getitem_app_fresh. Qed.

(** C6: a package name for which the store holds no rows, created twice in
    succession with a well-formed body, is answered 201 and then 400, and
    afterwards the store holds exactly one set of rows for the name: in
    app.py (on a reliable backend) one check attribute Simultaneous-Use := 1
    and the two reply attributes Framed-Pool = pool and
    Acct-Interim-Interval = 120; in test_app.py one entry under the name. *)
Theorem create_package_twice (env : Env) (name pool : string) :
  length_between 1 64 name = true ->
  length_between 1 253 pool = true ->
  (forall profile w,
     reliable w ->
     radgroupcheck_of name (App.db w) = [] ->
     radgroupreply_of name (App.db w) = [] ->
     let req := authorized env (POST_package (PackageJson.make name pool profile)) in
     let out := Routes.run (Routes.app env) [req; req] w in
     map status (fst out) = [201; 400]
     /\ radgroupcheck_of name (App.db (snd out)) = [package_check_row name]
     /\ radgroupreply_of name (App.db (snd out)) = package_reply_rows name pool)
  /\
  (forall profile s,
     length_between 1 253 profile = true ->
     Py.contains name (TestApp.mock_packages s) = false ->
     let req := authorized env (POST_package (PackageJson.make name pool (Some profile))) in
     let out := Routes.run (Routes.test_app env) [req; req] s in
     map status (fst out) = [201; 400]
     /\ List.filter (String.eqb name) (Py.keys (TestApp.mock_packages (snd out))) = [name]
     /\ Py.getitem name (TestApp.mock_packages (snd out))
        = Some (TestApp.mk_package name pool profile (Some (now env)))).
Proof.
  intros Hn Hp. split.
  - intros profile w Hw Hc Hr req out. subst out req. unfold Routes.run.
    rewrite (app_create_package_fresh env (PackageJson.make name pool profile) w Hw Hn Hp Hc).
    cbn [PackageJson.package PackageJson.pool].
    rewrite (app_create_package_exists env (PackageJson.make name pool profile));
      try assumption.
    + cbn [fst snd map status]. unfold after; cbn [App.db App.with_db].
      rewrite radgroupcheck_of_with_package, radgroupreply_of_with_package.
      now rewrite Hc, Hr.
    + cbn [PackageJson.package]. unfold after; cbn [App.db App.with_db].
      rewrite radgroupcheck_of_with_package, Hc. discriminate.
  - intros profile s Hf Hc req out. subst out req. unfold Routes.run.
    pose proof (proj1 (contains_getitem _ _) Hc) as Hg.
    rewrite (test_create_package_fresh env (PackageJson.make name pool (Some profile))
               profile s eq_refl Hn Hp Hf Hc).
    cbn [PackageJson.package PackageJson.pool].
    rewrite (test_create_package_exists env (PackageJson.make name pool (Some profile))
               profile); try assumption; try reflexivity.
    + cbn [fst snd map status TestApp.mock_packages].
      repeat split.
      * rewrite keys_app, List.filter_app. cbn. rewrite String.eqb_refl.
        apply getitem_None_keys in Hg. now rewrite Hg.
      * now apply getitem_app_fresh.
    + cbn [PackageJson.package TestApp.mock_packages]. now apply contains_app_fresh.
Qed.

(** ** One request at a time: app.py on a reliable backend *)

Lemma app_create_user_fresh env (b : UserJson.t) (w : App.World) :
  reliable w ->
  valid_user b = true ->
  radcheck_of (UserJson.username b) (App.db w) = [] ->
  Routes.app env (authorized env (POST_user b)) w
  = (mkResponse 201 (StatusResponse "User created successfully") [],
     after (user_statements (UserJson.username b) (UserJson.passwd b)
              (UserJson.expdate b) (UserJson.package b))
           (with_user (UserJson.username b) (UserJson.passwd b)
              (UserJson.expdate b) (UserJson.package b) (App.db w)) w).
Proof.
  intros Hw Hv H. open_world w Hw. enter_route.
  unfold app_user_model. rewrite Hv.
  unfold App.create_user. run_sql.
  unfold radcheck_of in H; cbn in H.
  rewrite (count_where_none _ _ H). cbn.
  unfold after, with_user, App.with_db, App.with_journal; cbn.
  rewrite <- !app_assoc. reflexivity.
Qed.



Lemma app_get_user env (u : string) (w : App.World) :
  reliable w ->
  Routes.app env (authorized env (GET_user u)) w
  = (user_found (map Sql.radcheck_value_row (radcheck_of u (App.db w))),
     after [Sql.select_radcheck u] (App.db w) w).
Proof.
  intros Hw. open_world w Hw. enter_route.
  unfold App.get_user. run_sql. unfold radcheck_of; cbn.
  now destruct (map Sql.radcheck_value_row _).
Qed.


Lemma app_delete_user_present env (u : string) (w : App.World) :
  reliable w ->
  radcheck_of u (App.db w) <> [] ->
  Routes.app env (authorized env (DELETE_user u)) w
  = (mkResponse 200 (StatusResponse "User deleted successfully") [],
     after [Sql.count_radcheck u; Sql.delete_radcheck u; Sql.delete_radusergroup u]
           (without_user u (App.db w)) w).
Proof.
  intros Hw H. open_world w Hw. enter_route.
  unfold App.delete_user. run_sql.
  unfold radcheck_of in H; cbn in H.
  rewrite (count_where_eqb _ _ H). cbn.
  unfold after, App.with_db, App.with_journal; cbn.
  rewrite <- !app_assoc. reflexivity.
Qed.

Lemma app_get_packages env (limit offset : Z) (w : App.World) :
  reliable w -> 0 <= limit -> 0 <= offset ->
  Routes.app env (authorized env (GET_package limit offset)) w
  = (mkResponse 200
       (PaginatedResponse (Z.of_nat (length (db_packages (App.db w))))
          (map Sql.groupname_row
             (firstn (Z.to_nat limit) (skipn (Z.to_nat offset) (db_packages (App.db w))))))
       [],
     after [Sql.count_distinct_groupname; Sql.select_distinct_groupname limit offset]
           (App.db w) w).
Proof.
  intros Hw Hl Ho. open_world w Hw. enter_route.
  unfold App.get_packages. run_sql. fold (db_packages d).
  rewrite (limit_offset_nonneg _ _ _ Hl Ho). cbn.
  unfold after, App.with_db, App.with_journal; cbn.
  rewrite <- !app_assoc. reflexivity.
Qed.



(** ** One request at a time: test_app.py *)

Lemma Depends_gate {S A : Type} env bearer (h : S -> Result A * S) s :
  Auth.Depends (framework env) (BEARER_TOKEN env) bearer h s
  = if gate_passes env bearer then h s else (Raise (gate_refusal env bearer), s).
Proof.
  unfold Auth.Depends, Auth.HTTPBearer, Auth.verify_token, gate_passes, gate_refusal.
  destruct bearer as [token|]; [|reflexivity].
  now destruct (String.eqb token (BEARER_TOKEN env)).
Qed.

Lemma test_create_user_result env (b : UserJson.t) (s : TestApp.Store) :
  valid_user b = true ->
  Routes.test_app env (authorized env (POST_user b)) s
  = if Py.contains (UserJson.username b) (TestApp.mock_users s) then
      (mkResponse 400 (ErrorDetail "User already exists") [], s)
    else if Py.contains (UserJson.package b) (TestApp.mock_packages s) then
      (mkResponse 201 (StatusResponse "User created successfully") [],
       TestApp.mkStore
         (TestApp.mock_users s
            ++ [(UserJson.username b,
                 TestApp.mk_user (UserJson.username b) (UserJson.passwd b)
                   (UserJson.expdate b) (UserJson.package b) (now env))])
         (TestApp.mock_packages s) (TestApp.mock_accounting s) (TestApp.mock_nas s))
    else (mkResponse 400 (ErrorDetail "Package does not exist") [], s).
Proof.
  intros Hv. enter_route. unfold test_user_model. rewrite Hv.
  unfold TestApp.create_user. cbn.
  destruct (Py.contains (UserJson.username b) (TestApp.mock_users s)) eqn:Hu;
    [reflexivity|].
  destruct (Py.contains (UserJson.package b) (TestApp.mock_packages s));
    [|reflexivity].
  cbn. rewrite setitem_fresh by now apply contains_getitem. reflexivity.
Qed.

Lemma test_invalid_user env (b : UserJson.t) (s : TestApp.Store) :
  valid_user b = false ->
  Routes.test_app env (authorized env (POST_user b)) s
  = (mkResponse 422 (ErrorDetail "Unprocessable Entity") [], s).
Proof.
  intros Hv. enter_route. unfold test_user_model. now rewrite Hv.
Qed.

Lemma test_get_user env (u : string) (s : TestApp.Store) :
  Routes.test_app env (authorized env (GET_user u)) s
  = (user_found (user_rows u (Py.getitem u (TestApp.mock_users s))), s).
Proof.
  enter_route. unfold TestApp.get_user.
  now destruct (Py.getitem u (TestApp.mock_users s)).
Qed.

Lemma test_delete_user env (u : string) (s : TestApp.Store) :
  Routes.test_app env (authorized env (DELETE_user u)) s
  = if Py.contains u (TestApp.mock_users s) then
      (mkResponse 200 (StatusResponse "User deleted successfully") [],
       TestApp.mkStore (Py.delitem u (TestApp.mock_users s)) (TestApp.mock_packages s)
         (if Py.contains u (TestApp.mock_accounting s)
          then Py.delitem u (TestApp.mock_accounting s)
          else TestApp.mock_accounting s)
         (TestApp.mock_nas s))
    else (mkResponse 404 (ErrorDetail "User not found") [], s).
Proof.
  enter_route. unfold TestApp.delete_user.
  now destruct (Py.contains u (TestApp.mock_users s)).
Qed.

Lemma test_get_packages env (limit offset : Z) (s : TestApp.Store) :
  Routes.test_app env (authorized env (GET_package limit offset)) s
  = (mkResponse 200
       (PaginatedResponse (Z.of_nat (length (Py.keys (TestApp.mock_packages s))))
          (map Sql.groupname_row
             (Py.slice (Py.keys (TestApp.mock_packages s)) offset (offset + limit))))
       [], s).
Proof. enter_route. reflexivity. Qed.


(* ===================================================================== *)
(** * What a write on one user leaves alone (test_app.py) *)
(* ===================================================================== *)

(** The route with any bearer: the authorised run, or the gate's refusal,
    which leaves the store as it was. *)
Lemma test_app_gate env auth c s :
  is_protected c = true ->
  Routes.test_app env (mkRequest auth c) s
  = (respond 200 (Raise (gate_refusal env auth)), s)
  \/ Routes.test_app env (mkRequest auth c) s
     = Routes.test_app env (authorized env c) s.
Proof.
  intros Hc. unfold Routes.test_app, authorized; cbn [call Routes.bearer].
  destruct (gate_passes env auth) eqn:G.
  - right. destruct auth as [token|]; [|discriminate].
    apply String.eqb_eq in G. now subst token.
  - left. destruct c; try discriminate Hc; unfold serve;
      rewrite Depends_gate, G; reflexivity.
Qed.

(** C10: in test_app.py, POST /user for a user u and DELETE /user/u leave
    the entry of every other username in mock_users as it was and leave
    mock_packages and mock_nas as they were, whatever the request's bearer
    token and body; POST /user leaves mock_accounting as it was; DELETE
    leaves the accounting entry of every other username as it was.  The
    writes themselves take place: with the configured token, a well-formed
    POST /user for a username that is not stored, under a stored package, is
    answered 201 and stores the entry of u; with the configured token,
    DELETE /user/u for a stored u is answered with the deletion message and
    leaves neither a user entry nor an accounting entry for u. *)
Theorem user_write_frame (env : Env) (auth : option string) (s : TestApp.Store) :
  (forall b,
     let out := Routes.test_app env (mkRequest auth (POST_user b)) s in
     (forall u', u' <> UserJson.username b ->
        Py.getitem u' (TestApp.mock_users (snd out))
        = Py.getitem u' (TestApp.mock_users s))
     /\ TestApp.mock_packages (snd out) = TestApp.mock_packages s
     /\ TestApp.mock_nas (snd out) = TestApp.mock_nas s
     /\ TestApp.mock_accounting (snd out) = TestApp.mock_accounting s
     /\ (auth = Some (BEARER_TOKEN env) ->
         valid_user b = true ->
         Py.contains (UserJson.username b) (TestApp.mock_users s) = false ->
         Py.contains (UserJson.package b) (TestApp.mock_packages s) = true ->
         fst out = user_created
         /\ Py.getitem (UserJson.username b) (TestApp.mock_users (snd out))
            = Some (TestApp.mk_user (UserJson.username b) (UserJson.passwd b)
                      (UserJson.expdate b) (UserJson.package b) (now env))))
  /\
  (forall u,
     let out := Routes.test_app env (mkRequest auth (DELETE_user u)) s in
     (forall u', u' <> u ->
        Py.getitem u' (TestApp.mock_users (snd out)) = Py.getitem u' (TestApp.mock_users s))
     /\ TestApp.mock_packages (snd out) = TestApp.mock_packages s
     /\ TestApp.mock_nas (snd out) = TestApp.mock_nas s
     /\ (forall u', u' <> u ->
           Py.getitem u' (TestApp.mock_accounting (snd out))
           = Py.getitem u' (TestApp.mock_accounting s))
     /\ (auth = Some (BEARER_TOKEN env) ->
         Py.contains u (TestApp.mock_users s) = true ->
         fst out = mkResponse 200 (StatusResponse "User deleted successfully") []
         /\ Py.getitem u (TestApp.mock_users (snd out)) = None
         /\ Py.getitem u (TestApp.mock_accounting (snd out)) = None)).
Proof.
  split.
  - intros b out. subst out.
    assert (forall s0 : TestApp.Store,
              (forall u', u' <> UserJson.username b ->
                 Py.getitem u' (TestApp.mock_users s0)
                 = Py.getitem u' (TestApp.mock_users s0))
              /\ TestApp.mock_packages s0 = TestApp.mock_packages s0
              /\ TestApp.mock_nas s0 = TestApp.mock_nas s0
              /\ TestApp.mock_accounting s0 = TestApp.mock_accounting s0) as Hsame
      by now repeat split.
    split; [|split; [|split; [|split]]].
    5: { intros -> Hv Hu Hp. fold (authorized env (POST_user b)).
         rewrite (test_create_user_result env b s Hv), Hu, Hp.
         cbn [fst snd TestApp.mock_users]. split; [reflexivity|].
         apply getitem_app_fresh. now apply contains_getitem. }
    all: destruct (test_app_gate env auth (POST_user b) s eq_refl) as [-> | ->];
      [apply Hsame|].
    all: destruct (valid_user b) eqn:Hv;
      [rewrite (test_create_user_result env b s Hv)
      |rewrite (test_invalid_user env b s Hv); apply Hsame].
    all: destruct (Py.contains (UserJson.username b) (TestApp.mock_users s)) eqn:Hu;
      [apply Hsame|].
    all: destruct (Py.contains (UserJson.package b) (TestApp.mock_packages s));
      [|apply Hsame].
    all: cbn [snd TestApp.mock_users TestApp.mock_packages TestApp.mock_nas
              TestApp.mock_accounting]; try reflexivity.
    intros u' Hne. apply getitem_app_other. congruence.
  - intros u out. subst out.
    split; [|split; [|split; [|split]]].
    5: { intros -> Hu. fold (authorized env (DELETE_user u)).
         rewrite test_delete_user, Hu.
         cbn [fst snd TestApp.mock_users TestApp.mock_accounting].
         split; [reflexivity|]. split; [apply getitem_delitem|].
         destruct (Py.contains u (TestApp.mock_accounting s)) eqn:Ha.
         - apply getitem_delitem.
         - now apply contains_getitem. }
    all: destruct (test_app_gate env auth (DELETE_user u) s eq_refl) as [-> | ->];
      [cbn [snd]; try reflexivity; intros; reflexivity|].
    all: rewrite test_delete_user.
    all: destruct (Py.contains u (TestApp.mock_users s)) eqn:Hu;
      [|cbn [snd]; try reflexivity; intros; reflexivity].
    all: cbn [snd TestApp.mock_users TestApp.mock_packages TestApp.mock_nas
              TestApp.mock_accounting]; try reflexivity.
    + intros u' Hne. now apply getitem_delitem_other.
    + intros u' Hne.
      destruct (Py.contains u (TestApp.mock_accounting s));
        [now apply getitem_delitem_other | reflexivity].
Qed.

(* ===================================================================== *)
(** * Names, keys, slices; one request at the gate *)
(* ===================================================================== *)

(** ** Distinct names, keys, slices *)

Lemma distinct_In (x : string) (l : list string) :
  In x (Sql.distinct l) <-> In x l.
Proof.
  induction l as [|a l IH]; simpl; [tauto|].
  rewrite List.filter_In, IH.
  destruct (String.eqb_spec x a) as [->|Hne]; simpl.
  - tauto.
  - split; [tauto|]. intros [->|H]; [tauto|]. right. split; [exact H|reflexivity].
Qed.

Lemma filter_fresh_id {A : Type} (p : A -> bool) (l : list A) :
  (forall x, In x l -> p x = true) -> List.filter p l = l.
Proof.
  induction l as [|a l IH]; simpl; intros H; [reflexivity|].
  rewrite (H a) by now left. f_equal. apply IH. intros x Hx. apply H. now right.
Qed.

Lemma distinct_app_fresh (x : string) (l : list string) :
  ~ In x l -> Sql.distinct (l ++ [x]) = Sql.distinct l ++ [x].
Proof.
  induction l as [|a l IH]; simpl; intros H; [reflexivity|].
  rewrite IH by tauto. rewrite List.filter_app. simpl.
  destruct (String.eqb_spec x a) as [->|Hne]; [tauto | reflexivity].
Qed.

Lemma filter_key_nil {A : Type} (key : A -> string) (k : string) (l : list A) :
  List.filter (fun r => String.eqb (key r) k) l = [] <-> ~ In k (map key l).
Proof.
  induction l as [|a l IH]; simpl; [tauto|].
  destruct (String.eqb_spec (key a) k) as [->|Hne].
  - split; [discriminate | tauto].
  - rewrite IH. tauto.
Qed.

Lemma contains_keys {V : Type} (k : string) (d : Py.dict V) :
  Py.contains k d = false <-> ~ In k (Py.keys d).
Proof.
  rewrite contains_getitem.
  induction d as [|[k' v] d IH]; simpl; [tauto|].
  destruct (String.eqb_spec k' k) as [->|Hne].
  - split; [discriminate | tauto].
  - rewrite IH. tauto.
Qed.

(** For non-negative bounds a Python slice is LIMIT/OFFSET. *)
Lemma slice_limit_offset {A : Type} (l : list A) (limit offset : Z) :
  0 <= limit -> 0 <= offset ->
  Py.slice l offset (offset + limit)
  = firstn (Z.to_nat limit) (skipn (Z.to_nat offset) l).
Proof.
  intros Hl Ho. unfold Py.slice, Py.clip.
  destruct (Z.ltb_spec offset 0); [lia|].
  destruct (Z.ltb_spec (offset + limit) 0); [lia|].
  destruct (Z.le_gt_cases (Z.of_nat (length l)) offset) as [Hge|Hlt].
  - rewrite !skipn_all2 by lia. now rewrite !firstn_nil.
  - rewrite (Z.min_l offset) by lia.
    destruct (Z.le_gt_cases (offset + limit) (Z.of_nat (length l))) as [Hin|Hout].
    + rewrite Z.min_l by lia. f_equal. lia.
    + rewrite Z.min_r by lia.
      rewrite (firstn_all2 (n := Z.to_nat limit)) by (rewrite length_skipn; lia).
      apply firstn_all2. rewrite length_skipn. lia.
Qed.

(** ** Rows of one key after a write *)

Lemma radcheck_of_with_user u' u p e g d :
  radcheck_of u' (with_user u p e g d)
  = radcheck_of u' d ++ (if String.eqb u u' then user_check_rows u p e else []).
Proof.
  unfold radcheck_of, with_user; cbn. rewrite !filter_app_fresh. cbn.
  rewrite <- app_assoc. now destruct (String.eqb u u').
Qed.

Lemma filter_key_other {A : Type} (key : A -> string) (k k' : string) (l : list A) :
  k' <> k ->
  List.filter (fun r => String.eqb (key r) k')
    (List.filter (fun r => negb (String.eqb (key r) k)) l)
  = List.filter (fun r => String.eqb (key r) k') l.
Proof.
  intros Hne. induction l as [|a l IH]; simpl; [reflexivity|].
  destruct (String.eqb_spec (key a) k) as [E|E]; simpl.
  - destruct (String.eqb_spec (key a) k'); [congruence | exact IH].
  - destruct (String.eqb (key a) k'); [now rewrite IH | exact IH].
Qed.

Lemma radcheck_of_without_user u' u d :
  radcheck_of u' (without_user u d)
  = if String.eqb u u' then [] else radcheck_of u' d.
Proof.
  unfold radcheck_of, without_user; cbn.
  destruct (String.eqb_spec u u') as [->|Hne].
  - apply (filter_negb_clears (fun r => String.eqb (Sql.rc_username r) u')).
  - apply (filter_key_other Sql.rc_username). congruence.
Qed.






Lemma run_cons {S : Type} (server : Request -> S -> Response * S) r rest s :
  Routes.run server (r :: rest) s
  = (fst (server r s) :: fst (Routes.run server rest (snd (server r s))),
     snd (Routes.run server rest (snd (server r s)))).
Proof.
  simpl. destruct (server r s) as [resp s1]. simpl.
  now destruct (Routes.run server rest s1).
Qed.

(* ===================================================================== *)
(** * Concrete runs *)
(* ===================================================================== *)

(** What that run answers. *)
Example session0_statuses :
  map status (fst (Routes.run (Routes.app env0) session0 world_started))
  = [201; 201; 200; 401; 403; 200; 200; 200; 404].
Proof. vm_compute. reflexivity. Qed.

(** C3, witness: three packages, page of two from offset one. *)
Lemma get_packages_page_witness :
  let r := fst (Routes.app env0 (authorized env0 (GET_package 2 1)) world3) in
  status r = 200 /\ data_count (body r) = 3 /\ data_length (body r) = 2.
Proof.
  destruct (get_packages_page env0 2 1 (Zle_bool_imp_le 0 2 eq_refl)
              (Zle_bool_imp_le 0 1 eq_refl)) as [Happ _].
  exact (Happ world3 eq_refl).
Defined.

(** The same page in test_app.py, from a store of three packages. *)
Example get_packages_page_test :
  let s := snd (Routes.run (Routes.test_app env0)
                  [authorized env0 (POST_package basic_body);
                   authorized env0 (POST_package (PackageJson.make "silver" "poolS" (Some "p")))]
                  store_started) in
  body (fst (Routes.test_app env0 (authorized env0 (GET_package 2 1)) s))
  = PaginatedResponse 3 [[("groupname", Str "basic")]; [("groupname", Str "silver")]].
Proof. vm_compute. reflexivity. Qed.

(** C7, witness: a guessed token on GET /online. *)
Lemma rejected_before_store_witness :
  is_protected GET_online = true
  /\ Routes.app env0 (mkRequest (Some "guess") GET_online) world_alice
     = (invalid_token, world_alice)
  /\ Routes.test_app env0 (mkRequest (Some "guess") GET_online) store_alice
     = (invalid_token, store_alice).
Proof.
  destruct (rejected_before_store env0 GET_online eq_refl) as [Hwrong _].
  destruct (Hwrong "guess" eq_refl) as [Happ Htest].
  exact (conj eq_refl (conj (Happ world_alice) (Htest store_alice))).
Defined.

(** C7, counterexample: on a framework release whose HTTPBearer answers
    missing credentials with 403, a request without a bearer token on the
    protected route GET /online is answered 403 with no challenge header,
    not 401. *)
Lemma missing_token_forbidden :
  is_protected GET_online = true
  /\ fst (Routes.app env0 (mkRequest None GET_online) world_alice)
     = mkResponse 403 (ErrorDetail "Not authenticated") []
  /\ fst (Routes.test_app env0 (mkRequest None GET_online) store_alice)
     = mkResponse 403 (ErrorDetail "Not authenticated") [].
Proof. repeat split. Qed.

(** C4, witness: alice has no session, so app.py reports her Offline. *)
Lemma user_online_status_witness :
  let r := fst (Routes.app env0 (authorized env0 (GET_online_user "alice")) world_alice) in
  sessions_of "alice" (App.db world_alice) = []
  /\ status r = 200 /\ body r = online_status false.
Proof.
  destruct (user_online_status env0 "alice") as [Happ _].
  destruct (Happ world_alice eq_refl) as [_ Hfound].
  refine (conj eq_refl (Hfound _)). vm_compute. discriminate.
Defined.

(** C4, counterexample: in test_app.py alice exists and the accounting
    store is empty (she has no session), yet GET /online/alice reports her
    Online, where the claim says Offline. *)
Lemma online_without_session :
  Py.contains "alice" (TestApp.mock_users store_alice) = true
  /\ TestApp.mock_accounting store_alice = []
  /\ fst (Routes.test_app env0 (authorized env0 (GET_online_user "alice")) store_alice)
     = mkResponse 200 (Object [("status", Str "Online")]) [].
Proof. vm_compute. repeat split. Qed.

(** C5, witness: deleting alice. *)
Lemma delete_user_removes_witness :
  let out := Routes.app env0 (authorized env0 (DELETE_user "alice")) world_alice in
  radcheck_of "alice" (App.db world_alice) = user_check_rows "alice" "pw123" "2025-12-31"
  /\ status (fst out) = 200
  /\ radcheck_of "alice" (App.db (snd out)) = []
  /\ radusergroup_of "alice" (App.db (snd out)) = []
  /\ status (fst (Routes.app env0 (authorized env0 (GET_user "alice")) (snd out))) = 404.
Proof.
  destruct (delete_user_removes env0 "alice") as [Happ _].
  destruct (Happ world_alice eq_refl) as [_ Hpresent].
  refine (conj eq_refl (Hpresent _)). vm_compute. discriminate.
Defined.

(** C6, witness: package basic created twice on an empty database. *)
Lemma create_package_twice_witness :
  let req := authorized env0 (POST_package basic_body) in
  let out := Routes.run (Routes.app env0) [req; req] world0 in
  map status (fst out) = [201; 400]
  /\ radgroupcheck_of "basic" (App.db (snd out)) = [package_check_row "basic"]
  /\ radgroupreply_of "basic" (App.db (snd out)) = package_reply_rows "basic" "poolA".
Proof.
  destruct (create_package_twice env0 "basic" "poolA" eq_refl eq_refl) as [Happ _].
  exact (Happ (Some "default") world0 eq_refl eq_refl eq_refl).
Defined.

(** C9, witness: the NAS refuses; one command was started, with timeout 30. *)
Lemma disconnect_session_once_witness :
  let out := Routes.app env0 (authorized env0 (POST_session_dis "8A3F01" "10.0.0.1")) world0 in
  App.spawned (snd out)
  = [("echo Acct-Session-Id=8A3F01 | radclient -r 1 10.0.0.1:3799 disconnect RGL@dmin321#",
      30)]
  /\ fst out = disconnect_failed.
Proof.
  destruct (disconnect_session_once env0 "8A3F01" "10.0.0.1" world0)
    as (Hspawn & _ & _ & _ & _ & Hfail & _).
  exact (conj Hspawn (Hfail 1 "" "Disconnect-NAK" eq_refl (fun H => Z.neq_succ_diag_l 0 H))).
Defined.

(** C10, witness: in a store that holds alice and bob, each with an
    accounting entry, deleting alice removes her user entry and her
    accounting entry and leaves bob's entries, the packages and the NAS
    entries alone. *)
Lemma user_write_frame_witness :
  let out := Routes.test_app env0 (authorized env0 (DELETE_user "alice")) store_accounted in
  Py.contains "alice" (TestApp.mock_users store_accounted) = true
  /\ Py.contains "alice" (TestApp.mock_accounting store_accounted) = true
  /\ fst out = mkResponse 200 (StatusResponse "User deleted successfully") []
  /\ Py.getitem "alice" (TestApp.mock_users (snd out)) = None
  /\ Py.getitem "alice" (TestApp.mock_accounting (snd out)) = None
  /\ Py.getitem "bob" (TestApp.mock_users (snd out))
     = Py.getitem "bob" (TestApp.mock_users store_accounted)
  /\ Py.getitem "bob" (TestApp.mock_accounting (snd out))
     = Some [TestApp.mock_record "bob" 1]
  /\ TestApp.mock_packages (snd out) = TestApp.mock_packages store_accounted
  /\ TestApp.mock_nas (snd out) = TestApp.mock_nas store_accounted.
Proof.
  destruct (user_write_frame env0 (Some "s3cr3t") store_accounted) as [_ Hdelete].
  destruct (Hdelete "alice") as (Husers & Hpackages & Hnas & Hacct & Hgone).
  destruct (Hgone eq_refl eq_refl) as (Hanswer & Huser & Hentry).
  assert ("bob" <> "alice") as Hne by discriminate.
  exact (conj eq_refl (conj eq_refl (conj Hanswer (conj Huser (conj Hentry
           (conj (Husers "bob" Hne)
              (conj (eq_trans (Hacct "bob" Hne) eq_refl)
                 (conj Hpackages Hnas)))))))).
Defined.

(** C10, a second run: creating carol in that store stores her entry and
    leaves alice's entry and the accounting entries alone. *)
Example create_carol :
  let out := Routes.test_app env0
               (authorized env0 (POST_user (UserJson.make "carol" "pw" "2026-01-01" "basic")))
               store_accounted in
  fst out = user_created
  /\ Py.getitem "carol" (TestApp.mock_users (snd out))
     = Some (TestApp.mk_user "carol" "pw" "2026-01-01" "basic" "2024-08-30T10:00:00")
  /\ Py.getitem "alice" (TestApp.mock_users (snd out))
     = Py.getitem "alice" (TestApp.mock_users store_accounted)
  /\ TestApp.mock_accounting (snd out) = TestApp.mock_accounting store_accounted.
Proof. vm_compute. repeat split. Qed.

(** C2, the code at the failing input: no package named ghost exists, yet
    app.py answers POST /user for alice with 201 and writes her two
    check-attribute rows and her membership row; test_app.py answers the
    same request with 400 and keeps its store. *)
Theorem create_user_unknown_package :
  let req := authorized env0 (POST_user (alice "ghost")) in
  let out := Routes.app env0 req world0 in
  db_packages (App.db world0) = []
  /\ status (fst out) = 201
  /\ radcheck_of "alice" (App.db (snd out)) = user_check_rows "alice" "pw123" "2025-12-31"
  /\ radusergroup_of "alice" (App.db (snd out)) = [Sql.mk_radusergroup "alice" "ghost"]
  /\ Routes.test_app env0 req TestApp.empty
     = (mkResponse 400 (ErrorDetail "Package does not exist") [], TestApp.empty).
Proof. vm_compute. repeat split. Qed.

(** C8, the code at the failing input: POST /nas for a new name, type and
    description omitted, stores one row with type other and description
    RADIUS Client and registers the name (a second attempt is answered
    400), but the answer to the first is 200 in both variants, not 201. *)
Theorem create_nas_answers_200 :
  let req := authorized env0 (POST_nas "10.0.0.1" "edge" "radsecret" None None) in
  let out := Routes.app env0 req world0 in
  let out' := Routes.test_app env0 req TestApp.empty in
  status (fst out) = 200
  /\ Sql.nas (App.db (snd out))
     = [Sql.mk_nas "10.0.0.1" "edge" "other" "radsecret" "RADIUS Client"]
  /\ status (fst (Routes.app env0 req (snd out))) = 400
  /\ status (fst out') = 200
  /\ status (fst (Routes.test_app env0 req (snd out'))) = 400.
Proof. vm_compute. repeat split. Qed.

(* ===================================================================== *)
(** * Transactions under backend failures *)
(* ===================================================================== *)

Lemma next_fault_db w : App.db (snd (App.next_fault w)) = App.db w.
Proof. unfold App.next_fault. now destruct (App.faults w). Qed.

Lemma cursor_execute_db q pending w :
  App.db (snd (App.cursor_execute q pending w)) = App.db w.
Proof.
  unfold App.cursor_execute, App.next_fault.
  destruct (App.faults w) as [|[msg|] fs]; cbn;
    try reflexivity; now destruct (Sql.run q pending).
Qed.

Lemma execute_all_cases queries : forall pending w,
  App.db (snd (App.execute_all queries pending w)) = App.db w
  /\ forall d', fst (App.execute_all queries pending w) = inr d' ->
                run_all queries pending = Some d'.
Proof.
  induction queries as [|q rest IH]; intros pending w; cbn.
  - split; [reflexivity|]. now intros d' [= ->].
  - pose proof (cursor_execute_db q pending w) as Hdb.
    unfold App.cursor_execute in *.
    destruct (App.next_fault w) as [[msg|] w1]; cbn in *.
    + split; [exact Hdb|]. discriminate.
    + destruct (Sql.run q pending) as [[[rows n] pending']|]; cbn in *.
      * destruct (IH pending' (App.with_journal (App.journal w1 ++ [q]) w1))
          as [Hdb' Hrun].
        split; [now rewrite Hdb' | exact Hrun].
      * split; [exact Hdb|]. discriminate.
Qed.

(** All of the statements or none. *)
Lemma execute_transaction_cases (queries : list Sql.Statement) (w : App.World) :
  match App.execute_transaction queries w with
  | (Ok _, w') => run_all queries (App.db w) = Some (App.db w')
  | (Raise e, w') => status_code e = 500 /\ App.db w' = App.db w
  end.
Proof.
  unfold App.execute_transaction.
  pose proof (next_fault_db w) as H1.
  destruct (App.next_fault w) as [[msg|] w1]; cbn in H1; [now split|].
  destruct (execute_all_cases queries (App.db w1) w1) as [H2 Hrun].
  destruct (App.execute_all queries (App.db w1) w1) as [[msg|pending] w2];
    cbn in H2; [split; [reflexivity | congruence]|].
  pose proof (next_fault_db w2) as H3.
  destruct (App.next_fault w2) as [[msg|] w3]; cbn in H3.
  - split; [reflexivity | congruence].
  - cbn. rewrite <- H1. now apply Hrun.
Qed.

(** A fetched [SELECT] commits nothing, and fails only with a 500. *)
Lemma execute_query_select_cases q w :
  Sql.is_select q = true ->
  App.db (snd (App.execute_query q true w)) = App.db w
  /\ forall e, fst (App.execute_query q true w) = Raise e -> status_code e = 500.
Proof.
  intros Hq. unfold App.execute_query.
  pose proof (next_fault_db w) as H1.
  destruct (App.next_fault w) as [[msg|] w1]; cbn in H1.
  - split; [exact H1|]. now intros e [= <-].
  - pose proof (cursor_execute_db q (App.db w1) w1) as H2.
    destruct (App.cursor_execute q (App.db w1) w1) as [[msg|[[rows n] pending]] w2];
      cbn in H2.
    + split; [cbn; congruence|]. now intros e [= <-].
    + rewrite Hq. cbn. split; [congruence | discriminate].
Qed.

Lemma first_count_cases r w :
  snd (App.first_count r w) = w
  /\ forall e, fst (App.first_count r w) = Raise e -> status_code e = 500.
Proof.
  unfold App.first_count. destruct r as [[|row rows]| |]; cbn;
    try (split; [reflexivity|]; now intros e [= <-]).
  destruct (Py.getitem "count" row) as [[| n |]|]; cbn;
    split; try reflexivity; now intros e [= <-].
Qed.

(** ** The handlers that write through a transaction, under any backend *)

Lemma create_package_cases (p : App.PackageCreate.t) (w : App.World) :
  match App.create_package p w with
  | (Ok _, w') =>
      App.db w' = with_package (App.PackageCreate.package p) (App.PackageCreate.pool p)
                    (App.db w)
  | (Raise e, w') =>
      (status_code e = 400 \/ status_code e = 500) /\ App.db w' = App.db w
  end.
Proof.
  unfold App.create_package, App.bind.
  destruct (execute_query_select_cases
              (Sql.count_radgroupcheck (App.PackageCreate.package p)) w eq_refl)
    as [H1 E1].
  destruct (App.execute_query _ true w) as [[r|e] w1]; cbn [fst snd] in *;
    [|split; [right; now apply E1 | exact H1]].
  destruct (first_count_cases r w1) as [H2 E2].
  destruct (App.first_count r w1) as [[count|e] w2]; cbn [fst snd] in *; subst w2;
    [|split; [right; now apply E2 | exact H1]].
  destruct (0 <? count); [cbn; split; [now left | exact H1]|].
  match goal with
  | |- context [App.execute_transaction ?qs w1] =>
      pose proof (execute_transaction_cases qs w1) as H3;
      destruct (App.execute_transaction qs w1) as [[ok|e] w3]
  end.
  - cbn in *. rewrite H1 in H3. now injection H3 as <-.
  - destruct H3 as [H3 H4]. split; [now right | congruence].
Qed.

Lemma create_user_cases (u : App.UserCreate.t) (w : App.World) :
  match App.create_user u w with
  | (Ok _, w') =>
      App.db w' = with_user (App.UserCreate.username u) (App.UserCreate.passwd u)
                    (App.UserCreate.expdate u) (App.UserCreate.package u) (App.db w)
  | (Raise e, w') =>
      (status_code e = 400 \/ status_code e = 500) /\ App.db w' = App.db w
  end.
Proof.
  unfold App.create_user, App.bind.
  destruct (execute_query_select_cases
              (Sql.count_radcheck (App.UserCreate.username u)) w eq_refl)
    as [H1 E1].
  destruct (App.execute_query _ true w) as [[r|e] w1]; cbn [fst snd] in *;
    [|split; [right; now apply E1 | exact H1]].
  destruct (first_count_cases r w1) as [H2 E2].
  destruct (App.first_count r w1) as [[count|e] w2]; cbn [fst snd] in *; subst w2;
    [|split; [right; now apply E2 | exact H1]].
  destruct (0 <? count); [cbn; split; [now left | exact H1]|].
  match goal with
  | |- context [App.execute_transaction ?qs w1] =>
      pose proof (execute_transaction_cases qs w1) as H3;
      destruct (App.execute_transaction qs w1) as [[ok|e] w3]
  end.
  - cbn in *. rewrite H1 in H3. now injection H3 as <-.
  - destruct H3 as [H3 H4]. split; [now right | congruence].
Qed.

Lemma delete_user_cases (u : string) (w : App.World) :
  match App.delete_user u w with
  | (Ok _, w') => App.db w' = without_user u (App.db w)
  | (Raise e, w') =>
      (status_code e = 404 \/ status_code e = 500) /\ App.db w' = App.db w
  end.
Proof.
  unfold App.delete_user, App.bind.
  destruct (execute_query_select_cases (Sql.count_radcheck u) w eq_refl) as [H1 E1].
  destruct (App.execute_query _ true w) as [[r|e] w1]; cbn [fst snd] in *;
    [|split; [right; now apply E1 | exact H1]].
  destruct (first_count_cases r w1) as [H2 E2].
  destruct (App.first_count r w1) as [[count|e] w2]; cbn [fst snd] in *; subst w2;
    [|split; [right; now apply E2 | exact H1]].
  destruct (count =? 0); [cbn; split; [now left | exact H1]|].
  match goal with
  | |- context [App.execute_transaction ?qs w1] =>
      pose proof (execute_transaction_cases qs w1) as H3;
      destruct (App.execute_transaction qs w1) as [[ok|e] w3]
  end.
  - cbn in *. rewrite H1 in H3. now injection H3 as <-.
  - destruct H3 as [H3 H4]. split; [now right | congruence].
Qed.

(** X1: [execute_transaction] commits all of its statements or none: when
    it returns, the committed database is the one all statements lead to;
    when it raises (whatever backend interaction failed, and at whatever
    statement), the exception is a 500 and the committed database is the one
    before the call. *)
Theorem execute_transaction_atomic (queries : list Sql.Statement) (w : App.World) :
  match App.execute_transaction queries w with
  | (Ok _, w') => run_all queries (App.db w) = Some (App.db w')
  | (Raise e, w') => status_code e = 500 /\ App.db w' = App.db w
  end.
Proof. exact (execute_transaction_cases queries w). Qed.

(** X2: the multi-row writes of app.py never leave a partial record,
    whatever the backend does and whatever the request: after POST /package
    the database is the one before the request or holds all three rows of
    the package on top of it, and it holds them exactly when the answer is
    201; likewise for the three rows of POST /user; after DELETE /user the
    database is the one before or has lost both the check-attribute and the
    membership rows of the user, the latter exactly when the answer is 200. *)
Theorem writes_all_or_nothing (env : Env) (w : App.World) :
  (forall b,
     let out := Routes.app env (authorized env (POST_package b)) w in
     (status (fst out) = 201
      /\ App.db (snd out)
         = with_package (PackageJson.package b) (PackageJson.pool b) (App.db w))
     \/ (status (fst out) <> 201 /\ App.db (snd out) = App.db w))
  /\
  (forall b,
     let out := Routes.app env (authorized env (POST_user b)) w in
     (status (fst out) = 201
      /\ App.db (snd out)
         = with_user (UserJson.username b) (UserJson.passwd b) (UserJson.expdate b)
             (UserJson.package b) (App.db w))
     \/ (status (fst out) <> 201 /\ App.db (snd out) = App.db w))
  /\
  (forall u,
     let out := Routes.app env (authorized env (DELETE_user u)) w in
     (status (fst out) = 200 /\ App.db (snd out) = without_user u (App.db w))
     \/ (status (fst out) <> 200 /\ App.db (snd out) = App.db w)).
Proof.
  split; [|split].
  - intros b out; subst out; enter_route. unfold app_package_model.
    destruct (length_between 1 64 _ && length_between 1 253 _);
      [|right; now split].
    pose proof (create_package_cases
                  (App.PackageCreate.make (PackageJson.package b) (PackageJson.pool b)) w)
      as H.
    destruct (App.create_package _ w) as [[ok|e] w']; cbn in *.
    + left. now split.
    + right. destruct H as [[H|H] Hd]; rewrite H; now split.
  - intros b out; subst out; enter_route. unfold app_user_model.
    destruct (valid_user b); [|right; now split].
    pose proof (create_user_cases
                  (App.UserCreate.make (UserJson.username b) (UserJson.passwd b)
                     (UserJson.expdate b) (UserJson.package b)) w) as H.
    destruct (App.create_user _ w) as [[ok|e] w']; cbn in *.
    + left. now split.
    + right. destruct H as [[H|H] Hd]; rewrite H; now split.
  - intros u out; subst out; enter_route.
    pose proof (delete_user_cases u w) as H.
    destruct (App.delete_user u w) as [[ok|e] w']; cbn in *.
    + left. now split.
    + right. destruct H as [[H|H] Hd]; rewrite H; now split.
Qed.

(** X2, a run: the connection is lost at the third insert of POST /package;
    the answer is 500 and none of the three rows is in the database. *)
Lemma writes_all_or_nothing_witness :
  let out := Routes.app env0 (authorized env0 (POST_package basic_body)) world_flaky in
  fst out = mkResponse 500 (ErrorDetail "Transaction failed: 2013: Lost connection") []
  /\ App.db (snd out) = Sql.empty
  /\ length (App.journal (snd out)) = 4%nat.
Proof.
  destruct (writes_all_or_nothing env0 world_flaky) as [Hpackage _].
  destruct (Hpackage basic_body) as [[Hok _] | [_ Hdb]].
  - vm_compute in Hok. discriminate Hok.
  - refine (conj _ (conj Hdb _)); vm_compute; reflexivity.
Defined.

(* ===================================================================== *)
(** * The package check of test_app.py, and the contract's walk-through *)
(* ===================================================================== *)

(** X3: in test_app.py a well-formed POST /user that names a package which
    is not in mock_packages is answered 400 and the store stays as it was
    (no entry for the user is made). *)
Theorem test_create_user_unknown_package (env : Env) (b : UserJson.t) (s : TestApp.Store) :
  valid_user b = true ->
  Py.contains (UserJson.package b) (TestApp.mock_packages s) = false ->
  let out := Routes.test_app env (authorized env (POST_user b)) s in
  status (fst out) = 400 /\ snd out = s.
Proof.
  intros Hv Hp out. subst out. rewrite (test_create_user_result env b s Hv), Hp.
  now destruct (Py.contains (UserJson.username b) (TestApp.mock_users s)).
Qed.

Lemma test_create_user_unknown_package_witness :
  let out := Routes.test_app env0 (authorized env0 (POST_user (alice "ghost"))) store_started in
  status (fst out) = 400 /\ snd out = store_started.
Proof.
  exact (test_create_user_unknown_package env0 (alice "ghost") store_started eq_refl eq_refl).
Defined.

(** The walk-through of the contract in both variants: create package
    basic with pool poolA (201), create user alice with password pw123,
    expiration 2025-12-31 and package basic (201), GET /user/alice (200, the
    logdata holds the values pw123 and 2025-12-31), DELETE /user/alice (200),
    GET /user/alice (404). *)
Example walkthrough_answers :
  let logdata :=
    LogData [ [("username", Str "alice"); ("value", Str "pw123")];
              [("username", Str "alice"); ("value", Str "2025-12-31")] ] in
  let expected :=
    [ mkResponse 201 (StatusResponse "Package created successfully") [];
      mkResponse 201 (StatusResponse "User created successfully") [];
      mkResponse 200 logdata [];
      mkResponse 200 (StatusResponse "User deleted successfully") [];
      mkResponse 404 (ErrorDetail "User not found") [] ] in
  fst (Routes.run (Routes.app env0) walkthrough world0) = expected
  /\ fst (Routes.run (Routes.test_app env0) walkthrough TestApp.empty) = expected.
Proof. vm_compute. split; reflexivity. Qed.

(** X5, a run: the first NAS of an empty database. *)
Lemma create_nas_app_witness :
  let out := Routes.app env0 (authorized env0 (POST_nas "10.0.0.1" "edge" "radsecret" None None)) world0 in
  status (fst out) = 200
  /\ body (fst out) = StatusResponse "NAS created successfully"
  /\ App.db (snd out)
     = with_nas_row (Sql.mk_nas "10.0.0.1" "edge" "other" "radsecret" "RADIUS Client")
         Sql.empty.
Proof.
  destruct (create_nas_app env0 "10.0.0.1" "edge" "radsecret" None None world0 eq_refl)
    as [Hfresh _].
  exact (Hfresh eq_refl).
Defined.

(* ===================================================================== *)
(** * What a request may do to the database *)
(* ===================================================================== *)

(** ** Reading leaves the database alone *)

Lemma keeps_ret {A : Type} (a : A) : keeps_db (App.ret a).
Proof. intros w. reflexivity. Qed.

Lemma keeps_raise {A : Type} (e : HTTPException) : keeps_db (@App.raise A e).
Proof. intros w. reflexivity. Qed.

Lemma keeps_bind {A B : Type} (m : App.M A) (k : A -> App.M B) :
  keeps_db m -> (forall a, keeps_db (k a)) -> keeps_db (App.bind m k).
Proof.
  intros Hm Hk w. unfold App.bind. specialize (Hm w).
  destruct (m w) as [[a|e] w1]; cbn in *; [|exact Hm].
  now rewrite (Hk a w1).
Qed.

Lemma keeps_select (q : Sql.Statement) :
  Sql.is_select q = true -> keeps_db (App.execute_query q true).
Proof. intros Hq w. now apply execute_query_select_cases. Qed.

Lemma keeps_first_count r : keeps_db (App.first_count r).
Proof. intros w. now rewrite (proj1 (first_count_cases r w)). Qed.

Lemma keeps_fetched r : keeps_db (App.fetched r).
Proof. intros w. now destruct r. Qed.

Lemma keeps_if {A : Type} (b : bool) (m1 m2 : App.M A) :
  keeps_db m1 -> keeps_db m2 -> keeps_db (if b then m1 else m2).
Proof. now destruct b. Qed.

Ltac keeps :=
  repeat first
    [ apply keeps_ret | apply keeps_raise | apply keeps_first_count
    | apply keeps_fetched | apply keeps_select; reflexivity
    | apply keeps_if | apply keeps_bind; [|intros ?]
    | match goal with |- keeps_db (match ?x with _ => _ end) => destruct x end ].

Lemma keeps_get_packages limit offset : keeps_db (App.get_packages limit offset).
Proof. unfold App.get_packages. keeps. Qed.

Lemma keeps_get_user u : keeps_db (App.get_user u).
Proof. unfold App.get_user. keeps. Qed.

Lemma keeps_get_user_accounting u limit offset :
  keeps_db (App.get_user_accounting u limit offset).
Proof. unfold App.get_user_accounting. keeps. Qed.

Lemma keeps_get_online_users : keeps_db App.get_online_users.
Proof. unfold App.get_online_users. keeps. Qed.

Lemma keeps_get_online_count : keeps_db App.get_online_count.
Proof. unfold App.get_online_count. keeps. Qed.

Lemma keeps_get_user_online_status u : keeps_db (App.get_user_online_status u).
Proof. unfold App.get_user_online_status. keeps. Qed.

Lemma keeps_disconnect_session session nas : keeps_db (App.disconnect_session session nas).
Proof.
  intros w. unfold App.disconnect_session.
  destruct (App.subprocess_run w _ 30) as [rc out err| |msg]; cbn; try reflexivity.
  now destruct (rc =? 0).
Qed.

Lemma keeps_health_check now : keeps_db (App.health_check now).
Proof.
  intros w. unfold App.health_check.
  pose proof (keeps_select Sql.select_1 eq_refl w) as H.
  now destruct (App.execute_query Sql.select_1 true w).
Qed.
(** ** Writing is one step *)

Lemma count_where_nonpos {A : Type} (p : A -> bool) (t : list A) :
  (0 <? Sql.count_where p t) = false -> List.filter p t = [].
Proof.
  unfold Sql.count_where. intros H. apply Z.ltb_ge in H.
  destruct (List.filter p t); [reflexivity | simpl in H; lia].
Qed.

Lemma count_where_zero {A : Type} (p : A -> bool) (t : list A) :
  (Sql.count_where p t =? 0) = true -> List.filter p t = [].
Proof.
  unfold Sql.count_where. intros H. apply Z.eqb_eq in H.
  destruct (List.filter p t); [reflexivity | simpl in H; lia].
Qed.

Lemma count_where_nonzero {A : Type} (p : A -> bool) (t : list A) :
  (Sql.count_where p t =? 0) = false -> List.filter p t <> [].
Proof.
  unfold Sql.count_where. intros H. apply Z.eqb_neq in H.
  destruct (List.filter p t); [now contradict H | discriminate].
Qed.

(** A counting query followed by [result[0]['count']]: the count of the
    committed database, or a 500; the database is not touched either way. *)
Lemma bind_count {B : Type} (q : Sql.Statement) (c : Sql.Db -> Z)
    (k : Z -> App.M B) (w : App.World) :
  Sql.is_select q = true ->
  (forall d, Sql.run q d = Some ([Sql.count_row (c d)], 1, d)) ->
  exists w1, App.db w1 = App.db w
    /\ (App.bind (App.execute_query q true)
          (fun r => App.bind (App.first_count r) k) w = k (c (App.db w)) w1
        \/ exists e, status_code e = 500
             /\ App.bind (App.execute_query q true)
                  (fun r => App.bind (App.first_count r) k) w = (Raise e, w1)).
Proof.
  intros Hq Hrun. unfold App.bind, App.execute_query, App.cursor_execute.
  pose proof (next_fault_db w) as H1.
  destruct (App.next_fault w) as [[msg|] w1]; cbn in H1.
  - exists w1. split; [exact H1|]. right. eexists. split; [|reflexivity]. reflexivity.
  - pose proof (next_fault_db w1) as H2.
    destruct (App.next_fault w1) as [[msg|] w2]; cbn in H2.
    + eexists. split; [|right; eexists; split; [|reflexivity]; reflexivity].
      cbn. congruence.
    + rewrite Hrun, Hq. cbn.
      eexists. split; [|left; rewrite <- H1; reflexivity]. cbn. congruence.
Qed.

Lemma execute_query_write_cases (q : Sql.Statement) (w : App.World) :
  match App.execute_query q false w with
  | (Ok _, w') => exists rows n, Sql.run q (App.db w) = Some (rows, n, App.db w')
  | (Raise e, w') => status_code e = 500 /\ App.db w' = App.db w
  end.
Proof.
  unfold App.execute_query.
  pose proof (next_fault_db w) as H1.
  destruct (App.next_fault w) as [[msg|] w1]; cbn in H1; [now split|].
  pose proof (cursor_execute_db q (App.db w1) w1) as H2.
  destruct (App.cursor_execute q (App.db w1) w1) as [[msg|[[rows n] pending]] w2] eqn:E;
    cbn in H2; [split; [reflexivity | congruence]|].
  cbn [andb].
  pose proof (next_fault_db w2) as H3.
  destruct (App.next_fault w2) as [[msg|] w3]; cbn in H3.
  - split; [reflexivity | congruence].
  - cbn. exists rows, n. revert E. unfold App.cursor_execute.
    destruct (App.next_fault w1) as [[msg|] w1']; [discriminate|].
    rewrite <- H1. destruct (Sql.run q (App.db w1)) as [r|]; [|discriminate].
    now intros [= -> _].
Qed.

Lemma create_package_outcome (p : App.PackageCreate.t) (w : App.World) :
  match App.create_package p w with
  | (Ok _, w') =>
      radgroupcheck_of (App.PackageCreate.package p) (App.db w) = []
      /\ App.db w' = with_package (App.PackageCreate.package p) (App.PackageCreate.pool p)
                       (App.db w)
  | (Raise e, w') =>
      (status_code e = 400 \/ status_code e = 500) /\ App.db w' = App.db w
  end.
Proof.
  unfold App.create_package.
  destruct (bind_count (Sql.count_radgroupcheck (App.PackageCreate.package p))
              (fun d => Sql.count_where
                          (fun r => String.eqb (Sql.rg_groupname r) (App.PackageCreate.package p))
                          (Sql.radgroupcheck d))
              (fun count =>
                 if 0 <? count
                 then App.raise (mkHTTPException 400 "Package already exists" [])
                 else App.bind
                        (App.execute_transaction
                           [Sql.insert_radgroupcheck (App.PackageCreate.package p)
                              "Simultaneous-Use" ":=" "1";
                            Sql.insert_radgroupreply (App.PackageCreate.package p)
                              "Framed-Pool" "=" (App.PackageCreate.pool p);
                            Sql.insert_radgroupreply (App.PackageCreate.package p)
                              "Acct-Interim-Interval" "=" "120"])
                        (fun _ => App.ret (StatusResponse "Package created successfully")))
              w eq_refl (fun d => eq_refl))
    as (w1 & H1 & [-> | (e & He & ->)]); [|now split; [right|]].
  destruct (0 <? _) eqn:Hc; [cbn; split; [now left | exact H1]|].
  apply count_where_nonpos in Hc. unfold App.bind.
  match goal with
  | |- context [App.execute_transaction ?qs w1] =>
      pose proof (execute_transaction_cases qs w1) as H3;
      destruct (App.execute_transaction qs w1) as [[ok|e] w3]
  end.
  - cbn in *. rewrite H1 in H3. split; [exact Hc | now injection H3 as <-].
  - destruct H3 as [H3 H4]. split; [now right | congruence].
Qed.

Lemma create_user_outcome (u : App.UserCreate.t) (w : App.World) :
  match App.create_user u w with
  | (Ok _, w') =>
      radcheck_of (App.UserCreate.username u) (App.db w) = []
      /\ App.db w' = with_user (App.UserCreate.username u) (App.UserCreate.passwd u)
                       (App.UserCreate.expdate u) (App.UserCreate.package u) (App.db w)
  | (Raise e, w') =>
      (status_code e = 400 \/ status_code e = 500) /\ App.db w' = App.db w
  end.
Proof.
  unfold App.create_user.
  destruct (bind_count (Sql.count_radcheck (App.UserCreate.username u))
              (fun d => Sql.count_where
                          (fun r => String.eqb (Sql.rc_username r) (App.UserCreate.username u))
                          (Sql.radcheck d))
              (fun count =>
                 if 0 <? count
                 then App.raise (mkHTTPException 400 "User already exists" [])
                 else App.bind
                        (App.execute_transaction
                           [Sql.insert_radcheck (App.UserCreate.username u)
                              "Cleartext-Password" ":=" (App.UserCreate.passwd u);
                            Sql.insert_radcheck (App.UserCreate.username u)
                              "Expiration" ":=" (App.UserCreate.expdate u);
                            Sql.insert_radusergroup (App.UserCreate.username u)
                              (App.UserCreate.package u)])
                        (fun _ => App.ret (StatusResponse "User created successfully")))
              w eq_refl (fun d => eq_refl))
    as (w1 & H1 & [-> | (e & He & ->)]); [|now split; [right|]].
  destruct (0 <? _) eqn:Hc; [cbn; split; [now left | exact H1]|].
  apply count_where_nonpos in Hc. unfold App.bind.
  match goal with
  | |- context [App.execute_transaction ?qs w1] =>
      pose proof (execute_transaction_cases qs w1) as H3;
      destruct (App.execute_transaction qs w1) as [[ok|e] w3]
  end.
  - cbn in *. rewrite H1 in H3. split; [exact Hc | now injection H3 as <-].
  - destruct H3 as [H3 H4]. split; [now right | congruence].
Qed.

Lemma delete_user_outcome (u : string) (w : App.World) :
  match App.delete_user u w with
  | (Ok _, w') =>
      radcheck_of u (App.db w) <> [] /\ App.db w' = without_user u (App.db w)
  | (Raise e, w') =>
      (status_code e = 404 \/ status_code e = 500) /\ App.db w' = App.db w
  end.
Proof.
  unfold App.delete_user.
  destruct (bind_count (Sql.count_radcheck u)
              (fun d => Sql.count_where (fun r => String.eqb (Sql.rc_username r) u)
                          (Sql.radcheck d))
              (fun count =>
                 if count =? 0
                 then App.raise (mkHTTPException 404 "User not found" [])
                 else App.bind
                        (App.execute_transaction
                           [Sql.delete_radcheck u; Sql.delete_radusergroup u])
                        (fun _ => App.ret (StatusResponse "User deleted successfully")))
              w eq_refl (fun d => eq_refl))
    as (w1 & H1 & [-> | (e & He & ->)]); [|now split; [right|]].
  destruct (_ =? 0) eqn:Hc; [cbn; split; [now left | exact H1]|].
  apply count_where_nonzero in Hc. unfold App.bind.
  match goal with
  | |- context [App.execute_transaction ?qs w1] =>
      pose proof (execute_transaction_cases qs w1) as H3;
      destruct (App.execute_transaction qs w1) as [[ok|e] w3]
  end.
  - cbn in *. rewrite H1 in H3. split; [exact Hc | now injection H3 as <-].
  - destruct H3 as [H3 H4]. split; [now right | congruence].
Qed.

Lemma create_nas_outcome (n sh sec ty descr : string) (w : App.World) :
  match App.create_nas n sh sec ty descr w with
  | (Ok _, w') =>
      nas_of n (App.db w) = []
      /\ App.db w' = with_nas_row (Sql.mk_nas n sh ty sec descr) (App.db w)
  | (Raise e, w') =>
      (status_code e = 400 \/ status_code e = 500) /\ App.db w' = App.db w
  end.
Proof.
  unfold App.create_nas.
  destruct (bind_count (Sql.count_nas n)
              (fun d => Sql.count_where (fun r => String.eqb (Sql.nasname r) n) (Sql.nas d))
              (fun count =>
                 if 0 <? count
                 then App.raise (mkHTTPException 400 "NAS already exists" [])
                 else App.bind
                        (App.execute_query (Sql.insert_nas n sh ty sec descr) false)
                        (fun _ => App.ret (StatusResponse "NAS created successfully")))
              w eq_refl (fun d => eq_refl))
    as (w1 & H1 & [-> | (e & He & ->)]); [|now split; [right|]].
  destruct (0 <? _) eqn:Hc; [cbn; split; [now left | exact H1]|].
  apply count_where_nonpos in Hc. unfold App.bind.
  pose proof (execute_query_write_cases (Sql.insert_nas n sh ty sec descr) w1) as H3.
  destruct (App.execute_query _ false w1) as [[ok|e] w3].
  - destruct H3 as (rows & k & H3). cbn in *. rewrite H1 in H3.
    split; [exact Hc | now injection H3 as <-].
  - destruct H3 as [H3 H4]. split; [now right | congruence].
Qed.
Lemma snd_serve {S : Type} (declared : Z) (h : S -> Result Body * S) (s : S) :
  snd (serve declared h s) = snd (h s).
Proof. unfold serve. now destruct (h s). Qed.

Lemma fst_serve {S : Type} (declared : Z) (h : S -> Result Body * S) (s : S) :
  fst (serve declared h s) = respond declared (fst (h s)).
Proof. unfold serve. now destruct (h s). Qed.

Lemma db_step_outcome {A : Type} (d : Sql.Db) (out : Result A * App.World) (d' : Sql.Db)
    (fresh : Prop) :
  (fresh -> db_step d d') ->
  match out with
  | (Ok _, w') => fresh /\ App.db w' = d'
  | (Raise e, w') => (status_code e = 400 \/ status_code e = 500) /\ App.db w' = d
  end ->
  db_step d (App.db (snd out)).
Proof.
  intros Hstep. destruct out as [[a|e] w']; cbn.
  - intros [Hf ->]. now apply Hstep.
  - intros [_ ->]. constructor.
Qed.

(** Whatever the request and whatever the backend does. *)
Lemma app_db_step env (req : Request) (w : App.World) :
  db_step (App.db w) (App.db (snd (Routes.app env req w))).
Proof.
  destruct req as [auth c]. unfold Routes.app; cbn [call Routes.bearer].
  destruct c as [ | | b | limit offset | b | u | u | u limit offset | | | u
                | n sh sec ty descr | session nas ];
    rewrite snd_serve;
    try (rewrite Depends_gate; destruct (gate_passes env auth); [|constructor]).
  - constructor.
  - rewrite keeps_health_check. constructor.
  - destruct (app_package_model b) as [p|]; [|constructor].
    apply (db_step_outcome _ _ _ _ (step_package _ _ _) (create_package_outcome p w)).
  - rewrite keeps_get_packages. constructor.
  - destruct (app_user_model b) as [user|]; [|constructor].
    apply (db_step_outcome _ _ _ _ (step_user _ _ _ _ _) (create_user_outcome user w)).
  - rewrite keeps_get_user. constructor.
  - pose proof (delete_user_outcome u w) as H.
    destruct (App.delete_user u w) as [[ok|e] w']; cbn.
    + destruct H as [Hp ->]. now constructor.
    + destruct H as [_ ->]. constructor.
  - rewrite keeps_get_user_accounting. constructor.
  - rewrite keeps_get_online_users. constructor.
  - rewrite keeps_get_online_count. constructor.
  - rewrite keeps_get_user_online_status. constructor.
  - apply (db_step_outcome _ _ _ _
             (step_nas _ (Sql.mk_nas n sh (query_default "other" ty) sec
                            (query_default "RADIUS Client" descr)))
             (create_nas_outcome _ _ _ _ _ w)).
  - rewrite keeps_disconnect_session. constructor.
Qed.

(** ** Rows of one key after a step *)

Lemma radgroupcheck_of_with_package_any g' g pool d :
  radgroupcheck_of g' (with_package g pool d)
  = radgroupcheck_of g' d ++ (if String.eqb g g' then [package_check_row g] else []).
Proof. unfold radgroupcheck_of, with_package; cbn. now rewrite filter_app_fresh. Qed.

Lemma radgroupreply_of_with_package_any g' g pool d :
  radgroupreply_of g' (with_package g pool d)
  = radgroupreply_of g' d ++ (if String.eqb g g' then package_reply_rows g pool else []).
Proof.
  unfold radgroupreply_of, with_package; cbn. rewrite !filter_app_fresh. cbn.
  rewrite <- app_assoc. now destruct (String.eqb g g').
Qed.

Lemma radusergroup_of_with_user u' u p e g d :
  radusergroup_of u' (with_user u p e g d)
  = radusergroup_of u' d ++ (if String.eqb u u' then [Sql.mk_radusergroup u g] else []).
Proof. unfold radusergroup_of, with_user; cbn. now rewrite filter_app_fresh. Qed.

Lemma radusergroup_of_without_user u' u d :
  radusergroup_of u' (without_user u d)
  = if String.eqb u u' then [] else radusergroup_of u' d.
Proof.
  unfold radusergroup_of, without_user; cbn.
  destruct (String.eqb_spec u u') as [->|Hne].
  - apply (filter_negb_clears (fun r => String.eqb (Sql.ug_username r) u')).
  - apply (filter_key_other Sql.ug_username). congruence.
Qed.

Lemma nas_of_with_nas_row n row d :
  nas_of n (with_nas_row row d)
  = nas_of n d ++ (if String.eqb (Sql.nasname row) n then [row] else []).
Proof. unfold nas_of, with_nas_row; cbn. now rewrite filter_app_fresh. Qed.

Lemma unique_package_fresh g d :
  unique_package g d -> radgroupcheck_of g d = [] -> radgroupreply_of g d = [].
Proof. intros [[_ H]|[H _]] E; [exact H | congruence]. Qed.

Lemma unique_user_fresh u d :
  unique_user u d -> radcheck_of u d = [] -> radusergroup_of u d = [].
Proof.
  intros [[_ H]|(p & e & g & H & _)] E; [exact H|].
  rewrite E in H. discriminate.
Qed.

Lemma db_step_unique d d' : db_step d d' -> db_unique d -> db_unique d'.
Proof.
  intros Hstep (Hp & Hu & Hn). destruct Hstep as [ | g pool Hf | u p e g Hf | u Hf | row Hf ].
  - now repeat split.
  - repeat split; [|exact Hu|exact Hn].
    intros g'. unfold unique_package.
    rewrite radgroupcheck_of_with_package_any, radgroupreply_of_with_package_any.
    destruct (String.eqb_spec g g') as [<-|Hne].
    + right. rewrite Hf, (unique_package_fresh g d (Hp g) Hf). split; [reflexivity|].
      now exists pool.
    + rewrite !app_nil_r. apply Hp.
  - repeat split; [exact Hp| |exact Hn].
    intros u'. unfold unique_user.
    rewrite radcheck_of_with_user, radusergroup_of_with_user.
    destruct (String.eqb_spec u u') as [<-|Hne].
    + right. rewrite Hf, (unique_user_fresh u d (Hu u) Hf). now exists p, e, g.
    + rewrite !app_nil_r. apply Hu.
  - repeat split; [exact Hp| |exact Hn].
    intros u'. unfold unique_user.
    rewrite radcheck_of_without_user, radusergroup_of_without_user.
    destruct (String.eqb u u'); [now left | apply Hu].
  - repeat split; [exact Hp|exact Hu|].
    intros n. unfold unique_nas. rewrite nas_of_with_nas_row.
    destruct (String.eqb_spec (Sql.nasname row) n) as [<-|Hne].
    + now rewrite Hf.
    + rewrite app_nil_r. apply Hn.
Qed.

Lemma db_unique_empty : db_unique Sql.empty.
Proof.
  repeat split; [intros g; now left | intros u; now left|].
  intros n. unfold unique_nas, nas_of. cbn. lia.
Qed.

(** A step never writes accounting rows and only appends to the package
    tables and to [nas]. *)
Lemma db_step_grows d d' :
  db_step d d' ->
  Sql.radacct d' = Sql.radacct d
  /\ (exists l, Sql.radgroupcheck d' = Sql.radgroupcheck d ++ l)
  /\ (exists l, Sql.radgroupreply d' = Sql.radgroupreply d ++ l)
  /\ (exists l, Sql.nas d' = Sql.nas d ++ l).
Proof.
  intros [ | g pool Hf | u p e g Hf | u Hf | row Hf ]; cbn;
    (split; [reflexivity|]); repeat split;
    try (exists []; now rewrite app_nil_r).
  - now eexists.
  - rewrite <- app_assoc. now eexists.
  - now eexists.
Qed.

(** X7: whatever the request (route, parameters, body, bearer token) and
    whatever the backend does, app.py changes the committed database in one
    of five ways: not at all; by the three rows of a package whose name had
    no radgroupcheck row; by the three rows of a user whose name had no
    radcheck row; by removing every radcheck and radusergroup row of a user
    who had a radcheck row; by one nas row under a name that had none. *)
Theorem request_is_one_step (env : Env) (req : Request) (w : App.World) :
  db_step (App.db w) (App.db (snd (Routes.app env req w))).
Proof. exact (app_db_step env req w). Qed.

Lemma unique_names_kept_run env reqs :
  forall w : App.World,
    db_unique (App.db w) ->
    db_unique (App.db (snd (Routes.run (Routes.app env) reqs w))).
Proof.
  induction reqs as [|r rest IH]; intros w H; [exact H|].
  rewrite run_cons. cbn [snd]. apply IH.
  exact (db_step_unique _ _ (app_db_step env r w) H).
Qed.

(** X8: names stay unique in app.py's database: if every package has its
    one check row and two reply rows or no row, every user the two check
    rows and one membership row or no row, and every NAS name at most one
    row, then the same holds after any sequence of requests, whatever the
    backend does in between. *)
Theorem unique_names_kept (env : Env) (reqs : list Request) :
  forall w : App.World,
    db_unique (App.db w) ->
    db_unique (App.db (snd (Routes.run (Routes.app env) reqs w))).
Proof. exact (unique_names_kept_run env reqs). Qed.

Lemma unique_names_kept_witness :
  db_unique (App.db (snd (Routes.run (Routes.app env0) session0 world_flaky))).
Proof. exact (unique_names_kept env0 session0 world_flaky db_unique_empty). Defined.

(** X9: no sequence of requests to app.py writes an accounting row, and it
    only ever appends to radgroupcheck, radgroupreply and nas: the rows
    these tables held are still there, unchanged and in place. *)
Theorem accounting_untouched (env : Env) (reqs : list Request) :
  forall w : App.World,
    let d' := App.db (snd (Routes.run (Routes.app env) reqs w)) in
    Sql.radacct d' = Sql.radacct (App.db w)
    /\ (exists l, Sql.radgroupcheck d' = Sql.radgroupcheck (App.db w) ++ l)
    /\ (exists l, Sql.radgroupreply d' = Sql.radgroupreply (App.db w) ++ l)
    /\ (exists l, Sql.nas d' = Sql.nas (App.db w) ++ l).
Proof.
  induction reqs as [|r rest IH]; intros w d'; subst d'.
  - repeat split; try (exists []; now rewrite app_nil_r).
  - rewrite run_cons. cbn [snd].
    destruct (IH (snd (Routes.app env r w))) as (Ha & [l1 H1] & [l2 H2] & [l3 H3]).
    destruct (db_step_grows _ _ (app_db_step env r w))
      as (Ha' & [k1 K1] & [k2 K2] & [k3 K3]).
    rewrite Ha, H1, H2, H3, Ha', K1, K2, K3, <- !app_assoc.
    repeat split; now eexists.
Qed.

(* ===================================================================== *)
(** * Accounting and online sessions (app.py) *)
(* ===================================================================== *)

Lemma insert_by_id_In r x l :
  In x (Sql.insert_by_id r l) <-> x = r \/ In x l.
Proof.
  induction l as [|a l IH]; simpl; [intuition congruence|].
  destruct (Sql.radacctid r <=? Sql.radacctid a); simpl; [intuition congruence|].
  rewrite IH. intuition congruence.
Qed.

Lemma order_by_In x l : In x (Sql.order_by_radacctid l) <-> In x l.
Proof.
  induction l as [|a l IH]; simpl; [tauto|].
  rewrite insert_by_id_In, IH. intuition congruence.
Qed.

Lemma insert_by_id_length r l :
  length (Sql.insert_by_id r l) = S (length l).
Proof.
  induction l as [|a l IH]; simpl; [reflexivity|].
  destruct (Sql.radacctid r <=? Sql.radacctid a); simpl; [reflexivity | now rewrite IH].
Qed.

Lemma order_by_length l : length (Sql.order_by_radacctid l) = length l.
Proof.
  induction l as [|a l IH]; simpl; [reflexivity|].
  now rewrite insert_by_id_length, IH.
Qed.

Lemma insert_by_id_sorted r l :
  StronglySorted Z.le (map Sql.radacctid l) ->
  StronglySorted Z.le (map Sql.radacctid (Sql.insert_by_id r l)).
Proof.
  induction l as [|a l IH]; simpl; intros H.
  - repeat constructor.
  - apply StronglySorted_inv in H as [Hs Ha].
    destruct (Z.leb_spec (Sql.radacctid r) (Sql.radacctid a)); simpl.
    + constructor; [now constructor|].
      constructor; [assumption|].
      apply List.Forall_forall. intros y Hy. rewrite List.Forall_forall in Ha.
      specialize (Ha y Hy). lia.
    + constructor; [now apply IH|].
      apply List.Forall_forall. intros y Hy. apply in_map_iff in Hy as (x & <- & Hx).
      apply insert_by_id_In in Hx as [->|Hx]; [lia|].
      rewrite List.Forall_forall in Ha. apply Ha. now apply in_map.
Qed.

Lemma order_by_sorted l :
  StronglySorted Z.le (map Sql.radacctid (Sql.order_by_radacctid l)).
Proof.
  induction l as [|a l IH]; simpl; [constructor | now apply insert_by_id_sorted].
Qed.

Lemma In_firstn {A : Type} (x : A) n (l : list A) : In x (firstn n l) -> In x l.
Proof.
  revert l. induction n as [|n IH]; intros [|a l]; simpl; try tauto.
  intros [->|H]; [now left | right; now apply IH].
Qed.

Lemma In_skipn {A : Type} (x : A) n (l : list A) : In x (skipn n l) -> In x l.
Proof.
  revert l. induction n as [|n IH]; intros [|a l]; simpl; try tauto.
  intros H. right. now apply IH.
Qed.

Lemma StronglySorted_skipn {A : Type} (R : A -> A -> Prop) n (l : list A) :
  StronglySorted R l -> StronglySorted R (skipn n l).
Proof.
  revert l. induction n as [|n IH]; intros l H; [exact H|].
  destruct l as [|a l]; [exact H|]. simpl.
  apply StronglySorted_inv in H as [Hs _]. now apply IH.
Qed.

Lemma StronglySorted_firstn {A : Type} (R : A -> A -> Prop) n (l : list A) :
  StronglySorted R l -> StronglySorted R (firstn n l).
Proof.
  revert l. induction n as [|n IH]; intros l H; [constructor|].
  destruct l as [|a l]; [constructor|]. simpl.
  apply StronglySorted_inv in H as [Hs Ha]. constructor; [now apply IH|].
  apply List.Forall_forall. intros y Hy. rewrite List.Forall_forall in Ha.
  apply Ha. now apply In_firstn in Hy.
Qed.

Lemma In_firstn_skipn {A : Type} (x : A) n m (l : list A) :
  In x (firstn n (skipn m l)) -> In x l.
Proof. intros H. apply In_firstn in H. now apply In_skipn in H. Qed.

Lemma map_firstn_skipn {A B : Type} (f : A -> B) n m (l : list A) :
  map f (firstn n (skipn m l)) = firstn n (skipn m (map f l)).
Proof. now rewrite <- List.firstn_map, <- List.skipn_map. Qed.

(** X10: GET /acct/{username}/{limit}/{offset} in app.py, for non-negative
    limit and offset on a reliable backend, always answers 200 (also for a
    username that has no user rows): count is the number of the user's
    accounting sessions, data has min(limit, max(0, count - offset)) items,
    and the items are sessions of that user taken from radacct, with all
    twelve columns, in ascending order of radacctid. *)
Theorem accounting_page (env : Env) (u : string) (limit offset : Z) (w : App.World) :
  reliable w -> 0 <= limit -> 0 <= offset ->
  let r := fst (Routes.app env (authorized env (GET_acct u limit offset)) w) in
  let N := Z.of_nat (length (sessions_of u (App.db w))) in
  exists page,
    r = mkResponse 200 (PaginatedResponse N (map Sql.radacct_full_row page)) []
    /\ Z.of_nat (length page) = Z.min limit (Z.max 0 (N - offset))
    /\ StronglySorted Z.le (map Sql.radacctid page)
    /\ (forall s, In s page -> In s (Sql.radacct (App.db w)) /\ Sql.username s = u).
Proof.
  intros Hw Hl Ho r N. subst r N. open_world w Hw. enter_route.
  unfold App.get_user_accounting. run_sql.
  rewrite (limit_offset_nonneg _ _ _ Hl Ho). cbn.
  fold (sessions_of u d).
  exists (firstn (Z.to_nat limit)
            (skipn (Z.to_nat offset) (Sql.order_by_radacctid (sessions_of u d)))).
  split; [reflexivity|]. split; [|split].
  - rewrite length_take, length_drop, order_by_length. lia.
  - rewrite map_firstn_skipn.
    apply StronglySorted_firstn, StronglySorted_skipn, order_by_sorted.
  - intros s Hs. apply In_firstn_skipn in Hs.
    apply (proj1 (order_by_In _ _)) in Hs.
    unfold sessions_of in Hs. apply List.filter_In in Hs as [Hin Hu].
    split; [exact Hin | now apply String.eqb_eq].
Qed.

Lemma count_where_existsb {A : Type} (p : A -> bool) (l : list A) :
  (0 <? Sql.count_where p l) = existsb p l.
Proof.
  destruct (existsb p l) eqn:E.
  - apply count_where_ltb. intros F. apply filter_nil_existsb in F. congruence.
  - apply filter_nil_existsb in E. now rewrite (count_where_none _ _ E).
Qed.

Lemma existsb_filter {A : Type} (p q : A -> bool) (l : list A) :
  existsb p (List.filter q l) = existsb (fun x => q x && p x) l.
Proof.
  induction l as [|a l IH]; simpl; [reflexivity|].
  destruct (q a); simpl; now rewrite IH.
Qed.

Lemma existsb_pointwise {A : Type} (p q : A -> bool) (l : list A) :
  (forall x, p x = q x) -> existsb p l = existsb q l.
Proof. intros H. induction l as [|a l IH]; simpl; [reflexivity | now rewrite H, IH]. Qed.

Lemma listed_online_rows u (l : list Sql.radacct_row) :
  listed u (map Sql.radacct_online_row l)
  = existsb (fun r => String.eqb (Sql.username r) u) l.
Proof.
  unfold listed. induction l as [|a l IH]; simpl; [reflexivity|].
  now rewrite IH.
Qed.

(** X11: on a reliable backend the three online routes of app.py agree
    with each other: GET /online lists the accounting sessions whose stop
    time is null, GET /onlinecount is the length of that list, and for a
    user with check-attribute rows GET /online/{username} says Online
    exactly when the list holds a session of that user. *)
Theorem online_routes_agree (env : Env) (w : App.World) :
  reliable w ->
  let rows := map Sql.radacct_online_row (open_sessions (App.db w)) in
  fst (Routes.app env (authorized env GET_online) w) = mkResponse 200 (RowList rows) []
  /\ fst (Routes.app env (authorized env GET_onlinecount) w)
     = mkResponse 200 (Object [("total_online", Int (Z.of_nat (length rows)))]) []
  /\ forall u, radcheck_of u (App.db w) <> [] ->
       fst (Routes.app env (authorized env (GET_online_user u)) w)
       = mkResponse 200 (online_status (listed u rows)) [].
Proof.
  intros Hw rows. subst rows. open_world w Hw.
  unfold open_sessions; cbn [App.db]. split; [|split].
  - enter_route. reflexivity.
  - enter_route. unfold App.get_online_count. run_sql. unfold Sql.count_where.
    now rewrite length_map.
  - intros u Hu. enter_route. unfold App.get_user_online_status. run_sql.
    unfold radcheck_of in Hu; cbn in Hu. rewrite (count_where_eqb _ _ Hu). cbn.
    rewrite count_where_existsb, listed_online_rows, existsb_filter.
    unfold online_status.
    now rewrite (existsb_pointwise _ _ _
                   (fun r => andb_comm (String.eqb (Sql.username r) u)
                               (Sql.is_null (Sql.acctstoptime r)))).
Qed.

(* ===================================================================== *)
(** * A backend that is down; the health report *)
(* ===================================================================== *)

(** X12: when the backend cannot hand out a connection, every route of
    app.py that consults the store answers an authorised, well-formed
    request with 500 and the detail Database error: followed by the
    backend's own message; no statement is sent and the database stays as it
    was. *)
Theorem backend_down (env : Env) (c : Call) (msg : string) (w : App.World) :
  reaches_store c = true ->
  (exists rest, App.faults w = Some msg :: rest) ->
  let out := Routes.app env (authorized env c) w in
  fst out = mkResponse 500 (ErrorDetail ("Database error: " +:+ msg)) []
  /\ App.db (snd out) = App.db w
  /\ App.journal (snd out) = App.journal w.
Proof.
  intros Hc [rest Hf] out. subst out. destruct w as [d fs j sr sp]. cbn in Hf. subst fs.
  destruct c as [ | | b | limit offset | b | u | u | u limit offset | | | u
                | n sh sec ty descr | session nas ];
    try discriminate Hc; enter_route; cbn in Hc; try (now repeat split).
  - destruct (app_package_model b); [now repeat split | discriminate].
  - unfold app_user_model. rewrite Hc. now repeat split.
Qed.

(** X13: GET /health in app.py needs no token and always answers 200
    without changing the database, whatever the backend does: the status
    field is healthy, with database connected, when the probe query goes
    through, and unhealthy otherwise; the timestamp is the current time. *)
Theorem health_report (env : Env) (auth : option string) (w : App.World) :
  let out := Routes.app env (mkRequest auth GET_health) w in
  status (fst out) = 200
  /\ App.db (snd out) = App.db w
  /\ exists database,
       body (fst out)
       = Object [("status", Str (if probe_succeeds w then "healthy" else "unhealthy"));
                 ("database", Str database);
                 ("timestamp", Str (now env))]
       /\ (probe_succeeds w = true <-> database = "connected").
Proof.
  intros out. subst out. destruct w as [d fs j sr sp].
  unfold Routes.app; cbn [call]. unfold serve, App.health_check, probe_succeeds.
  cbn [App.faults].
  destruct fs as [|[m|] [|[m'|] fs]]; cbn;
    (split; [reflexivity|]; split; [reflexivity|]; eexists; split; [reflexivity|]);
    split; try reflexivity; discriminate.
Qed.

(* ===================================================================== *)
(** * Creating a user and reading it back *)
(* ===================================================================== *)

(** X14: a user that was just created is returned by GET /user with the
    password and the expiration date that were posted, in that order.  In
    app.py the username must have no check-attribute row and the backend be
    reliable; in test_app.py the username must be new and the package
    known. *)
Theorem created_user_is_returned (env : Env) (b : UserJson.t) :
  valid_user b = true ->
  let requests := [authorized env (POST_user b);
                   authorized env (GET_user (UserJson.username b))] in
  let answers := [user_created;
                  user_logdata (UserJson.username b) (UserJson.passwd b)
                    (UserJson.expdate b)] in
  (forall w, reliable w ->
     radcheck_of (UserJson.username b) (App.db w) = [] ->
     fst (Routes.run (Routes.app env) requests w) = answers)
  /\
  (forall s,
     Py.contains (UserJson.username b) (TestApp.mock_users s) = false ->
     Py.contains (UserJson.package b) (TestApp.mock_packages s) = true ->
     fst (Routes.run (Routes.test_app env) requests s) = answers).
Proof.
  intros Hv requests answers. subst requests answers. split.
  - intros w Hw Hf. rewrite !run_cons. cbn [Routes.run fst snd].
    rewrite (app_create_user_fresh env b w Hw Hv Hf). cbn [fst snd].
    rewrite (app_get_user env _ _ (reliable_after _ _ w Hw)).
    cbn [fst]. unfold after; cbn [App.db App.with_db].
    rewrite radcheck_of_with_user, Hf, String.eqb_refl. reflexivity.
  - intros s Hu Hp. rewrite !run_cons. cbn [Routes.run fst snd].
    rewrite (test_create_user_result env b s Hv), Hu, Hp. cbn [fst snd].
    rewrite test_get_user. cbn [fst TestApp.mock_users].
    rewrite getitem_app_fresh by now apply contains_getitem.
    reflexivity.
Qed.

Lemma created_user_is_returned_witness :
  fst (Routes.run (Routes.app env0)
         [authorized env0 (POST_user (alice "ghost"));
          authorized env0 (GET_user "alice")] world0)
  = [user_created; user_logdata "alice" "pw123" "2025-12-31"].
Proof.
  destruct (created_user_is_returned env0 (alice "ghost") eq_refl) as [Happ _].
  exact (Happ world0 eq_refl eq_refl).
Defined.

(** X15: in a database of app.py in which names are unique, GET /user on a
    reliable backend answers 404 or, for an existing user, exactly two
    rows: the user's password and then the expiration date. *)
Theorem get_user_two_rows (env : Env) (u : string) (w : App.World) :
  reliable w -> db_unique (App.db w) ->
  let r := fst (Routes.app env (authorized env (GET_user u)) w) in
  (radcheck_of u (App.db w) = [] /\ r = user_not_found)
  \/ (exists passwd expdate,
        radcheck_of u (App.db w) = user_check_rows u passwd expdate
        /\ r = user_logdata u passwd expdate).
Proof.
  intros Hw (_ & Hu & _) r. subst r. rewrite (app_get_user env u w Hw). cbn [fst].
  destruct (Hu u) as [[E _] | (p & e & g & E & _)]; rewrite E.
  - now left.
  - right. now exists p, e.
Qed.

Lemma get_user_two_rows_witness :
  let r := fst (Routes.app env0 (authorized env0 (GET_user "alice")) world_alice) in
  (radcheck_of "alice" (App.db world_alice) = [] /\ r = user_not_found)
  \/ (exists passwd expdate,
        radcheck_of "alice" (App.db world_alice) = user_check_rows "alice" passwd expdate
        /\ r = user_logdata "alice" passwd expdate).
Proof.
  refine (get_user_two_rows env0 "alice" world_alice eq_refl _).
  exact (unique_names_kept_run env0 _ world0 db_unique_empty).
Defined.

(* ===================================================================== *)
(** * test_app.py: what a request may do to the dictionaries *)
(* ===================================================================== *)

Lemma test_app_store_step env (req : Request) (s : TestApp.Store) :
  store_step s (snd (Routes.test_app env req s)).
Proof.
  destruct req as [auth c]. unfold Routes.test_app; cbn [call Routes.bearer].
  destruct c as [ | | b | limit offset | b | u | u | u limit offset | | | u
                | n sh sec ty descr | session nas ];
    rewrite snd_serve;
    try (rewrite Depends_gate; destruct (gate_passes env auth); [|constructor]);
    try (constructor; fail).
  - destruct (test_package_model b) as [p|]; [|constructor].
    unfold TestApp.create_package.
    destruct (Py.contains _ (TestApp.mock_packages s)) eqn:E; [constructor|].
    cbn. rewrite setitem_fresh by now apply contains_getitem.
    now constructor.
  - destruct (test_user_model b) as [user|]; [|constructor].
    unfold TestApp.create_user.
    destruct (Py.contains _ (TestApp.mock_users s)) eqn:E; [constructor|].
    destruct (Py.contains _ (TestApp.mock_packages s)) eqn:P; [|constructor].
    cbn. rewrite setitem_fresh by now apply contains_getitem.
    now constructor.
  - unfold TestApp.get_user.
    destruct (Py.getitem u (TestApp.mock_users s)); constructor.
  - unfold TestApp.delete_user.
    destruct (Py.contains u (TestApp.mock_users s)) eqn:E; [|constructor].
    cbn. now constructor.
  - unfold TestApp.get_user_accounting.
    destruct (Py.contains u (TestApp.mock_users s)); constructor.
  - unfold TestApp.get_user_online_status.
    destruct (Py.contains u (TestApp.mock_users s)); constructor.
  - unfold TestApp.create_nas.
    destruct (Py.contains n (TestApp.mock_nas s)) eqn:E; [constructor|].
    cbn. rewrite setitem_fresh by now apply contains_getitem.
    now constructor.
Qed.

Lemma NoDup_keys_app {V : Type} (k : string) (v : V) (d : Py.dict V) :
  NoDup (Py.keys d) -> Py.contains k d = false -> NoDup (Py.keys (d ++ [(k, v)])).
Proof.
  intros Hd Hk. rewrite keys_app. cbn.
  apply NoDup_app. split; [exact Hd|]. split; [|repeat constructor; now intros H].
  intros x Hx Hin. apply list_elem_of_In in Hx, Hin.
  destruct Hin as [<-|[]]. now apply contains_keys in Hk.
Qed.

Lemma keys_delitem {V : Type} (k : string) (d : Py.dict V) :
  Py.keys (Py.delitem k d)
  = List.filter (fun k' => negb (String.eqb k' k)) (Py.keys d).
Proof.
  unfold Py.delitem, Py.keys. induction d as [|[k' v] d IH]; simpl; [reflexivity|].
  destruct (String.eqb k' k); simpl; now rewrite IH.
Qed.

Lemma NoDup_keys_delitem {V : Type} (k : string) (d : Py.dict V) :
  NoDup (Py.keys d) -> NoDup (Py.keys (Py.delitem k d)).
Proof.
  rewrite keys_delitem. intros H. apply NoDup_ListNoDup.
  apply List.NoDup_filter. now apply NoDup_ListNoDup.
Qed.

Lemma getitem_app_cases {V : Type} (k k' : string) (v e : V) (d : Py.dict V) :
  Py.contains k d = false ->
  Py.getitem k' (d ++ [(k, v)]) = Some e ->
  (k' = k /\ e = v) \/ (k' <> k /\ Py.getitem k' d = Some e).
Proof.
  intros Hk H. destruct (String.eqb_spec k' k) as [->|Hne].
  - left. rewrite getitem_app_fresh in H by now apply contains_getitem.
    split; [reflexivity | congruence].
  - right. rewrite getitem_app_other in H by exact Hne. now split.
Qed.

Lemma contains_app_keeps {V : Type} (k k' : string) (v : V) (d : Py.dict V) :
  Py.contains k' d = true -> Py.contains k' (d ++ [(k, v)]) = true.
Proof.
  unfold Py.contains. induction d as [|[k0 v0] d IH]; simpl; [discriminate|].
  now destruct (String.eqb k0 k').
Qed.

Lemma getitem_delitem_Some {V : Type} (k k' : string) (e : V) (d : Py.dict V) :
  Py.getitem k' (Py.delitem k d) = Some e -> k' <> k /\ Py.getitem k' d = Some e.
Proof.
  intros H. destruct (String.eqb_spec k' k) as [->|Hne].
  - now rewrite getitem_delitem in H.
  - split; [exact Hne|]. now rewrite getitem_delitem_other in H.
Qed.

Lemma store_step_ok s s' : store_step s s' -> store_ok s -> store_ok s'.
Proof.
  intros Hstep [Hu Hp Hn Hue Hpe Hne].
  destruct Hstep as [ | g e Hf He | u e Hf He Hpk | u Hin | n e Hf He ];
    split; cbn [TestApp.mock_users TestApp.mock_packages TestApp.mock_nas];
    try assumption.
  - now apply NoDup_keys_app.
  - intros u e' H. destruct (Hue u e' H) as [H1 H2]. split; [exact H1|].
    now apply contains_app_keeps.
  - intros g' e' H. apply getitem_app_cases in H as [[-> ->]|[_ H]];
      [exact He | now apply Hpe | exact Hf].
  - now apply NoDup_keys_app.
  - intros u' e' H. apply getitem_app_cases in H as [[-> ->]|[_ H]];
      [now split | now apply Hue | exact Hf].
  - now apply NoDup_keys_delitem.
  - intros u' e' H. apply getitem_delitem_Some in H as [_ H]. now apply Hue.
  - now apply NoDup_keys_app.
  - intros n' e' H. apply getitem_app_cases in H as [[-> ->]|[_ H]];
      [exact He | now apply Hne | exact Hf].
Qed.

Lemma store_ok_empty : store_ok TestApp.empty.
Proof. split; cbn; try constructor; discriminate. Qed.

Lemma keys_setitem_present {V : Type} (k : string) (v : V) (d : Py.dict V) :
  Py.getitem k d <> None -> Py.keys (Py.setitem k v d) = Py.keys d.
Proof.
  induction d as [|[k' v'] d IH]; simpl; [congruence|].
  destruct (String.eqb_spec k' k) as [->|Hk]; simpl; [reflexivity|].
  intros H. now rewrite IH.
Qed.

Lemma store_ok_lifespan s : store_ok s -> store_ok (TestApp.lifespan s).
Proof.
  intros [Hu Hp Hn Hue Hpe Hnas]. unfold TestApp.lifespan.
  split; cbn [TestApp.mock_users TestApp.mock_packages TestApp.mock_nas];
    try assumption.
  - destruct (Py.getitem "basic_package" (TestApp.mock_packages s)) eqn:E.
    + rewrite keys_setitem_present by congruence. exact Hp.
    + rewrite setitem_fresh by exact E. apply NoDup_keys_app; [exact Hp|].
      now apply contains_getitem.
  - intros u e H. destruct (Hue u e H) as [H1 H2]. split; [exact H1|].
    unfold Py.contains in *.
    destruct (String.eqb_spec "basic_package" (TestApp.us_package e)) as [<-|Hne].
    + now rewrite getitem_setitem.
    + now rewrite getitem_setitem_other by congruence.
  - intros g e H.
    destruct (String.eqb_spec g "basic_package") as [->|Hne].
    + rewrite getitem_setitem in H. now injection H as <-.
    + rewrite getitem_setitem_other in H by exact Hne. now apply Hpe.
Qed.

Lemma store_ok_run env reqs :
  forall s, store_ok s -> store_ok (snd (Routes.run (Routes.test_app env) reqs s)).
Proof.
  induction reqs as [|r rest IH]; intros s H; [exact H|].
  rewrite run_cons. cbn [snd]. apply IH.
  exact (store_step_ok _ _ (test_app_store_step env r s) H).
Qed.

(** X16: whatever the request (route, parameters, body, bearer token),
    test_app.py changes its dictionaries in one of five ways: not at all; by
    one package entry under a new name; by one user entry under a new
    username whose package is a stored package; by removing the entry of an
    existing user together with that user's accounting entry; by one NAS
    entry under a new name.  Each new entry records the name it is stored
    under. *)
Theorem test_request_is_one_step (env : Env) (req : Request) (s : TestApp.Store) :
  store_step s (snd (Routes.test_app env req s)).
Proof. exact (test_app_store_step env req s). Qed.

(** X17: test_app.py keeps its store consistent over any sequence of
    requests: every username, package name and NAS name is stored once,
    every entry records the name it is stored under, and the package of
    every stored user is a stored package (no request removes a package). *)
Theorem store_consistency_kept (env : Env) (reqs : list Request) (s : TestApp.Store) :
  store_ok s -> store_ok (snd (Routes.run (Routes.test_app env) reqs s)).
Proof. exact (store_ok_run env reqs s). Qed.

Lemma store_consistency_kept_witness :
  store_ok (snd (Routes.run (Routes.test_app env0) session0 store_started)).
Proof.
  exact (store_consistency_kept env0 session0 store_started
           (store_ok_lifespan _ store_ok_empty)).
Defined.

(* ===================================================================== *)
(** * test_app.py: made-up accounting and online data *)
(* ===================================================================== *)

Lemma slice_length_bounds {A : Type} (l : list A) (offset limit : Z) :
  Z.of_nat (length (Py.slice l offset (offset + limit))) <= Z.of_nat (length l)
  /\ (0 <= limit -> Z.of_nat (length (Py.slice l offset (offset + limit))) <= limit).
Proof.
  unfold Py.slice, Py.clip. rewrite length_take, length_drop.
  destruct (Z.ltb_spec offset 0), (Z.ltb_spec (offset + limit) 0); lia.
Qed.

Lemma mock_record_username u i : row_username (TestApp.mock_record u i) = Some u.
Proof. reflexivity. Qed.

(** X18: GET /acct/{username}/{limit}/{offset} in test_app.py answers 404
    for a username that is not in mock_users; for a stored user it answers
    200 for every integer limit and offset, negative ones included, with
    count 5 and a page of records that all carry the requested username; the
    page never has more than 5 records, for a non-negative limit it never
    has more than limit records, and for non-negative limit and offset it
    has min(limit, max(0, 5 - offset)). *)
Theorem test_accounting_page (env : Env) (u : string) (limit offset : Z)
    (s : TestApp.Store) :
  let r := fst (Routes.test_app env (authorized env (GET_acct u limit offset)) s) in
  (Py.contains u (TestApp.mock_users s) = false -> r = user_not_found)
  /\ (Py.contains u (TestApp.mock_users s) = true ->
      exists data,
        r = mkResponse 200 (PaginatedResponse 5 data) []
        /\ Forall (fun row => row_username row = Some u) data
        /\ Z.of_nat (length data) <= 5
        /\ (0 <= limit -> Z.of_nat (length data) <= limit)
        /\ (0 <= limit -> 0 <= offset ->
            Z.of_nat (length data) = Z.min limit (Z.max 0 (5 - offset)))).
Proof.
  intros r. subst r. enter_route. unfold TestApp.get_user_accounting.
  split; intros H; rewrite H; cbn [negb]; [reflexivity|].
  eexists. split; [reflexivity|]. split; [|split; [|split]].
  - apply List.Forall_forall. intros row Hrow.
    unfold Py.slice in Hrow. apply In_firstn_skipn in Hrow.
    apply in_map_iff in Hrow as (i & <- & _). apply mock_record_username.
  - exact (proj1 (slice_length_bounds (map (TestApp.mock_record u) [0; 1; 2; 3; 4])
                    offset limit)).
  - exact (proj2 (slice_length_bounds (map (TestApp.mock_record u) [0; 1; 2; 3; 4])
                    offset limit)).
  - intros Hl Ho.
    exact (slice_length (map (TestApp.mock_record u) [0; 1; 2; 3; 4]) offset limit Ho Hl).
Qed.

Lemma listed_keys {V : Type} (f : string * V -> Row) (u : string) (d : Py.dict V) :
  (forall entry, row_username (f entry) = Some (fst entry)) ->
  listed u (map f d) = Py.contains u d.
Proof.
  intros Hf. unfold listed, Py.contains.
  induction d as [|[k v] d IH]; simpl; [reflexivity|].
  rewrite (Hf (k, v)). simpl. destruct (String.eqb k u); [reflexivity | exact IH].
Qed.

(** X19: the three online routes of test_app.py agree with each other:
    GET /online lists one session per stored user, each with a radacctid
    from 0 to 9999, GET /onlinecount is the length of that list, and
    GET /online/{username} says Online when the list has a session of that
    user and answers 404 when it has none. *)
Theorem test_online_routes_agree (env : Env) (s : TestApp.Store) :
  exists rows,
    fst (Routes.test_app env (authorized env GET_online) s)
    = mkResponse 200 (RowList rows) []
    /\ fst (Routes.test_app env (authorized env GET_onlinecount) s)
       = mkResponse 200 (Object [("total_online", Int (Z.of_nat (length rows)))]) []
    /\ length rows = length (TestApp.mock_users s)
    /\ Forall (fun row => exists id, row_radacctid row = Some id /\ 0 <= id < 10000) rows
    /\ forall u,
         fst (Routes.test_app env (authorized env (GET_online_user u)) s)
         = if listed u rows then mkResponse 200 (online_status true) []
           else user_not_found.
Proof.
  enter_route. eexists. split; [reflexivity|]. split; [|split; [|split]].
  - unfold TestApp.get_online_count, TestApp.ret, Py.len. cbn. now rewrite length_map.
  - now rewrite length_map.
  - apply List.Forall_forall. intros row Hrow.
    apply in_map_iff in Hrow as (entry & <- & _).
    eexists. split; [reflexivity|]. apply Z.mod_pos_bound. lia.
  - intros u. enter_route. unfold TestApp.get_user_online_status.
    rewrite listed_keys by reflexivity.
    now destruct (Py.contains u (TestApp.mock_users s)).
Qed.

Lemma contains_delitem {V : Type} (k : string) (d : Py.dict V) :
  Py.contains k (Py.delitem k d) = false.
Proof. unfold Py.contains. now rewrite getitem_delitem. Qed.

Lemma length_delitem {V : Type} (k : string) (d : Py.dict V) :
  NoDup (Py.keys d) -> Py.contains k d = true ->
  S (length (Py.delitem k d)) = length d.
Proof.
  unfold Py.contains, Py.delitem.
  induction d as [|[k' v] d IH]; simpl; [discriminate|].
  intros Hd. apply NoDup_cons in Hd as [Hk Hd].
  destruct (String.eqb_spec k' k) as [->|Hne]; simpl.
  - intros _. do 2 f_equal. apply filter_fresh_id. intros [k0 v0] Hin. simpl.
    apply negb_true_iff. apply String.eqb_neq. intros ->.
    apply Hk. apply list_elem_of_In. apply in_map_iff. now exists (k, v0).
  - intros H. f_equal. now apply IH.
Qed.

(** X20: in test_app.py a user counts as online from creation to deletion:
    a POST /user answered 201 raises the total of GET /onlinecount by one
    and makes GET /online/{username} say Online; in a consistent store a
    DELETE /user answered with the deletion message lowers the total by one
    and makes GET /online/{username} answer 404. *)
Theorem online_from_creation_to_deletion (env : Env) (s : TestApp.Store) :
  store_ok s ->
  (forall b,
     let out := Routes.test_app env (authorized env (POST_user b)) s in
     status (fst out) = 201 ->
     total_online (body (fst (Routes.test_app env (authorized env GET_onlinecount) (snd out))))
     = Some (Py.len (TestApp.mock_users s) + 1)
     /\ fst (Routes.test_app env (authorized env (GET_online_user (UserJson.username b)))
               (snd out))
        = mkResponse 200 (online_status true) [])
  /\
  (forall u,
     let out := Routes.test_app env (authorized env (DELETE_user u)) s in
     body (fst out) = StatusResponse "User deleted successfully" ->
     total_online (body (fst (Routes.test_app env (authorized env GET_onlinecount) (snd out))))
     = Some (Py.len (TestApp.mock_users s) - 1)
     /\ fst (Routes.test_app env (authorized env (GET_online_user u)) (snd out))
        = user_not_found).
Proof.
  intros Hok. split.
  - intros b out. subst out. destruct (valid_user b) eqn:Hv.
    + rewrite (test_create_user_result env b s Hv).
      destruct (Py.contains (UserJson.username b) (TestApp.mock_users s)) eqn:Hu;
        [discriminate|].
      destruct (Py.contains (UserJson.package b) (TestApp.mock_packages s));
        [|discriminate].
      intros _. cbn [fst snd]. enter_route.
      unfold TestApp.get_online_count, TestApp.get_user_online_status, TestApp.ret, Py.len.
      cbn [TestApp.mock_users]. rewrite contains_app_fresh by now apply contains_getitem.
      split; [|reflexivity]. cbn. rewrite length_app. cbn. f_equal. lia.
    + rewrite (test_invalid_user env b s Hv). discriminate.
  - intros u out. subst out. rewrite test_delete_user.
    destruct (Py.contains u (TestApp.mock_users s)) eqn:Hu; [|discriminate].
    intros _. cbn [fst snd]. enter_route.
    unfold TestApp.get_online_count, TestApp.get_user_online_status, TestApp.ret, Py.len.
    cbn [TestApp.mock_users]. rewrite contains_delitem.
    split; [|reflexivity]. cbn.
    pose proof (length_delitem u _ (ok_users_once _ Hok) Hu). f_equal. lia.
Qed.

Lemma online_from_creation_to_deletion_witness :
  let out := Routes.test_app env0 (authorized env0 (DELETE_user "alice")) store_alice in
  total_online (body (fst (Routes.test_app env0 (authorized env0 GET_onlinecount) store_alice)))
  = Some 1
  /\ total_online (body (fst (Routes.test_app env0 (authorized env0 GET_onlinecount) (snd out))))
     = Some 0
  /\ fst (Routes.test_app env0 (authorized env0 (GET_online_user "alice")) (snd out))
     = user_not_found.
Proof.
  destruct (online_from_creation_to_deletion env0 store_alice
              (store_ok_run env0 _ TestApp.empty store_ok_empty)) as [_ Hdelete].
  exact (conj eq_refl (Hdelete "alice" eq_refl)).
Defined.

(* ===================================================================== *)
(** * Listing packages; the NAS insert *)
(* ===================================================================== *)

Lemma db_packages_with_package g pool d :
  radgroupcheck_of g d = [] ->
  db_packages (with_package g pool d) = db_packages d ++ [g].
Proof.
  intros Hf. unfold db_packages, with_package; cbn. rewrite map_app. cbn.
  apply distinct_app_fresh. now apply (filter_key_nil Sql.rg_groupname).
Qed.

Lemma firstn_all_skipn_0 {A : Type} (l : list A) (n : Z) :
  Z.of_nat (length l) <= n -> firstn (Z.to_nat n) (skipn (Z.to_nat 0) l) = l.
Proof. intros H. cbn. apply firstn_all2. lia. Qed.

(** X21: a package that was just created is listed: POST /package for a
    new name (well-formed body) followed by a GET /package that asks for the
    whole list from offset 0 answers 201 and then a page whose count is
    raised by one.  In app.py (the backend taken to be reliable) the page
    holds the former names and the new one, in whatever order the engine
    returns them; in test_app.py it holds the former names in the order of
    their creation, followed by the new name. *)
Theorem created_package_is_listed (env : Env) (name pool profile : string) (limit : Z) :
  length_between 1 64 name = true ->
  length_between 1 253 pool = true ->
  length_between 1 253 profile = true ->
  let requests := [authorized env (POST_package (PackageJson.make name pool (Some profile)));
                   authorized env (GET_package limit 0)] in
  (forall w, reliable w ->
     radgroupcheck_of name (App.db w) = [] ->
     Z.of_nat (length (db_packages (App.db w))) < limit ->
     exists names,
       fst (Routes.run (Routes.app env) requests w)
       = [package_created; package_page (S (length (db_packages (App.db w)))) names]
       /\ Permutation names (name :: db_packages (App.db w)))
  /\
  (forall s,
     Py.contains name (TestApp.mock_packages s) = false ->
     Z.of_nat (length (TestApp.mock_packages s)) < limit ->
     fst (Routes.run (Routes.test_app env) requests s)
     = [package_created;
        package_page (S (length (TestApp.mock_packages s)))
          (Py.keys (TestApp.mock_packages s) ++ [name])]).
Proof.
  intros Hn Hp Hf requests. subst requests. split.
  - intros w Hw Hfresh Hlim. exists (db_packages (App.db w) ++ [name]).
    split; [|symmetry; apply Permutation_cons_append].
    rewrite !run_cons. cbn [Routes.run fst snd].
    rewrite (app_create_package_fresh env (PackageJson.make name pool (Some profile))
               w Hw Hn Hp Hfresh). cbn [fst snd PackageJson.package PackageJson.pool].
    rewrite (app_get_packages env limit 0 _ (reliable_after _ _ w Hw)) by lia.
    cbn [fst]. unfold after; cbn [App.db App.with_db].
    rewrite (db_packages_with_package _ _ _ Hfresh).
    rewrite firstn_all_skipn_0 by (rewrite length_app; cbn; lia).
    unfold package_page. rewrite length_app. cbn [length].
    now replace (length (db_packages (App.db w)) + 1)%nat
      with (S (length (db_packages (App.db w)))) by lia.
  - intros s Hfresh Hlim. rewrite !run_cons. cbn [Routes.run fst snd].
    rewrite (test_create_package_fresh env (PackageJson.make name pool (Some profile))
               profile s eq_refl Hn Hp Hf Hfresh). cbn [fst snd].
    rewrite test_get_packages. cbn [fst TestApp.mock_packages].
    rewrite slice_limit_offset by lia.
    rewrite keys_app. cbn [Py.keys map fst].
    assert (length (Py.keys (TestApp.mock_packages s)) = length (TestApp.mock_packages s))
      as Hlen by apply length_map.
    rewrite firstn_all_skipn_0 by (rewrite length_app; cbn; lia).
    unfold package_page. rewrite length_app, Hlen. cbn [length].
    now replace (length (TestApp.mock_packages s) + 1)%nat
      with (S (length (TestApp.mock_packages s))) by lia.
Qed.

(** X21, a run: gold is created where basic is stored. *)
Lemma created_package_is_listed_witness :
  exists names,
    fst (Routes.run (Routes.app env0)
           [authorized env0 (POST_package (PackageJson.make "gold" "poolG" (Some "p")));
            authorized env0 (GET_package 10 0)] world_alice)
    = [package_created; package_page 2 names]
    /\ Permutation names ["gold"; "basic"].
Proof.
  destruct (created_package_is_listed env0 "gold" "poolG" "p" 10 eq_refl eq_refl eq_refl)
    as [Happ _].
  exact (Happ world_alice eq_refl eq_refl eq_refl).
Defined.

Lemma firstn_skipn_run {A : Type} (n m : nat) (l : list A) :
  exists before rest, l = before ++ firstn n (skipn m l) ++ rest.
Proof.
  exists (firstn m l), (skipn n (skipn m l)).
  now rewrite (firstn_skipn n (skipn m l)), (firstn_skipn m l).
Qed.

(** X22: GET /package/{limit}/{offset} in test_app.py answers 200 for
    every integer limit and offset, negative ones included: count is the
    number of stored packages and the page is a run of consecutive names of
    the package list, in the list's order; it never has more names than
    there are packages, and for a non-negative limit never more than
    limit. *)
Theorem test_packages_page_any_bounds (env : Env) (limit offset : Z) (s : TestApp.Store) :
  let names := Py.keys (TestApp.mock_packages s) in
  exists page before rest,
    fst (Routes.test_app env (authorized env (GET_package limit offset)) s)
    = package_page (length names) page
    /\ names = before ++ page ++ rest
    /\ (length page <= length names)%nat
    /\ (0 <= limit -> Z.of_nat (length page) <= limit).
Proof.
  intros names. rewrite test_get_packages. cbn [fst]. fold names.
  destruct (firstn_skipn_run
              (Z.to_nat (Py.clip (Z.of_nat (length names)) (offset + limit)
                         - Py.clip (Z.of_nat (length names)) offset))
              (Z.to_nat (Py.clip (Z.of_nat (length names)) offset)) names)
    as (before & rest & Hrun).
  exists (Py.slice names offset (offset + limit)), before, rest.
  split; [reflexivity|]. split; [exact Hrun|].
  destruct (slice_length_bounds names offset limit) as [H1 H2].
  split; [lia | exact H2].
Qed.

(** X4: the single insert of POST /nas in app.py is all or nothing,
    whatever the backend does: answered 200, the database holds the new row
    (with the defaults for type and description) on top of what it held and
    the name had no row before; answered anything else, the database is the
    one before the request. *)
Theorem create_nas_all_or_nothing (env : Env) (n sh sec : string)
    (ty descr : option string) (w : App.World) :
  let out := Routes.app env (authorized env (POST_nas n sh sec ty descr)) w in
  (status (fst out) = 200
   /\ nas_of n (App.db w) = []
   /\ App.db (snd out)
      = with_nas_row (Sql.mk_nas n sh (query_default "other" ty) sec
                        (query_default "RADIUS Client" descr)) (App.db w))
  \/ (status (fst out) <> 200 /\ App.db (snd out) = App.db w).
Proof.
  intros out. subst out. enter_route.
  pose proof (create_nas_outcome n sh sec (query_default "other" ty)
                (query_default "RADIUS Client" descr) w) as H.
  destruct (App.create_nas _ _ _ _ _ w) as [[ok|e] w']; cbn in *.
  - left. destruct H as [Hf Hd]. now repeat split.
  - right. destruct H as [[H|H] Hd]; rewrite H; now split.
Qed.

(* ===================================================================== *)
(** * Runs with accounting sessions and with a backend that is down *)
(* ===================================================================== *)

(** X10, a run: alice's two sessions come back in the order of their ids. *)
Lemma accounting_page_witness :
  exists page,
    fst (Routes.app env0 (authorized env0 (GET_acct "alice" 10 0)) world_sessions)
    = mkResponse 200 (PaginatedResponse 2 (map Sql.radacct_full_row page)) []
    /\ Z.of_nat (length page) = 2
    /\ StronglySorted Z.le (map Sql.radacctid page)
    /\ (forall s, In s page ->
          In s (Sql.radacct (App.db world_sessions)) /\ Sql.username s = "alice").
Proof.
  exact (accounting_page env0 "alice" 10 0 world_sessions eq_refl
           (Zle_bool_imp_le 0 10 eq_refl) (Zle_bool_imp_le 0 0 eq_refl)).
Defined.

Example accounting_page_ids :
  data_count (body (fst (Routes.app env0 (authorized env0 (GET_acct "alice" 10 0))
                           world_sessions))) = 2
  /\ map row_radacctid
       (match body (fst (Routes.app env0 (authorized env0 (GET_acct "alice" 10 0))
                           world_sessions)) with
        | PaginatedResponse _ data => data
        | _ => []
        end)
     = [Some 3; Some 7].
Proof. vm_compute. split; reflexivity. Qed.

(** X11, a run: two sessions are open, one of them alice's. *)
Lemma online_routes_agree_witness :
  fst (Routes.app env0 (authorized env0 GET_onlinecount) world_sessions)
  = mkResponse 200 (Object [("total_online", Int 2)]) []
  /\ fst (Routes.app env0 (authorized env0 (GET_online_user "alice")) world_sessions)
     = mkResponse 200 (online_status true) [].
Proof.
  destruct (online_routes_agree env0 world_sessions eq_refl) as (_ & Hcount & Huser).
  refine (conj Hcount (Huser "alice" _)). vm_compute. discriminate.
Defined.

(** X12, a run: the backend's message reaches the client. *)
Lemma backend_down_witness :
  let out := Routes.app env0 (authorized env0 (GET_user "alice")) world_down in
  fst out
  = mkResponse 500 (ErrorDetail "Database error: 2003: Can't connect to MySQL server") []
  /\ App.db (snd out) = App.db world_down
  /\ App.journal (snd out) = App.journal world_down.
Proof.
  exact (backend_down env0 (GET_user "alice") "2003: Can't connect to MySQL server"
           world_down eq_refl (ex_intro _ [] eq_refl)).
Defined.

(* ===================================================================== *)
(** * Accounting history of a deleted user *)
(* ===================================================================== *)

Lemma app_reads_radacct env (c : Call) (d1 d2 : Sql.Db) j1 j2 sr sp :
  Sql.radacct d1 = Sql.radacct d2 ->
  match c with
  | GET_acct _ _ _ | GET_online | GET_onlinecount => True
  | _ => False
  end ->
  fst (Routes.app env (authorized env c) (App.mkWorld d1 [] j1 sr sp))
  = fst (Routes.app env (authorized env c) (App.mkWorld d2 [] j2 sr sp)).
Proof.
  intros Hd Hc.
  destruct c as [ | | b | limit offset | b | u | u | u limit offset | | | u
                | n sh sec ty descr | session nas ]; try contradiction;
    enter_route.
  - unfold App.get_user_accounting. run_sql. rewrite Hd.
    now destruct (Sql.limit_offset limit offset _).
  - unfold App.get_online_users. run_sql. now rewrite Hd.
  - unfold App.get_online_count. run_sql. now rewrite Hd.
Qed.

(** X24: deleting a user in app.py leaves the user's accounting history in
    place: after a successful DELETE /user/{username} on a reliable backend,
    GET /acct for that user, GET /online and GET /onlinecount answer exactly
    as before, while GET /online/{username} now answers 404.  In
    test_app.py the deleted user's accounting entry is gone and GET /acct
    for that user answers 404. *)
Theorem deleted_user_keeps_accounting (env : Env) (u : string) :
  (forall w, reliable w -> radcheck_of u (App.db w) <> [] ->
     let w' := snd (Routes.app env (authorized env (DELETE_user u)) w) in
     (forall limit offset,
        fst (Routes.app env (authorized env (GET_acct u limit offset)) w')
        = fst (Routes.app env (authorized env (GET_acct u limit offset)) w))
     /\ fst (Routes.app env (authorized env GET_online) w')
        = fst (Routes.app env (authorized env GET_online) w)
     /\ fst (Routes.app env (authorized env GET_onlinecount) w')
        = fst (Routes.app env (authorized env GET_onlinecount) w)
     /\ fst (Routes.app env (authorized env (GET_online_user u)) w') = user_not_found)
  /\
  (forall s, Py.contains u (TestApp.mock_users s) = true ->
     let s' := snd (Routes.test_app env (authorized env (DELETE_user u)) s) in
     (forall limit offset,
        fst (Routes.test_app env (authorized env (GET_acct u limit offset)) s')
        = user_not_found)
     /\ Py.getitem u (TestApp.mock_accounting s') = None).
Proof.
  split.
  - intros w Hw Hu w'. subst w'.
    rewrite (app_delete_user_present env u w Hw Hu). cbn [snd].
    destruct w as [d fs j sr sp]. unfold reliable in Hw. cbn in Hw. subst fs.
    unfold after, App.with_db, App.with_journal; cbn [App.db App.faults App.journal
      App.subprocess_run App.spawned].
    split; [|split; [|split]].
    + intros limit offset. now apply app_reads_radacct.
    + now apply app_reads_radacct.
    + now apply app_reads_radacct.
    + enter_route. unfold App.get_user_online_status. run_sql.
      rewrite (count_where_none _ _
                 (filter_negb_clears (fun r => String.eqb (Sql.rc_username r) u) _)).
      reflexivity.
  - intros s Hu s'. subst s'. rewrite test_delete_user, Hu. cbn [snd]. split.
    + intros limit offset. enter_route. unfold TestApp.get_user_accounting.
      cbn [TestApp.mock_users]. now rewrite contains_delitem.
    + cbn [TestApp.mock_accounting].
      destruct (Py.contains u (TestApp.mock_accounting s)) eqn:Ha.
      * apply getitem_delitem.
      * now apply contains_getitem.
Qed.

Lemma deleted_user_keeps_accounting_witness :
  let w' := snd (Routes.app env0 (authorized env0 (DELETE_user "alice")) world_sessions) in
  fst (Routes.app env0 (authorized env0 (GET_acct "alice" 10 0)) w')
  = fst (Routes.app env0 (authorized env0 (GET_acct "alice" 10 0)) world_sessions)
  /\ fst (Routes.app env0 (authorized env0 (GET_user "alice")) w') = user_not_found.
Proof.
  destruct (deleted_user_keeps_accounting env0 "alice") as [Happ _].
  assert (radcheck_of "alice" (App.db world_sessions) <> []) as Hu
    by (vm_compute; discriminate).
  destruct (Happ world_sessions eq_refl Hu) as (Hacct & _).
  exact (conj (Hacct 10 0) eq_refl).
Defined.

(* ===================================================================== *)
(** * The two variants side by side: status codes and response shapes *)
(* ===================================================================== *)

(** ** Shapes *)











(** ** Stores that hold the same names *)






(** ** The reading routes, one request at a time *)










(** ** One compared call, with the configured token *)









(** What that run answers, in either variant. *)
Example session1_statuses :
  map status (fst (Routes.run (Routes.app env0) session1 world_started))
  = [200; 201; 422; 201; 400; 200; 401; 403; 200; 200; 200; 200; 200; 404; 200; 200; 404]
  /\ map status (fst (Routes.run (Routes.test_app env0) session1 store_started))
     = [200; 201; 422; 201; 400; 200; 401; 403; 200; 200; 200; 200; 200; 404; 200; 200; 404].
Proof. vm_compute. split; reflexivity. Qed.


(** The other places where the outcomes differ, each left out of the
    comparison above: the health report of test_app.py has four fields that
    app.py's has not; accounting of a username that is not stored is
    answered 200 by app.py and 404 by test_app.py; a package body without
    the profile field is answered 201 by app.py and 422 by test_app.py. *)
Example outcomes_differ_elsewhere :
  same_outcome (fst (Routes.app env0 (mkRequest None GET_health) world_started))
               (fst (Routes.test_app env0 (mkRequest None GET_health) store_started))
  = false
  /\ status (fst (Routes.app env0 (mkRequest None GET_health) world_started))
     = status (fst (Routes.test_app env0 (mkRequest None GET_health) store_started))
  /\ (status (fst (Routes.app env0 (authorized env0 (GET_acct "ghost" 10 0)) world_started)),
      status (fst (Routes.test_app env0 (authorized env0 (GET_acct "ghost" 10 0))
                     store_started)))
     = (200, 404)
  /\ (status (fst (Routes.app env0
                     (authorized env0 (POST_package (PackageJson.make "gold" "poolG" None)))
                     world_started)),
      status (fst (Routes.test_app env0
                     (authorized env0 (POST_package (PackageJson.make "gold" "poolG" None)))
                     store_started)))
     = (201, 422).
Proof. vm_compute. repeat split. Qed.
